(** * Purrfect Universe NFT marketplace: offers, bids and settlement

    A shallow embedding of the marketplace contracts
    ([marketplace.ts], the v2.2 marketplace and [bids.ts]) together with
    the storage classes of [marketplace-complex.ts], and the properties
    of the offer/bid engine stated over it.

    Layout:
    - [AsTypes]   the wire format of [@massalabs/as-types] (Args, Result,
                  integer/byte conversions) that the contracts call;
    - [Sdk]       the host primitives of [@massalabs/massa-as-sdk] as an
                  abort-or-continue state monad over the datastore, with
                  a log of the host operations in program order;
    - [Complex]   SellOffer / Bid and their (de)serialisers;
    - [V1]        the earlier marketplace ([marketplace.ts]);
    - [V22]       the v2.2 marketplace and its bid system ([bids.ts]).
*)

From Stdlib Require Import ZArith List String Ascii Lia Bool.
From Stdlib.Strings Require Import Byte.
From stdpp Require Import base gmap strings list pretty sorting.

Local Open Scope Z_scope.

(** The byte strings of the contracts ([StaticArray<u8>]). *)
Abbreviation bytes := (list byte).

(* ===================================================================== *)
(** ** Unsigned machine integers *)

Definition wrap (w : Z) (z : Z) : Z := z mod 2 ^ w.
Definition wrap8 : Z -> Z := wrap 8.
Definition wrap32 : Z -> Z := wrap 32.
Definition wrap64 : Z -> Z := wrap 64.
Definition wrap256 : Z -> Z := wrap 256.

(* ===================================================================== *)
(** ** [@massalabs/as-types]: byte conversions, [Result] and [Args] *)

Module AsTypes.

Definition Z_of_byte (b : byte) : Z := Z.of_N (Byte.to_N b).

Definition byte_of_Z (z : Z) : byte :=
  match Byte.of_N (Z.to_N (z mod 256)) with
  | Some b => b
  | None => x00
  end.

(** Little-endian fixed-width encoding, as [u32ToBytes], [u64ToBytes]
    and [u256ToBytes] store it. *)
Fixpoint le_bytes (n : nat) (z : Z) : bytes :=
  match n with
  | O => []
  | S n' => byte_of_Z z :: le_bytes n' (z / 256)
  end.

Fixpoint le_value (bs : bytes) : Z :=
  match bs with
  | [] => 0
  | b :: r => Z_of_byte b + 256 * le_value r
  end.

Definition u32ToBytes (z : Z) : bytes := le_bytes 4 z.
Definition u64ToBytes (z : Z) : bytes := le_bytes 8 z.
Definition u256ToBytes (z : Z) : bytes := le_bytes 32 z.

(** [bytesToU64] loads eight bytes; on the values the contracts read
    (written by [u64ToBytes]) that is the whole array. *)
Definition bytesToU64 (bs : bytes) : Z := le_value (take 8 bs).

(** Strings are kept as their UTF-8 bytes, so the two conversions only
    change the container.  The library decodes with [String.UTF8.decode]:
    on the bytes 1..127 that gives one character per byte, and these are
    the strings [Obs.plain_ascii] names.  On other bytes the decoder merges
    or drops bytes, which this representation does not follow; a statement
    that rests on which string an argument decodes to assumes
    [Obs.plain_ascii] of it. *)
Definition stringToBytes (s : string) : bytes := list_byte_of_string s.
Definition bytesToString (bs : bytes) : string := string_of_list_byte bs.

(** [byteToBool(arr)] is [!!arr[0]]; indexing an empty array traps. *)
Definition byteToBool (bs : bytes) : option bool :=
  match bs with
  | [] => None
  | b :: _ => Some (negb (Byte.eqb b x00))
  end.

(** [class Result<T> { constructor(value: T, error: string | null = null) }]
    with [isOk() = !this.error]. *)
Record Result (T : Type) : Type := mkResult {
  value : T;
  error : option string
}.
Arguments mkResult {T} _ _.
Arguments value {T} _.
Arguments error {T} _.

(** [new Result(v)]: the error defaults to [null]. *)
Definition Result_new {T : Type} (v : T) : Result T := mkResult v None.

Definition isOk {T : Type} (r : Result T) : bool :=
  match error r with
  | None => true
  | Some _ => false
  end.

Definition isErr {T : Type} (r : Result T) : bool := negb (isOk r).

(** [class Args]: a byte array and a read offset. *)
Record Args : Type := mkArgs {
  serialized : bytes;
  offset : nat
}.

Definition Args_new (data : bytes) (off : nat) : Args := mkArgs data off.
Definition Args_empty : Args := mkArgs [] 0.

Definition getNextData (a : Args) (size : nat) : bytes :=
  take size (drop (offset a) (serialized a)).

(** A fixed-width read: [None] stands for the library's error result
    (offset + size beyond the array). *)
Definition nextFixed (size : nat) (a : Args) : option (Z * Args) :=
  if (offset a + size <=? length (serialized a))%nat
  then Some (le_value (getNextData a size),
             mkArgs (serialized a) (offset a + size))
  else None.

Definition nextU32 : Args -> option (Z * Args) := nextFixed 4.
Definition nextU64 : Args -> option (Z * Args) := nextFixed 8.
Definition nextU256 : Args -> option (Z * Args) := nextFixed 32.

(** The length check is made in unbounded arithmetic.  A read that
    succeeds here succeeds in the library with the same bytes (the array
    being shorter than 2^31 bytes, the library's 32-bit sum is the same
    number); the statements below only use successful reads. *)
Definition nextString (a : Args) : option (string * Args) :=
  match nextU32 a with
  | None => None
  | Some (len, a') =>
      let n := Z.to_nat len in
      if (offset a' + n <=? length (serialized a'))%nat
      then Some (bytesToString (getNextData a' n),
                 mkArgs (serialized a') (offset a' + n))
      else None
  end.

Definition add_bytes (bs : bytes) (a : Args) : Args :=
  mkArgs (serialized a ++ bs) (offset a).

Definition add_u32 (z : Z) : Args -> Args := add_bytes (u32ToBytes z).
Definition add_u64 (z : Z) : Args -> Args := add_bytes (u64ToBytes z).
Definition add_u256 (z : Z) : Args -> Args := add_bytes (u256ToBytes z).

(** [add<string>]: the byte length as a u32, then the bytes. *)
Definition add_string (s : string) (a : Args) : Args :=
  let b := stringToBytes s in
  add_bytes b (add_u32 (Z.of_nat (length b)) a).

Definition serialize (a : Args) : bytes := serialized a.

End AsTypes.

(* ===================================================================== *)
(** ** [@massalabs/massa-as-sdk]: the host

    One invocation of an entry point runs against the invocation context
    (caller, callee, timestamp, attached coins), the contract's datastore
    and the other contracts of the chain.  It either runs to completion
    or aborts; an abort discards every effect of the invocation.

    Modelling choices, all on the side of the host and not of the
    contracts:
    - cross-contract calls are answered by [ctx_call], a function of the
      target, the function name, the arguments and the coins ([None]:
      the callee failed, which aborts the caller); the callee does not
      call back into the marketplace;
    - coin movements are recorded in the log in program order; whether
      the balance covers them is left to the host;
    - deleting a key that is absent is either tolerated or rejected by
      the host, as [ctx_del_absent_ok] says; reading an absent key is
      always rejected. *)

Module Sdk.

Inductive HostOp : Type :=
| StorageSet (key : string) (val : bytes)
| StorageDel (key : string)
| TransferCoins (to : string) (amount : Z)
| Call (target functionName : string) (args : bytes) (coins : Z)
| SendMessage (target functionName : string)
    (validityStartPeriod validityStartThread : Z)
    (validityEndPeriod validityEndThread : Z)
    (maxGas rawFee coins : Z) (functionParams : bytes)
| GenerateEvent (event : string).

Record Context : Type := mkContext {
  ctx_caller : string;
  ctx_callee : string;
  ctx_timestamp : Z;
  ctx_transferredCoins : Z;
  ctx_isAddressEoa : string -> bool;
  ctx_call : string -> string -> bytes -> Z -> option bytes;
  ctx_del_absent_ok : bool
}.

Record Host : Type := mkHost {
  storage : gmap string bytes;
  trace : list HostOp
}.

Inductive Outcome (A : Type) : Type :=
| Done (a : A) (h : Host)
| Abort (msg : string).
Arguments Done {A} _ _.
Arguments Abort {A} _.

Definition M (A : Type) : Type := Context -> Host -> Outcome A.

Definition ret {A : Type} (a : A) : M A := fun _ h => Done a h.

Definition bind {A B : Type} (m : M A) (k : A -> M B) : M B :=
  fun ctx h =>
    match m ctx h with
    | Done a h' => k a ctx h'
    | Abort msg => Abort msg
    end.

Definition abort {A : Type} (msg : string) : M A := fun _ _ => Abort msg.

(** AssemblyScript's [assert(cond, msg)]. *)
Definition assert (cond : bool) (msg : string) : M unit :=
  if cond then ret tt else abort msg.

(** [result.expect(msg)] and [result.unwrap()] on a library result.  The
    abort carries the caller's text; the library appends its own error
    text to it, and no statement below depends on the text of a failed
    read. *)
Definition expect {A : Type} (r : option A) (msg : string) : M A :=
  match r with
  | Some a => ret a
  | None => abort msg
  end.

Definition log (op : HostOp) : M unit :=
  fun _ h => Done tt (mkHost (storage h) (trace h ++ [op])).

(** *** Context *)
Definition Context_caller : M string := fun ctx h => Done (ctx_caller ctx) h.
Definition Context_callee : M string := fun ctx h => Done (ctx_callee ctx) h.
Definition Context_timestamp : M Z :=
  fun ctx h => Done (wrap64 (ctx_timestamp ctx)) h.
Definition Context_transferredCoins : M Z :=
  fun ctx h => Done (wrap64 (ctx_transferredCoins ctx)) h.
Definition isAddressEoa (address : string) : M bool :=
  fun ctx h => Done (ctx_isAddressEoa ctx address) h.

(** *** Storage *)
Definition Storage_has (key : string) : M bool :=
  fun _ h => Done (bool_decide (is_Some (storage h !! key))) h.

Definition Storage_get (key : string) : M bytes :=
  fun _ h =>
    match storage h !! key with
    | Some v => Done v h
    | None => Abort "data entry not found"
    end.

Definition Storage_set (key : string) (val : bytes) : M unit :=
  fun _ h =>
    Done tt (mkHost (<[key := val]> (storage h))
                    (trace h ++ [StorageSet key val])).

Definition Storage_del (key : string) : M unit :=
  fun ctx h =>
    match storage h !! key with
    | Some _ =>
        Done tt (mkHost (delete key (storage h))
                        (trace h ++ [StorageDel key]))
    | None =>
        if ctx_del_absent_ok ctx
        then Done tt (mkHost (storage h) (trace h ++ [StorageDel key]))
        else Abort "could not delete data entry"
    end.

(** [Storage.getKeys(prefix)]: the keys that start with [prefix], in
    the datastore's (byte-wise ascending) key order. *)
Definition keys_with_prefix (prefix : string) (m : gmap string bytes)
  : list string :=
  merge_sort String.le
    (filter (fun k => String.prefix prefix k = true) (map_to_list m).*1).

Definition Storage_getKeys (prefix : string) : M (list string) :=
  fun _ h => Done (keys_with_prefix prefix (storage h)) h.

(** *** Coins, calls, deferred messages, events *)
Definition transferCoins (to : string) (amount : Z) : M unit :=
  log (TransferCoins to amount).

Definition call (target functionName : string) (args : AsTypes.Args)
    (coins : Z) : M bytes :=
  fun ctx h =>
    let a := AsTypes.serialize args in
    match ctx_call ctx target functionName a coins with
    | Some r =>
        Done r (mkHost (storage h)
                       (trace h ++ [Call target functionName a coins]))
    | None => Abort "call failed"
    end.

Definition sendMessage (target functionName : string)
    (validityStartPeriod validityStartThread : Z)
    (validityEndPeriod validityEndThread : Z)
    (maxGas rawFee coins : Z) (functionParams : bytes) : M unit :=
  log (SendMessage target functionName
         validityStartPeriod validityStartThread
         validityEndPeriod validityEndThread
         maxGas rawFee coins functionParams).

Definition generateEvent (event : string) : M unit :=
  log (GenerateEvent event).

(** All-or-nothing persistence of a top-level call: the datastore after
    invoking [f], the log of the invocation starting empty. *)
Definition invoke (f : M unit) (ctx : Context) (st : gmap string bytes)
  : gmap string bytes :=
  match f ctx (mkHost st []) with
  | Done _ h' => storage h'
  | Abort _ => st
  end.

End Sdk.

Notation "'do' X <- A ; B" := (Sdk.bind A (fun X => B))
  (at level 10, X pattern, A at level 100, B at level 200).
Notation "A ;; B" := (Sdk.bind A (fun _ : unit => B))
  (at level 100, B at level 200, right associativity, only parsing).

(* ===================================================================== *)
(** ** [marketplace-complex.ts]: the stored records *)

Module Complex.
Import AsTypes.

Record SellOffer : Type := mkSellOffer {
  collectionAddress : string;
  tokenId : string;
  price : Z;
  creatorAddress : string;
  expirationTime : Z;
  createdTime : Z
}.

Definition SellOffer_serialize (this : SellOffer) : bytes :=
  serialize
    (add_u64 (createdTime this)
    (add_u64 (expirationTime this)
    (add_string (creatorAddress this)
    (add_u64 (price this)
    (add_string (tokenId this)
    (add_string (collectionAddress this) Args_empty)))))).

(** [deserialize] fills the fields of [this] in order and stops at the
    first field that cannot be read, returning [new Result(0)]; the
    updated object is returned next to the result. *)
Definition SellOffer_deserialize (this : SellOffer) (data : bytes)
    (off : nat) : SellOffer * Result Z :=
  let args := Args_new data off in
  match nextString args with
  | None => (this, Result_new 0)
  | Some (v1, args) =>
  let this := mkSellOffer v1 (tokenId this) (price this)
                (creatorAddress this) (expirationTime this)
                (createdTime this) in
  match nextString args with
  | None => (this, Result_new 0)
  | Some (v2, args) =>
  let this := mkSellOffer (collectionAddress this) v2 (price this)
                (creatorAddress this) (expirationTime this)
                (createdTime this) in
  match nextU64 args with
  | None => (this, Result_new 0)
  | Some (v3, args) =>
  let this := mkSellOffer (collectionAddress this) (tokenId this) v3
                (creatorAddress this) (expirationTime this)
                (createdTime this) in
  match nextString args with
  | None => (this, Result_new 0)
  | Some (v4, args) =>
  let this := mkSellOffer (collectionAddress this) (tokenId this)
                (price this) v4 (expirationTime this)
                (createdTime this) in
  match nextU64 args with
  | None => (this, Result_new 0)
  | Some (v5, args) =>
  let this := mkSellOffer (collectionAddress this) (tokenId this)
                (price this) (creatorAddress this) v5
                (createdTime this) in
  match nextU64 args with
  | None => (this, Result_new 0)
  | Some (v6, args) =>
  let this := mkSellOffer (collectionAddress this) (tokenId this)
                (price this) (creatorAddress this)
                (expirationTime this) v6 in
  (this, Result_new (Z.of_nat (offset args)))
  end end end end end end.

Record Bid : Type := mkBid {
  bidder : string;
  amount : Z;
  timestamp : Z
}.

Definition Bid_serialize (this : Bid) : bytes :=
  serialize
    (add_u64 (timestamp this)
    (add_u64 (amount this)
    (add_string (bidder this) Args_empty))).

Definition Bid_deserialize (this : Bid) (data : bytes) (off : nat)
  : Bid * Result Z :=
  let args := Args_new data off in
  match nextString args with
  | None => (this, Result_new 0)
  | Some (v1, args) =>
  let this := mkBid v1 (amount this) (timestamp this) in
  match nextU64 args with
  | None => (this, Result_new 0)
  | Some (v2, args) =>
  let this := mkBid (bidder this) v2 (timestamp this) in
  match nextU64 args with
  | None => (this, Result_new 0)
  | Some (v3, args) =>
  let this := mkBid (bidder this) (amount this) v3 in
  (this, Result_new (Z.of_nat (offset args)))
  end end end.

Record CollectionDetail : Type := mkCollectionDetail {
  name : string;
  desc : string;
  address : string;
  externalWebsite : string;
  bannerImage : string;
  backgroundImage : string;
  collectionLogoImage : string
}.

Definition CollectionDetail_serialize (this : CollectionDetail) : bytes :=
  serialize
    (add_string (collectionLogoImage this)
    (add_string (backgroundImage this)
    (add_string (bannerImage this)
    (add_string (externalWebsite this)
    (add_string (address this)
    (add_string (desc this)
    (add_string (name this) Args_empty))))))).

End Complex.

(* ===================================================================== *)
(** ** The v2.2 marketplace and its bid system *)

Module V22.
Import AsTypes Sdk Complex.

Definition MARKETPLACE_OWNER_KEY : string := "MARKETPLACE_OWNER".
Definition MARKETPLACE_FEE_KEY : string := "MARKETPLACE_FEE".
Definition SELL_OFFER_PREFIX : string := "sellOffer_".
Definition COLLECTION_PREFIX : string := "collection_".
Definition BID_PREFIX : string := "bid_".

Definition genesisTimestamp : Z := 1705312800000.
Definition t0 : Z := 16000.
Definition thread_count : Z := 32.

(** *** Common functions *)

Definition _onlyOwner : M bool :=
  do caller <- Context_caller;
  do owner <- Storage_get MARKETPLACE_OWNER_KEY;
  ret (bool_decide (caller = bytesToString owner)).

Definition _marketplaceOwner : M string :=
  do owner <- Storage_get MARKETPLACE_OWNER_KEY;
  ret (bytesToString owner).

Definition _hasCollection (collectionAddress : string) : M bool :=
  let key := COLLECTION_PREFIX +:+ collectionAddress in
  Storage_has key.

Definition _keyGenerator (address : string) (tokenID : Z) : string :=
  SELL_OFFER_PREFIX +:+ address +:+ "_" +:+ pretty tokenID.

Definition _getNFTOwner (address : string) (tokenID : Z) : M string :=
  do r <- call address "ownerOf" (add_u256 tokenID Args_empty) 0;
  ret (bytesToString r).

(** [(amount / 100) * marketplaceFee] in u64 arithmetic. *)
Definition calculateMarketplaceFee (amount : Z) : M Z :=
  do stored <- Storage_get MARKETPLACE_FEE_KEY;
  let marketplaceFee := bytesToU64 stored in
  let feeAmount := wrap64 ((amount / 100) * marketplaceFee) in
  ret feeAmount.

(** *** bids.ts *)

Definition _bidKeyGenerator (collectionAddress : string) (tokenID : Z)
    (bidder : string) : string :=
  BID_PREFIX +:+ collectionAddress +:+ "_" +:+ pretty tokenID
    +:+ "_" +:+ bidder.

(** The body of the [for] loop of [resetBids], over the keys still to
    visit. *)
Fixpoint resetBids_loop (allKeys : list string) (tokenBuyer : string)
  : M unit :=
  match allKeys with
  | [] => ret tt
  | bidKey :: rest =>
      do storedData <- Storage_get bidKey;
      let (bidData, deserializeResult) :=
        Bid_deserialize (mkBid "" 0 0) storedData 0 in
      assert (isOk deserializeResult) "DESERIALIZATION_ERROR";;
      (if bool_decide (tokenBuyer = "")
          || negb (bool_decide (bidder bidData = tokenBuyer))
       then transferCoins (bidder bidData) (amount bidData)
       else ret tt);;
      Storage_del bidKey;;
      resetBids_loop rest tokenBuyer
  end.

Definition resetBids (collectionAddress : string) (tokenID : Z)
    (tokenBuyer : string) : M unit :=
  let prefix := BID_PREFIX +:+ collectionAddress +:+ "_" +:+ pretty tokenID in
  do allKeys <- Storage_getKeys prefix;
  resetBids_loop allKeys tokenBuyer.

Definition placeBid (binaryArgs : bytes) : M unit :=
  let args := Args_new binaryArgs 0 in
  do (collectionAddress, args) <-
    expect (nextString args) "Collection address not entered.";
  do (nftTokenId, args) <- expect (nextU256 args) "TokenID not entered.";
  do bidAmount <- Context_transferredCoins;
  do hasC <- _hasCollection collectionAddress;
  assert hasC "Collection not found in marketplace";;
  let key := _keyGenerator collectionAddress nftTokenId in
  do hasOffer <- Storage_has key;
  assert hasOffer "Sell offer doesn't exist";;
  do bidder <- Context_caller;
  do bidTime <- Context_timestamp;
  let bidKey := _bidKeyGenerator collectionAddress nftTokenId bidder in
  do hasBid <- Storage_has bidKey;
  (if hasBid
   then
     do storedData <- Storage_get bidKey;
     let (bidData, deserializeResult) :=
       Bid_deserialize (mkBid "" 0 0) storedData 0 in
     assert (isOk deserializeResult)
       "DESERIALIZATION_ERROR, REFUND IS NOT COMPLETED.";;
     transferCoins (Complex.bidder bidData) (amount bidData)
   else ret tt);;
  let bid := mkBid bidder bidAmount bidTime in
  Storage_set bidKey (Bid_serialize bid);;
  generateEvent
    (bidder +:+ " placed a bid on " +:+ collectionAddress +:+ " token "
     +:+ pretty nftTokenId +:+ " with amount " +:+ pretty bidAmount).

Definition removeBid (binaryArgs : bytes) : M unit :=
  let args := Args_new binaryArgs 0 in
  do (collectionAddress, args) <-
    expect (nextString args) "Enter collection address";
  do (nftTokenId, args) <- expect (nextU256 args) "Enter token id";
  do bidder <- Context_caller;
  let bidKey := _bidKeyGenerator collectionAddress nftTokenId bidder in
  do hasBid <- Storage_has bidKey;
  assert hasBid "Bid not found";;
  do storedData <- Storage_get bidKey;
  let (bidData, deserializeResult) :=
    Bid_deserialize (mkBid "" 0 0) storedData 0 in
  assert (isOk deserializeResult) "DESERIALIZATION_ERROR";;
  transferCoins bidder (amount bidData);;
  Storage_del bidKey.

Definition acceptBid (binaryArgs : bytes) : M unit :=
  let args := Args_new binaryArgs 0 in
  do (collectionAddress, args) <-
    expect (nextString args) "Collection address not entered.";
  do (nftTokenId, args) <- expect (nextU256 args) "TokenID not entered.";
  do (bidder, args) <-
    expect (nextString args) "Bidder address not entered.";
  let bidKey := _bidKeyGenerator collectionAddress nftTokenId bidder in
  let sellOfferKey := _keyGenerator collectionAddress nftTokenId in
  do hasBid <- Storage_has bidKey;
  assert hasBid "Bid not found";;
  do storedData <- Storage_get bidKey;
  let (bidData, deserializeResult) :=
    Bid_deserialize (mkBid "" 0 0) storedData 0 in
  assert (isOk deserializeResult) "DESERIALIZATION_ERROR";;
  do owner <- _getNFTOwner collectionAddress nftTokenId;
  do caller <- Context_caller;
  assert (bool_decide (owner = caller)) "You are not the owner of the NFT";;
  do _ <- call collectionAddress "transferFrom"
            (add_u256 nftTokenId
              (add_string bidder (add_string owner Args_empty)))
            10000000;
  do feeAmount <- calculateMarketplaceFee (amount bidData);
  let remainingAmount := wrap64 (amount bidData - feeAmount) in
  transferCoins owner remainingAmount;;
  do caller' <- Context_caller;
  generateEvent
    (caller' +:+ " accepted a bid from " +:+ bidder +:+ " on "
     +:+ collectionAddress +:+ " token " +:+ pretty nftTokenId
     +:+ " for amount " +:+ pretty (amount bidData));;
  Storage_del bidKey;;
  resetBids collectionAddress nftTokenId bidder;;
  Storage_del sellOfferKey.

(** *** The marketplace entry points *)

Definition sellOffer (binaryArgs : bytes) : M unit :=
  let args := Args_new binaryArgs 0 in
  do (collectionAddress, args) <-
    expect (nextString args) "Collection address not entered.";
  do (nftTokenId, args) <- expect (nextU256 args) "TokenID not entered.";
  do (price, args) <- expect (nextU64 args) "Exptected Price not entered.";
  do (expireIn, args) <- expect (nextU64 args) "Expire In not entered.";
  do now <- Context_timestamp;
  let expirationTime := wrap64 (now + expireIn) in
  do creatorAddress <- Context_caller;
  do createdTime <- Context_timestamp;
  do eoa <- isAddressEoa creatorAddress;
  assert eoa "Smart contract address is not support.";;
  do now' <- Context_timestamp;
  assert (now' <? expirationTime)
    "The end time must be greater than the Context.timestamp()";;
  do hasC <- _hasCollection collectionAddress;
  assert hasC "Collection or Item not found in marketplace";;
  let key := _keyGenerator collectionAddress nftTokenId in
  do hasOffer <- Storage_has key;
  assert (negb hasOffer) "Sell offer already exist";;
  do owner <- _getNFTOwner collectionAddress nftTokenId;
  assert (bool_decide (owner = creatorAddress))
    ("You are not the owner of NFT owner:" +:+ owner
     +:+ " callerAddress: " +:+ creatorAddress);;
  do callee <- Context_callee;
  do r <- call collectionAddress "isApprovedForAll"
            (add_string callee (add_string creatorAddress Args_empty)) 0;
  do approved <- expect (byteToBool r) "Index out of range";
  assert approved "Marketplace not approved for trading";;
  let newSellOffer :=
    mkSellOffer collectionAddress (pretty nftTokenId) price
      creatorAddress expirationTime createdTime in
  Storage_set key (SellOffer_serialize newSellOffer);;
  let startPeriod := wrap64 (expirationTime - genesisTimestamp) / t0 in
  let startThread :=
    wrap8 (wrap64 (wrap64 (expirationTime - genesisTimestamp)
                   - wrap64 (startPeriod * t0))
           / (t0 / thread_count)) in
  let endPeriod := wrap64 (startPeriod + 10) in
  let endThread := 31 in
  let maxGas := 1000000000 in
  let rawFee := 50000000 in
  let coins := 0 in
  do scaddr <- Context_callee;
  sendMessage scaddr "autonomousDeleteOffer"
    startPeriod startThread endPeriod endThread maxGas rawFee coins
    (serialize (add_u256 nftTokenId
                 (add_string collectionAddress Args_empty)));;
  generateEvent
    ("autonomous remove started for the " +:+ collectionAddress
     +:+ "_" +:+ pretty nftTokenId).

Definition removeSellOffer (binaryArgs : bytes) : M unit :=
  let args := Args_new binaryArgs 0 in
  do (collectionAddress, args) <-
    expect (nextString args) "Collection address not entered.";
  do (nftTokenId, args) <- expect (nextU256 args) "Token ID not entered";
  do hasC <- _hasCollection collectionAddress;
  assert hasC "Collection not found in marketplace";;
  let key := _keyGenerator collectionAddress nftTokenId in
  do hasOffer <- Storage_has key;
  assert hasOffer "Sell offer doesnt exist";;
  do owner <- _getNFTOwner collectionAddress nftTokenId;
  do caller <- Context_caller;
  assert (bool_decide (owner = caller)) "You are not the owner of NFT";;
  resetBids collectionAddress nftTokenId "";;
  Storage_del key;;
  do caller' <- Context_caller;
  generateEvent ("REMOVE_SELL_OFFER : " +:+ caller').

Definition buyOffer (binaryArgs : bytes) : M unit :=
  let args := Args_new binaryArgs 0 in
  do (collectionAddress, args) <-
    expect (nextString args) "Collection address not entered.";
  do (nftTokenId, args) <- expect (nextU256 args) "TokenID not entered.";
  do hasC <- _hasCollection collectionAddress;
  assert hasC "Collection not found in marketplace";;
  let key := _keyGenerator collectionAddress nftTokenId in
  do hasOffer <- Storage_has key;
  assert hasOffer "Sell offer doesnt exist";;
  do storedData <- Storage_get key;
  let (sellOfferData, deserializeResult) :=
    SellOffer_deserialize (mkSellOffer "" "" 0 "" 0 0) storedData 0 in
  assert (isOk deserializeResult) "DESERIALIZATION_ERROR";;
  let expirationTime := Complex.expirationTime sellOfferData in
  do now <- Context_timestamp;
  assert (now <=? expirationTime) "Sell offer has expired";;
  do paid <- Context_transferredCoins;
  assert (Complex.price sellOfferData <=? paid)
    "Could not send enough coins to buy this NFT";;
  do owner <- _getNFTOwner collectionAddress nftTokenId;
  do address <- Context_caller;
  do eoa <- isAddressEoa address;
  assert eoa "Smart contract cant buy.";;
  do _ <- call collectionAddress "transferFrom"
            (add_u256 nftTokenId
              (add_string address (add_string owner Args_empty)))
            10000000;
  do feeAmount <- calculateMarketplaceFee (Complex.price sellOfferData);
  let remainingCoins := wrap64 (Complex.price sellOfferData - feeAmount) in
  do marketOwner <- _marketplaceOwner;
  transferCoins marketOwner feeAmount;;
  transferCoins owner remainingCoins;;
  do caller <- Context_caller;
  generateEvent
    (caller +:+ " bought this " +:+ pretty nftTokenId
     +:+ " NFT at this " +:+ pretty (Complex.price sellOfferData)
     +:+ " price");;
  resetBids collectionAddress nftTokenId "";;
  Storage_del key.

Definition autonomousDeleteOffer (binaryArgs : bytes) : M unit :=
  let args := Args_new binaryArgs 0 in
  do (collectionAddress, args) <-
    expect (nextString args) "Collection address not entered.";
  do (tokenID, args) <- expect (nextU256 args) "TokenID not entered.";
  do caller <- Context_caller;
  do callee <- Context_callee;
  assert (bool_decide (caller = callee)) "You are not root SC.";;
  let key := _keyGenerator collectionAddress tokenID in
  do check <- Storage_has key;
  assert check "sell offer not found";;
  Storage_del key;;
  generateEvent (key +:+ " expired and removed").

(** *** Administration *)

Definition adminAddCollection (binaryArgs : bytes) : M unit :=
  do isOwner <- _onlyOwner;
  assert isOwner "The caller is not the owner of the contract";;
  let args := Args_new binaryArgs 0 in
  do (collectionName, args) <-
    expect (nextString args) "You did not enter the collection name";
  do (collectionDesc, args) <-
    expect (nextString args) "You did not enter the collection description";
  do (collectionAddress, args) <-
    expect (nextString args)
      "You did not enter the collection smart contract address";
  do (collectionWebsite, args) <-
    expect (nextString args) "You did not enter the collection website";
  do (bannerImage, args) <-
    expect (nextString args)
      "You did not enter the collection banner image link";
  do (collectionBackgroundImage, args) <-
    expect (nextString args)
      "You did not enter the collection collection background image link";
  do (collectionLogoImage, args) <-
    expect (nextString args)
      "You did not enter the collection logo image link";
  let key := COLLECTION_PREFIX +:+ collectionAddress in
  let collection :=
    mkCollectionDetail collectionName collectionDesc collectionAddress
      collectionWebsite bannerImage collectionBackgroundImage
      collectionLogoImage in
  Storage_set key (CollectionDetail_serialize collection).

Definition adminDeleteCollection (binaryArgs : bytes) : M unit :=
  do isOwner <- _onlyOwner;
  assert isOwner "The caller is not the owner of the contract";;
  let args := Args_new binaryArgs 0 in
  do (collectionSCAddress, args) <-
    expect (nextString args) "Collection address not entered";
  let key := COLLECTION_PREFIX +:+ collectionSCAddress in
  do has <- Storage_has key;
  assert has "Collection is not found";;
  Storage_del key.

Definition adminDeleteOffer (binaryArgs : bytes) : M unit :=
  do isOwner <- _onlyOwner;
  assert isOwner "The caller is not the owner of the contract";;
  let args := Args_new binaryArgs 0 in
  do (collectionAddress, args) <-
    expect (nextString args) "Collection address not found";
  do (nftTokenId, args) <-
    expect (nextU256 args) "Collection address not found.";
  let key := _keyGenerator collectionAddress nftTokenId in
  resetBids collectionAddress nftTokenId "";;
  Storage_del key.

Definition adminChangeMarketplaceFee (binaryArgs : bytes) : M unit :=
  do isOwner <- _onlyOwner;
  assert isOwner "The caller is not the owner of the contract";;
  let args := Args_new binaryArgs 0 in
  do (newFee, args) <-
    expect (nextU64 args) "Marketplace new fee not entered.";
  Storage_set MARKETPLACE_FEE_KEY (u64ToBytes newFee).

Definition adminChangeMarketplaceOwner (binaryArgs : bytes) : M unit :=
  do isOwner <- _onlyOwner;
  assert isOwner "The caller is not the owner of the contract";;
  let args := Args_new binaryArgs 0 in
  do (newAdmin, args) <-
    expect (nextString args) "New Admin Address not entered.";
  Storage_set MARKETPLACE_OWNER_KEY (stringToBytes newAdmin).

Definition adminSendCoins (binaryArgs : bytes) : M unit :=
  do isOwner <- _onlyOwner;
  assert isOwner "The caller is not the owner of the contract";;
  let args := Args_new binaryArgs 0 in
  do (address, args) <-
    expect (nextString args) "Target address not entered.";
  do (amount, args) <- expect (nextU64 args) "Target amount not entered";
  transferCoins address amount.

Definition adminRemoveBid (binaryArgs : bytes) : M unit :=
  do isOwner <- _onlyOwner;
  assert isOwner "The caller is not the owner of the contract";;
  let args := Args_new binaryArgs 0 in
  do (collectionAddress, args) <-
    expect (nextString args) "Enter collection address";
  do (nftTokenId, args) <- expect (nextU256 args) "Enter token id";
  do (bidder, args) <- expect (nextString args) "Enter bidder address";
  let bidKey := _bidKeyGenerator collectionAddress nftTokenId bidder in
  do hasBid <- Storage_has bidKey;
  assert hasBid "Bid not found";;
  do storedData <- Storage_get bidKey;
  let (bidData, deserializeResult) :=
    Bid_deserialize (mkBid "" 0 0) storedData 0 in
  assert (isOk deserializeResult) "DESERIALIZATION_ERROR";;
  transferCoins bidder (amount bidData);;
  Storage_del bidKey.

End V22.

(* ===================================================================== *)
(** ** The earlier marketplace ([marketplace.ts]) *)

Module V1.
Import AsTypes Sdk Complex.

Definition MARKETPLACE_OWNER_KEY : string := "MARKETPLACE_OWNER".
Definition MARKETPLACE_FEE_KEY : string := "MARKETPLACE_FEE".
Definition SELL_OFFER_PREFIX : string := "sellOffer_".
Definition BUY_OFFER_PREFIX : string := "buyOffer_".
Definition COLLECTION_PREFIX : string := "collection_".

Definition genesisTimestamp : Z := 1704289800000.
Definition t0 : Z := 16000.
Definition thread_count : Z := 32.

Definition _hasCollection (collectionAddress : string) : M bool :=
  let key := COLLECTION_PREFIX +:+ collectionAddress in
  Storage_has key.

Definition _keyGenerator (address : string) (tokenID : Z) : string :=
  SELL_OFFER_PREFIX +:+ address +:+ "_" +:+ pretty tokenID.

Definition _getNFTOwner (address : string) (tokenID : Z) : M string :=
  do r <- call address "ownerOf" (add_u256 tokenID Args_empty) 0;
  ret (bytesToString r).

Definition sellOffer (binaryArgs : bytes) : M unit :=
  let args := Args_new binaryArgs 0 in
  do (collectionAddress, args) <- expect (nextString args) "unwrap";
  do (nftTokenId, args) <- expect (nextU256 args) "unwrap";
  do (price, args) <- expect (nextU64 args) "unwrap";
  do (expireIn, args) <- expect (nextU64 args) "unwrap";
  do now <- Context_timestamp;
  let expirationTime := wrap64 (now + expireIn) in
  do creatorAddress <- Context_caller;
  do createdTime <- Context_timestamp;
  do hasC <- _hasCollection collectionAddress;
  assert hasC "Collection or Item not found in marketplace";;
  let key := _keyGenerator collectionAddress nftTokenId in
  do hasOffer <- Storage_has key;
  assert (negb hasOffer) "Sell offer already exist";;
  do owner <- _getNFTOwner collectionAddress nftTokenId;
  assert (bool_decide (owner = creatorAddress))
    ("You are not the owner of NFT owner:" +:+ owner
     +:+ " callerAddress: " +:+ creatorAddress);;
  do callee <- Context_callee;
  do r <- call collectionAddress "isApprovedForAll"
            (add_string callee (add_string creatorAddress Args_empty)) 0;
  do approved <- expect (byteToBool r) "Index out of range";
  assert approved "Marketplace not approved for trading";;
  let newSellOffer :=
    mkSellOffer collectionAddress (pretty nftTokenId) price
      creatorAddress expirationTime createdTime in
  Storage_set key (SellOffer_serialize newSellOffer);;
  let startPeriod := wrap64 (expirationTime - genesisTimestamp) / t0 in
  let startThread :=
    wrap8 (wrap64 (wrap64 (expirationTime - genesisTimestamp)
                   - wrap64 (startPeriod * t0))
           / (t0 / thread_count)) in
  let endPeriod := wrap64 (startPeriod + 10) in
  let endThread := 31 in
  let maxGas := 500000000 in
  let rawFee := 0 in
  let coins := 0 in
  do scaddr <- Context_callee;
  sendMessage scaddr "autonomousDeleteOffer"
    startPeriod startThread endPeriod endThread maxGas rawFee coins
    (serialize (add_u256 nftTokenId
                 (add_string collectionAddress Args_empty))).

Definition removeSellOffer (binaryArgs : bytes) : M unit :=
  let args := Args_new binaryArgs 0 in
  do (collectionAddress, args) <-
    expect (nextString args) "Collection address not entered.";
  do (nftTokenId, args) <- expect (nextU256 args) "Token ID not entered";
  do hasC <- _hasCollection collectionAddress;
  assert hasC "Collection not found in marketplace";;
  let key := _keyGenerator collectionAddress nftTokenId in
  do hasOffer <- Storage_has key;
  assert hasOffer "Sell offer doesnt exist";;
  do storedData <- Storage_get key;
  let (sellOfferData, deserializeResult) :=
    SellOffer_deserialize (mkSellOffer "" "" 0 "" 0 0) storedData 0 in
  assert (isOk deserializeResult) "DESERIALIZATION_ERROR";;
  do caller <- Context_caller;
  assert (bool_decide (creatorAddress sellOfferData = caller))
    "Only the creator can remove the sell offer";;
  do owner <- _getNFTOwner collectionAddress nftTokenId;
  do caller' <- Context_caller;
  assert (bool_decide (owner = caller')) "You are not the owner of NFT";;
  Storage_del key;;
  do caller'' <- Context_caller;
  generateEvent ("REMOVE_SELL_OFFER : " +:+ caller'').

Definition buyOffer (binaryArgs : bytes) : M unit :=
  let args := Args_new binaryArgs 0 in
  do (collectionAddress, args) <-
    expect (nextString args) "Collection address not entered.";
  do (nftTokenId, args) <- expect (nextU256 args) "TokenID not entered.";
  do hasC <- _hasCollection collectionAddress;
  assert hasC "Collection not found in marketplace";;
  let key := _keyGenerator collectionAddress nftTokenId in
  do hasOffer <- Storage_has key;
  assert hasOffer "Sell offer doesnt exist";;
  do storedData <- Storage_get key;
  let (sellOfferData, deserializeResult) :=
    SellOffer_deserialize (mkSellOffer "" "" 0 "" 0 0) storedData 0 in
  assert (isOk deserializeResult) "DESERIALIZATION_ERROR";;
  let expirationTime := Complex.expirationTime sellOfferData in
  do now <- Context_timestamp;
  assert (now <=? expirationTime) "Sell offer has expired";;
  do paid <- Context_transferredCoins;
  assert (Complex.price sellOfferData <=? paid)
    "Could not send enough money or marketplace fees to buy this NFT";;
  do owner <- _getNFTOwner collectionAddress nftTokenId;
  do address <- Context_caller;
  do _ <- call collectionAddress "transferFrom"
            (add_u256 nftTokenId
              (add_string address (add_string owner Args_empty)))
            10000000;
  do stored <- Storage_get MARKETPLACE_FEE_KEY;
  let marketplaceFee := bytesToU64 stored in
  let pricePercentage :=
    wrap64 ((Complex.price sellOfferData / 100) * marketplaceFee) in
  let remainingCoins :=
    wrap64 (Complex.price sellOfferData - pricePercentage) in
  transferCoins owner remainingCoins;;
  do caller <- Context_caller;
  generateEvent
    (caller +:+ " bought this " +:+ pretty nftTokenId
     +:+ " NFT at this " +:+ pretty (Complex.price sellOfferData)
     +:+ " price");;
  Storage_del key.

Definition autonomousDeleteOffer (binaryArgs : bytes) : M unit :=
  let args := Args_new binaryArgs 0 in
  do (collectionAddress, args) <-
    expect (nextString args) "Collection address not entered.";
  do (tokenID, args) <- expect (nextU256 args) "TokenID not entered.";
  do caller <- Context_caller;
  do callee <- Context_callee;
  assert (bool_decide (caller = callee)) "you are not the SC";;
  let key := _keyGenerator collectionAddress tokenID in
  do check <- Storage_has key;
  assert check "sell offer not found";;
  Storage_del key.

Definition _onlyOwner : M bool :=
  do caller <- Context_caller;
  do owner <- Storage_get MARKETPLACE_OWNER_KEY;
  ret (bool_decide (caller = bytesToString owner)).

Definition adminDeleteOffer (binaryArgs : bytes) : M unit :=
  do isOwner <- _onlyOwner;
  assert isOwner "The caller is not the owner of the contract";;
  let args := Args_new binaryArgs 0 in
  do (collectionAddress, args) <-
    expect (nextString args) "Collection address not found";
  do (nftTokenId, args) <-
    expect (nextU256 args) "Collection address not found.";
  let key := _keyGenerator collectionAddress nftTokenId in
  Storage_del key.

Definition adminChangeMarketplaceFee (binaryArgs : bytes) : M unit :=
  do isOwner <- _onlyOwner;
  assert isOwner "The caller is not the owner of the contract";;
  let args := Args_new binaryArgs 0 in
  do (marketplaceFee, args) <-
    expect (nextU64 args) "Marketplace Fee is not entered.";
  Storage_set MARKETPLACE_FEE_KEY (u64ToBytes marketplaceFee).

End V1.

(* ===================================================================== *)
(** ** Reading the properties off an invocation *)

Module Obs.
Import AsTypes Sdk Complex.

(** The positional arguments an entry point reads from [binaryArgs]. *)
Definition args2 (binaryArgs : bytes) : option (string * Z) :=
  match nextString (Args_new binaryArgs 0) with
  | Some (c, a) =>
      match nextU256 a with
      | Some (t, _) => Some (c, t)
      | None => None
      end
  | None => None
  end.

Definition args3 (binaryArgs : bytes) : option (string * Z * string) :=
  match nextString (Args_new binaryArgs 0) with
  | Some (c, a) =>
      match nextU256 a with
      | Some (t, a') =>
          match nextString a' with
          | Some (b, _) => Some (c, t, b)
          | None => None
          end
      | None => None
      end
  | None => None
  end.

Definition args4 (binaryArgs : bytes) : option (string * Z * Z * Z) :=
  match nextString (Args_new binaryArgs 0) with
  | Some (c, a) =>
      match nextU256 a with
      | Some (t, a') =>
          match nextU64 a' with
          | Some (p, a'') =>
              match nextU64 a'' with
              | Some (e, _) => Some (c, t, p, e)
              | None => None
              end
          | None => None
          end
      | None => None
      end
  | None => None
  end.

(** The arguments of the administration entry points. *)
Definition args1 (binaryArgs : bytes) : option string :=
  match nextString (Args_new binaryArgs 0) with
  | Some (c, _) => Some c
  | None => None
  end.

Definition args_fee (binaryArgs : bytes) : option Z :=
  match nextU64 (Args_new binaryArgs 0) with
  | Some (newFee, _) => Some newFee
  | None => None
  end.

Definition args_send (binaryArgs : bytes) : option (string * Z) :=
  match nextString (Args_new binaryArgs 0) with
  | Some (address, a) =>
      match nextU64 a with
      | Some (amount, _) => Some (address, amount)
      | None => None
      end
  | None => None
  end.

Definition args_collection (binaryArgs : bytes) : option CollectionDetail :=
  '(collectionName, a) ← nextString (Args_new binaryArgs 0);
  '(collectionDesc, a) ← nextString a;
  '(collectionAddress, a) ← nextString a;
  '(collectionWebsite, a) ← nextString a;
  '(bannerImage, a) ← nextString a;
  '(collectionBackgroundImage, a) ← nextString a;
  '(collectionLogoImage, a) ← nextString a;
  Some (mkCollectionDetail collectionName collectionDesc collectionAddress
          collectionWebsite bannerImage collectionBackgroundImage
          collectionLogoImage).

(** A string all of whose bytes are in 1..127.  Decoding such bytes gives
    the string back unchanged, so the argument the contract works with is
    the one read here; Massa addresses are of this kind. *)
Definition plain_ascii (s : string) : bool :=
  forallb (fun b => let n := Z_of_byte b in (0 <? n) && (n <? 128))
          (stringToBytes s).

(** The coin transfers of a log, in order. *)
Definition transfers (ops : list HostOp) : list (string * Z) :=
  omap (fun op =>
          match op with
          | TransferCoins to amount => Some (to, amount)
          | _ => None
          end) ops.

(** The record a stored byte string decodes to. *)
Definition decode_bid (data : bytes) : Bid :=
  fst (Bid_deserialize (mkBid "" 0 0) data 0).

Definition decode_offer (data : bytes) : SellOffer :=
  fst (SellOffer_deserialize (mkSellOffer "" "" 0 "" 0 0) data 0).

(** The owner the collection contract reports for a token, as
    [_getNFTOwner] reads it ([None]: the call fails). *)
Definition owner_of (ctx : Context) (collectionAddress : string)
    (tokenID : Z) : option string :=
  bytesToString
    <$> ctx_call ctx collectionAddress "ownerOf" (u256ToBytes tokenID) 0.

(** The scheduling coordinate as the specification words it, over the
    time elapsed since genesis: the period is the number of whole [t0]
    intervals, the thread the number of whole [t0 / threadCount] slices of
    what remains. *)
Definition spec_period (elapsed t0 : Z) : Z := elapsed / t0.

Definition spec_thread (elapsed t0 threadCount : Z) : Z :=
  (elapsed - spec_period elapsed t0 * t0) / (t0 / threadCount).

(** What [resetBids] does to one stored bid: the refund, unless the
    recorded bidder is the buyer, then the deletion. *)
Definition refund_ops (tokenBuyer : string) (data : bytes) : list HostOp :=
  let bidData := decode_bid data in
  if bool_decide (tokenBuyer = "")
     || negb (bool_decide (bidder bidData = tokenBuyer))
  then [TransferCoins (bidder bidData) (amount bidData)]
  else [].

Fixpoint reset_ops (m : gmap string bytes) (ks : list string)
    (tokenBuyer : string) : list HostOp :=
  match ks with
  | [] => []
  | k :: rest =>
      match m !! k with
      | Some data => refund_ops tokenBuyer data
      | None => []
      end ++ StorageDel k :: reset_ops m rest tokenBuyer
  end.

Fixpoint delete_all (ks : list string) (m : gmap string bytes)
  : gmap string bytes :=
  match ks with
  | [] => m
  | k :: rest => delete_all rest (delete k m)
  end.

(** The refunds a bulk reset owes on a datastore: going through the keys
    under [prefix], each once, one transfer of the recorded amount to the
    recorded bidder for each key whose bidder is not [tokenBuyer] (for
    each key when [tokenBuyer] is empty). *)
Definition bid_refunds (m : gmap string bytes) (prefix tokenBuyer : string)
  : list (string * Z) :=
  flat_map
    (fun k =>
       match m !! k with
       | Some data =>
           let bid := decode_bid data in
           if bool_decide (tokenBuyer = "")
              || negb (bool_decide (bidder bid = tokenBuyer))
           then [(bidder bid, amount bid)]
           else []
       | None => []
       end)
    (keys_with_prefix prefix m).

(** Values that fit their wire type: a string whose byte length fits the
    u32 length prefix, an integer that is a u64. *)
Definition wf_string (s : string) : Prop :=
  Z.of_nat (String.length s) < 2 ^ 32.

Definition wf_u64 (z : Z) : Prop := 0 <= z < 2 ^ 64.

(** The key prefix [resetBids] enumerates. *)
Definition bid_prefix (collectionAddress : string) (tokenID : Z) : string :=
  V22.BID_PREFIX +:+ collectionAddress +:+ "_" +:+ pretty tokenID.

End Obs.

(* ===================================================================== *)
(** ** A concrete chain: one collection, one listed token, two bidders *)

Module Scenario.
Import AsTypes Sdk Complex.

Definition market : string := "AS1market".
Definition collectionX : string := "AS1collectionX".
Definition admin : string := "AU1admin".
Definition seller : string := "AU1seller".
Definition alice : string := "AU1alice".
Definition bob : string := "AU1bob".
Definition carol : string := "AU1carol".

(** The encodings a client sends. *)
Definition encode2 (c : string) (t : Z) : bytes :=
  serialize (add_u256 t (add_string c Args_empty)).
Definition encode3 (c : string) (t : Z) (b : string) : bytes :=
  serialize (add_string b (add_u256 t (add_string c Args_empty))).
Definition encode4 (c : string) (t p e : Z) : bytes :=
  serialize (add_u64 e (add_u64 p (add_u256 t (add_string c Args_empty)))).

Definition encode1 (c : string) : bytes :=
  serialize (add_string c Args_empty).

(** A collection contract in which every token belongs to [owner], the
    marketplace is approved, and transfers go through. *)
Definition chain (owner : string) (target functionName : string)
    (args : bytes) (coins : Z) : option bytes :=
  if String.eqb functionName "ownerOf" then Some (stringToBytes owner)
  else if String.eqb functionName "isApprovedForAll" then Some [x01]
  else if String.eqb functionName "transferFrom" then Some []
  else None.

(** Externally-owned addresses start with [AU]. *)
Definition eoa (a : string) : bool := String.prefix "AU" a.

Definition ctx (caller : string) (now coins : Z) (owner : string)
    (del_absent_ok : bool) : Context :=
  mkContext caller market now coins eoa (chain owner) del_absent_ok.

Definition t_list : Z := 1800000000000.
Definition t_live : Z := 1800000001000.
Definition t_late : Z := 1900000000000.

(** Deployed with a fee rate of 5 and collection X registered. *)
Definition st_deployed : gmap string bytes :=
  <[ "MARKETPLACE_FEE" := u64ToBytes 5 ]>
    (<[ "MARKETPLACE_OWNER" := stringToBytes admin ]>
       (<[ "collection_" +:+ collectionX := [] ]> ∅)).

(** The seller lists token 7 at 1000 for one hour. *)
Definition st_listed : gmap string bytes :=
  invoke (V22.sellOffer (encode4 collectionX 7 1000 3600000))
    (ctx seller t_list 0 seller false) st_deployed.

(** Alice bids 100, Bob bids 250. *)
Definition st_one_bid : gmap string bytes :=
  invoke (V22.placeBid (encode2 collectionX 7))
    (ctx alice t_live 100 seller false) st_listed.

Definition st_two_bids : gmap string bytes :=
  invoke (V22.placeBid (encode2 collectionX 7))
    (ctx bob t_live 250 seller false) st_one_bid.

(** The administrator takes collection X off the registry while the
    offer is still stored. *)
Definition st_delisted : gmap string bytes :=
  invoke (V22.adminDeleteCollection (encode1 collectionX))
    (ctx admin t_live 0 seller false) st_listed.

(** Token 8 listed at 150, a price that is not a multiple of 100. *)
Definition st_listed_150 : gmap string bytes :=
  invoke (V22.sellOffer (encode4 collectionX 8 150 3600000))
    (ctx seller t_list 0 seller false) st_deployed.

(** The same listing in the earlier marketplace. *)
Definition st_listed_v1 : gmap string bytes :=
  invoke (V1.sellOffer (encode4 collectionX 7 1000 3600000))
    (ctx seller t_list 0 seller false) st_deployed.

End Scenario.

Import AsTypes Sdk Complex Obs.

Section MonadInversion.
Context {A B : Type}.

Lemma bind_Done (m : M A) (k : A -> M B) ctx h b h' :
  Sdk.bind m k ctx h = Done b h' ->
  exists a h1, m ctx h = Done a h1 /\ k a ctx h1 = Done b h'.
Proof.
  unfold Sdk.bind. destruct (m ctx h) as [a h1|msg]; [eauto|discriminate].
Qed.

Lemma bind_Abort_l (m : M A) (k : A -> M B) ctx h msg :
  m ctx h = Abort msg -> Sdk.bind m k ctx h = Abort msg.
Proof. unfold Sdk.bind. intros ->. reflexivity. Qed.

Lemma bind_Done_l (m : M A) (k : A -> M B) ctx h a h1 :
  m ctx h = Done a h1 -> Sdk.bind m k ctx h = k a ctx h1.
Proof. unfold Sdk.bind. intros ->. reflexivity. Qed.
End MonadInversion.

Lemma assert_Done cond msg ctx h u h' :
  Sdk.assert cond msg ctx h = Done u h' -> cond = true /\ h' = h.
Proof. unfold Sdk.assert, ret, abort. destruct cond; [|discriminate]. intros [= <-]. auto. Qed.

Lemma ret_Done {A} (a b : A) ctx h h' :
  ret a ctx h = Done b h' -> b = a /\ h' = h.
Proof. unfold ret. intros [= <- <-]. auto. Qed.

Lemma expect_Done {A} (o : option A) msg ctx h a h' :
  expect o msg ctx h = Done a h' -> o = Some a /\ h' = h.
Proof. unfold expect, ret, abort. destruct o; [|discriminate]. intros [= <- <-]. auto. Qed.

Lemma Context_caller_Done ctx h a h' :
  Context_caller ctx h = Done a h' -> a = ctx_caller ctx /\ h' = h.
Proof. unfold Context_caller. intros [= <- <-]. auto. Qed.

Lemma Context_callee_Done ctx h a h' :
  Context_callee ctx h = Done a h' -> a = ctx_callee ctx /\ h' = h.
Proof. unfold Context_callee. intros [= <- <-]. auto. Qed.

Lemma Context_timestamp_Done ctx h a h' :
  Context_timestamp ctx h = Done a h' -> a = wrap64 (ctx_timestamp ctx) /\ h' = h.
Proof. unfold Context_timestamp. intros [= <- <-]. auto. Qed.

Lemma Context_transferredCoins_Done ctx h a h' :
  Context_transferredCoins ctx h = Done a h' ->
  a = wrap64 (ctx_transferredCoins ctx) /\ h' = h.
Proof. unfold Context_transferredCoins. intros [= <- <-]. auto. Qed.

Lemma isAddressEoa_Done addr ctx h a h' :
  isAddressEoa addr ctx h = Done a h' -> a = ctx_isAddressEoa ctx addr /\ h' = h.
Proof. unfold isAddressEoa. intros [= <- <-]. auto. Qed.

Lemma Storage_has_Done k ctx h b h' :
  Storage_has k ctx h = Done b h' ->
  b = bool_decide (is_Some (storage h !! k)) /\ h' = h.
Proof. unfold Storage_has. intros [= <- <-]. auto. Qed.

Lemma Storage_get_Done k ctx h v h' :
  Storage_get k ctx h = Done v h' -> storage h !! k = Some v /\ h' = h.
Proof.
  unfold Storage_get. destruct (storage h !! k); [|discriminate].
  intros [= <- <-]. auto.
Qed.

Lemma Storage_set_Done k v ctx h u h' :
  Storage_set k v ctx h = Done u h' ->
  h' = mkHost (<[k := v]> (storage h)) (trace h ++ [StorageSet k v]).
Proof. unfold Storage_set. intros ?. by simplify_eq. Qed.

Lemma Storage_del_Done k ctx h u h' :
  Storage_del k ctx h = Done u h' ->
  h' = mkHost (delete k (storage h)) (trace h ++ [StorageDel k]).
Proof.
  unfold Storage_del. destruct (storage h !! k) eqn:E.
  - intros ?. by simplify_eq.
  - destruct (ctx_del_absent_ok ctx); [|discriminate].
    intros ?. simplify_eq. by rewrite delete_id.
Qed.

Lemma log_Done op ctx h u h' :
  log op ctx h = Done u h' -> h' = mkHost (storage h) (trace h ++ [op]).
Proof. unfold log. intros ?. by simplify_eq. Qed.

Lemma call_Done target fn args coins ctx h r h' :
  call target fn args coins ctx h = Done r h' ->
  ctx_call ctx target fn (serialize args) coins = Some r /\
  h' = mkHost (storage h) (trace h ++ [Call target fn (serialize args) coins]).
Proof.
  unfold call. destruct (ctx_call _ _ _ _ _); [|discriminate].
  intros [= <- <-]. auto.
Qed.

(** One step of reading a successful run backwards. *)
Ltac run_inv1 :=
  match goal with
  | H : Sdk.bind ?m ?k ?ctx ?h = Done _ _ |- _ =>
      let a := fresh "a" in let h1 := fresh "h" in let E := fresh "E" in
      apply (bind_Done m k ctx h) in H as (a & h1 & E & H)
  | H : ret ?a ?ctx ?h = Done _ _ |- _ =>
      apply (ret_Done a _ ctx h) in H as [? ?]
  | H : Sdk.assert ?c ?msg ?ctx ?h = Done _ _ |- _ =>
      apply (assert_Done c msg ctx h) in H as [? ?]
  | H : expect ?o ?msg ?ctx ?h = Done _ _ |- _ =>
      apply (expect_Done o msg ctx h) in H as [? ?]
  | H : Context_caller ?ctx ?h = Done _ _ |- _ =>
      apply (Context_caller_Done ctx h) in H as [? ?]
  | H : Context_callee ?ctx ?h = Done _ _ |- _ =>
      apply (Context_callee_Done ctx h) in H as [? ?]
  | H : Context_timestamp ?ctx ?h = Done _ _ |- _ =>
      apply (Context_timestamp_Done ctx h) in H as [? ?]
  | H : Context_transferredCoins ?ctx ?h = Done _ _ |- _ =>
      apply (Context_transferredCoins_Done ctx h) in H as [? ?]
  | H : isAddressEoa ?a ?ctx ?h = Done _ _ |- _ =>
      apply (isAddressEoa_Done a ctx h) in H as [? ?]
  | H : Storage_has ?k ?ctx ?h = Done _ _ |- _ =>
      apply (Storage_has_Done k ctx h) in H as [? ?]
  | H : Storage_get ?k ?ctx ?h = Done _ _ |- _ =>
      apply (Storage_get_Done k ctx h) in H as [? ?]
  | H : Storage_set ?k ?v ?ctx ?h = Done _ _ |- _ =>
      apply (Storage_set_Done k v ctx h) in H
  | H : Storage_del ?k ?ctx ?h = Done _ _ |- _ =>
      apply (Storage_del_Done k ctx h) in H
  | H : log ?op ?ctx ?h = Done _ _ |- _ => apply (log_Done op ctx h) in H
  | H : transferCoins ?to ?amt ?ctx ?h = Done _ _ |- _ =>
      apply (log_Done (TransferCoins to amt) ctx h) in H
  | H : generateEvent ?e ?ctx ?h = Done _ _ |- _ =>
      apply (log_Done (GenerateEvent e) ctx h) in H
  | H : sendMessage ?a ?f ?p1 ?t1 ?p2 ?t2 ?g ?r ?c ?d ?ctx ?h = Done _ _ |- _ =>
      apply (log_Done (SendMessage a f p1 t1 p2 t2 g r c d) ctx h) in H
  | H : call ?t ?f ?a ?c ?ctx ?h = Done _ _ |- _ =>
      apply (call_Done t f a c ctx h) in H as [? ?]
  | H : (let (_, _) := ?p in _) _ _ = Done _ _ |- _ => destruct p eqn:?
  | H : (match ?o with Some _ => _ | None => _ end) _ _ = Done _ _ |- _ =>
      destruct o eqn:?
  end.
(** ** The wire format *)

Lemma Z_of_byte_range b : 0 <= Z_of_byte b < 256.
Proof.
  unfold Z_of_byte. pose proof (Byte.to_N_bounded b). lia.
Qed.

Lemma Z_of_byte_of_Z z : Z_of_byte (byte_of_Z z) = z mod 256.
Proof.
  unfold Z_of_byte, byte_of_Z.
  pose proof (Z.mod_pos_bound z 256 ltac:(lia)) as Hr.
  destruct (Byte.of_N (Z.to_N (z mod 256))) as [b|] eqn:E.
  - apply Byte.to_of_N in E. rewrite E. lia.
  - apply Byte.of_N_None_iff in E. lia.
Qed.

Lemma length_le_bytes n z : length (le_bytes n z) = n.
Proof. revert z. induction n; intros z; cbn; [done|]. by rewrite IHn. Qed.

Lemma le_value_range bs : 0 <= le_value bs < 256 ^ Z.of_nat (length bs).
Proof.
  induction bs as [|b bs IH]; cbn [le_value length].
  - cbn. lia.
  - pose proof (Z_of_byte_range b).
    rewrite Nat2Z.inj_succ, Z.pow_succ_r by lia. lia.
Qed.

Lemma le_value_le_bytes n z : le_value (le_bytes n z) = z mod 256 ^ Z.of_nat n.
Proof.
  revert z. induction n as [|n IH]; intros z.
  - cbn. by rewrite Z.mod_1_r.
  - cbn [le_bytes le_value]. rewrite IH, Z_of_byte_of_Z.
    rewrite Nat2Z.inj_succ, Z.pow_succ_r by lia.
    rewrite Z.rem_mul_r by lia. lia.
Qed.

Lemma nextFixed_range n a v a' :
  nextFixed n a = Some (v, a') -> 0 <= v < 256 ^ Z.of_nat n.
Proof.
  unfold nextFixed, getNextData. case_match; [|done]. intros [= <- <-].
  pose proof (le_value_range (take n (drop (offset a) (serialized a)))) as Hr.
  rewrite length_take, length_drop in Hr.
  apply Nat.leb_le in H.
  replace (n `min` (length (serialized a) - offset a))%nat with n in Hr by lia.
  done.
Qed.

Lemma nextFixed_app n pre z post :
  nextFixed n (mkArgs (pre ++ le_bytes n z ++ post) (length pre))
  = Some (z mod 256 ^ Z.of_nat n,
          mkArgs (pre ++ le_bytes n z ++ post) (length pre + n)).
Proof.
  unfold nextFixed, getNextData. cbn [serialized offset].
  rewrite !length_app, length_le_bytes.
  rewrite (proj2 (Nat.leb_le _ _)) by lia.
  rewrite drop_app_length, take_app_length' by (by rewrite length_le_bytes).
  by rewrite le_value_le_bytes.
Qed.

Lemma length_stringToBytes s : length (stringToBytes s) = String.length s.
Proof.
  unfold stringToBytes, list_byte_of_string.
  rewrite length_map. induction s; cbn; [done|]. by rewrite IHs.
Qed.

Lemma nextString_app pre s post :
  Z.of_nat (String.length s) < 2 ^ 32 ->
  let bs := stringToBytes s in
  let data := pre ++ (u32ToBytes (Z.of_nat (length bs)) ++ bs) ++ post in
  nextString (mkArgs data (length pre))
  = Some (s, mkArgs data (length pre + 4 + length bs)).
Proof.
  intros Hlen bs data. unfold nextString, nextU32.
  subst data. unfold u32ToBytes. rewrite <- !app_assoc.
  rewrite nextFixed_app. cbn [serialized offset].
  rewrite Z.mod_small; cycle 1.
  { subst bs. rewrite length_stringToBytes. change (256 ^ Z.of_nat 4) with (2 ^ 32). lia. }
  rewrite Nat2Z.id. rewrite !length_app, length_le_bytes.
  rewrite (proj2 (Nat.leb_le _ _)) by lia.
  unfold getNextData. cbn [serialized offset].
  rewrite (app_assoc pre). rewrite drop_app_length'
    by (rewrite length_app, length_le_bytes; lia).
  rewrite take_app_length. subst bs. unfold bytesToString, stringToBytes.
  by rewrite string_of_list_byte_of_string.
Qed.

Lemma nextFixed_at n pre z post data off :
  data = pre ++ le_bytes n z ++ post ->
  off = length pre ->
  nextFixed n (mkArgs data off)
  = Some (z mod 256 ^ Z.of_nat n, mkArgs data (off + n)).
Proof. intros -> ->. apply nextFixed_app. Qed.

Lemma nextString_at pre s post data off :
  Z.of_nat (String.length s) < 2 ^ 32 ->
  data = pre ++ (u32ToBytes (Z.of_nat (String.length s)) ++ stringToBytes s)
             ++ post ->
  off = length pre ->
  nextString (mkArgs data off)
  = Some (s, mkArgs data (off + 4 + String.length s)).
Proof.
  intros Hl -> ->. rewrite <- length_stringToBytes. by apply nextString_app.
Qed.

Lemma Bid_serialize_eq b :
  Bid_serialize b
  = (u32ToBytes (Z.of_nat (String.length (bidder b)))
       ++ stringToBytes (bidder b))
      ++ le_bytes 8 (amount b) ++ le_bytes 8 (timestamp b).
Proof.
  unfold Bid_serialize, serialize, add_u64, add_string, add_u32, add_bytes,
    Args_empty, u64ToBytes. cbn [serialized offset app].
  rewrite length_stringToBytes. by rewrite <- !app_assoc.
Qed.

(** A bid whose fields fit their wire types is read back as written. *)
Lemma decode_bid_serialize b :
  Z.of_nat (String.length (bidder b)) < 2 ^ 32 ->
  0 <= amount b < 2 ^ 64 ->
  0 <= timestamp b < 2 ^ 64 ->
  decode_bid (Bid_serialize b) = b.
Proof.
  intros Hl Ha Ht. unfold decode_bid, Bid_deserialize, Args_new.
  rewrite Bid_serialize_eq.
  set (hd := u32ToBytes _ ++ stringToBytes (bidder b)).
  assert (Hhd : length hd = (4 + String.length (bidder b))%nat).
  { subst hd. unfold u32ToBytes.
    by rewrite length_app, length_le_bytes, length_stringToBytes. }
  erewrite (nextString_at [] (bidder b)); [|done|reflexivity|reflexivity].
  unfold nextU64.
  erewrite (nextFixed_at 8 hd (amount b));
    [|reflexivity|rewrite Hhd; cbn; lia].
  erewrite (nextFixed_at 8 (hd ++ le_bytes 8 (amount b)) (timestamp b) []);
    [|by rewrite app_nil_r, <- app_assoc
     |rewrite length_app, length_le_bytes, Hhd; cbn; lia].
  cbn [fst bidder amount timestamp].
  change (256 ^ Z.of_nat 8) with (2 ^ 64).
  rewrite !Z.mod_small by done. by destruct b.
Qed.

(** ** Strings and keys *)

Lemma append_assoc (a b c : string) : (a +:+ b) +:+ c = a +:+ (b +:+ c).
Proof.
  induction a as [|x a IH]; [reflexivity|].
  change (String x ((a +:+ b) +:+ c) = String x (a +:+ (b +:+ c))).
  by rewrite IH.
Qed.

Lemma prefix_append (s r : string) : String.prefix s (s +:+ r) = true.
Proof.
  induction s as [|x s IH].
  - by destruct r.
  - change (String.prefix (String x s) (String x (s +:+ r)) = true).
    cbn [String.prefix]. destruct (ascii_dec x x); [exact IH|congruence].
Qed.

Lemma prefix_append_same (a x y : string) :
  String.prefix (a +:+ x) (a +:+ y) = String.prefix x y.
Proof.
  induction a as [|c a IH]; [reflexivity|].
  change (String.prefix (String c (a +:+ x)) (String c (a +:+ y))
          = String.prefix x y).
  cbn [String.prefix]. destruct (ascii_dec c c); [exact IH|congruence].
Qed.

Lemma bidKey_prefix c t b :
  String.prefix (bid_prefix c t) (V22._bidKeyGenerator c t b) = true.
Proof.
  unfold bid_prefix, V22._bidKeyGenerator.
  rewrite !prefix_append_same. apply prefix_append.
Qed.

Lemma bidKey_inj c t b b' :
  V22._bidKeyGenerator c t b = V22._bidKeyGenerator c t b' -> b = b'.
Proof.
  unfold V22._bidKeyGenerator. intros E.
  by repeat (apply (inj (String.app _)) in E).
Qed.

Lemma offerKey_no_bid_prefix p c t :
  String.prefix (V22.BID_PREFIX +:+ p) (V22._keyGenerator c t) = false.
Proof. reflexivity. Qed.

Lemma offerKey_not_bidKey c t c' t' b :
  V22._keyGenerator c t <> V22._bidKeyGenerator c' t' b.
Proof. discriminate. Qed.

(** ** Enumerating keys by prefix *)

Lemma elem_of_keys_with_prefix p (m : gmap string bytes) k :
  k ∈ keys_with_prefix p m <-> String.prefix p k = true /\ is_Some (m !! k).
Proof.
  unfold keys_with_prefix. rewrite merge_sort_Permutation.
  rewrite list_elem_of_filter, list_elem_of_fmap. split.
  - intros [Hp ([k' v] & -> & Hin)]. split; [done|].
    apply elem_of_map_to_list in Hin. eauto.
  - intros [Hp [v Hv]]. split; [done|]. exists (k, v). split; [done|].
    by apply elem_of_map_to_list.
Qed.

Lemma NoDup_keys_with_prefix p (m : gmap string bytes) :
  NoDup (keys_with_prefix p m).
Proof.
  unfold keys_with_prefix. rewrite merge_sort_Permutation.
  apply NoDup_filter, NoDup_fst_map_to_list.
Qed.

Lemma lookup_delete_all ks (m : gmap string bytes) k :
  delete_all ks m !! k = if bool_decide (k ∈ ks) then None else m !! k.
Proof.
  revert m. induction ks as [|k0 ks IH]; intros m; cbn.
  - reflexivity.
  - rewrite IH. destruct (decide (k = k0)) as [->|Hne].
    + rewrite lookup_delete_eq. rewrite (bool_decide_true (k0 ∈ k0 :: ks)) by constructor.
      by case_bool_decide.
    + rewrite lookup_delete_ne by done.
      rewrite (bool_decide_ext (k ∈ k0 :: ks) (k ∈ ks)); [done|set_solver].
Qed.

(** ** [resetBids] *)

Lemma Bid_deserialize_isOk this data off :
  isOk (snd (Bid_deserialize this data off)) = true.
Proof. unfold Bid_deserialize. repeat case_match; reflexivity. Qed.

Lemma SellOffer_deserialize_isOk this data off :
  isOk (snd (SellOffer_deserialize this data off)) = true.
Proof. unfold SellOffer_deserialize. repeat case_match; reflexivity. Qed.

Lemma Storage_get_run k v ctx h :
  storage h !! k = Some v -> Storage_get k ctx h = Done v h.
Proof. unfold Storage_get. by intros ->. Qed.

Lemma Storage_del_run k ctx h :
  is_Some (storage h !! k) \/ ctx_del_absent_ok ctx = true ->
  Storage_del k ctx h
  = Done tt (mkHost (delete k (storage h)) (trace h ++ [StorageDel k])).
Proof.
  unfold Storage_del. destruct (storage h !! k) eqn:E; [done|].
  intros [[? ?]| ->]; [done|]. by rewrite delete_id.
Qed.

Lemma reset_ops_ext (m m' : gmap string bytes) ks buyer :
  (forall k, k ∈ ks -> m !! k = m' !! k) ->
  reset_ops m ks buyer = reset_ops m' ks buyer.
Proof.
  induction ks as [|k ks IH]; intros H; cbn; [reflexivity|].
  rewrite (H k) by set_solver. rewrite IH; [done|].
  intros k' Hk'. apply H. set_solver.
Qed.

Lemma resetBids_loop_run ks buyer ctx h :
  NoDup ks ->
  (forall k, k ∈ ks -> is_Some (storage h !! k)) ->
  V22.resetBids_loop ks buyer ctx h
  = Done tt (mkHost (delete_all ks (storage h))
                    (trace h ++ reset_ops (storage h) ks buyer)).
Proof.
  revert h. induction ks as [|k ks IH]; intros h Hnd Hin.
  - cbn. unfold ret. destruct h. cbn. by rewrite app_nil_r.
  - apply NoDup_cons in Hnd as [Hk Hnd].
    destruct (Hin k) as [data Hdata]; [set_solver|].
    cbn [V22.resetBids_loop reset_ops delete_all]. rewrite Hdata.
    rewrite (bind_Done_l _ _ _ _ data h) by by apply Storage_get_run.
    pose proof (Bid_deserialize_isOk (mkBid "" 0 0) data 0) as Hok.
    unfold refund_ops, decode_bid.
    destruct (Bid_deserialize _ data 0) as [bidData r]. cbn in Hok. rewrite Hok.
    cbn [fst]. unfold Sdk.assert at 1.
    rewrite (bind_Done_l (ret ()) _ ctx h tt h) by reflexivity.
    set (h1 := mkHost (storage h)
                 (trace h ++
                  (if bool_decide (buyer = "")
                      || negb (bool_decide (bidder bidData = buyer))
                   then [TransferCoins (bidder bidData) (amount bidData)]
                   else []))).
    rewrite (bind_Done_l _ _ ctx h tt h1); cycle 1.
    { subst h1. destruct (_ || _); cbn.
      - reflexivity.
      - unfold ret. destruct h; cbn. by rewrite app_nil_r. }
    rewrite (bind_Done_l _ _ ctx h1 tt
               (mkHost (delete k (storage h1)) (trace h1 ++ [StorageDel k])));
      cycle 1.
    { apply Storage_del_run. left. subst h1. cbn. eauto. }
    rewrite IH; [|done|]; cycle 1.
    { intros k' Hk'. subst h1. cbn. rewrite lookup_delete_ne by set_solver.
      apply Hin. set_solver. }
    subst h1. cbn. f_equal. f_equal.
    rewrite <- !app_assoc. f_equal. f_equal. cbn. f_equal.
    apply reset_ops_ext. intros k' Hk'. rewrite lookup_delete_ne; set_solver.
Qed.

Lemma resetBids_run c t buyer ctx h :
  V22.resetBids c t buyer ctx h
  = let ks := keys_with_prefix (bid_prefix c t) (storage h) in
    Done tt (mkHost (delete_all ks (storage h))
                    (trace h ++ reset_ops (storage h) ks buyer)).
Proof.
  unfold V22.resetBids, Storage_getKeys. cbn zeta.
  rewrite (bind_Done_l _ _ ctx h
             (keys_with_prefix (bid_prefix c t) (storage h)) h)
    by reflexivity.
  apply resetBids_loop_run.
  - apply NoDup_keys_with_prefix.
  - intros k Hk. by apply elem_of_keys_with_prefix in Hk as [_ ?].
Qed.
(** Reading a successful run of the contracts' own helpers. *)
Ltac run_inv2 :=
  match goal with
  | H : V22._hasCollection _ _ _ = Done _ _ |- _ => unfold V22._hasCollection in H
  | H : V22._getNFTOwner _ _ _ _ = Done _ _ |- _ => unfold V22._getNFTOwner in H
  | H : V22._marketplaceOwner _ _ = Done _ _ |- _ => unfold V22._marketplaceOwner in H
  | H : V22.calculateMarketplaceFee _ _ _ = Done _ _ |- _ =>
      unfold V22.calculateMarketplaceFee in H
  | H : V1._hasCollection _ _ _ = Done _ _ |- _ => unfold V1._hasCollection in H
  | H : V1._getNFTOwner _ _ _ _ = Done _ _ |- _ => unfold V1._getNFTOwner in H
  | H : V22.resetBids _ _ _ _ _ = Done _ _ |- _ =>
      rewrite resetBids_run in H; cbv zeta in H; injection H as H
  | H : (if ?b then _ else _) _ _ = Done _ _ |- _ => destruct b eqn:?
  end.

Ltac run_all :=
  repeat (first [run_inv1 | run_inv2]; subst; cbn [storage trace fst snd] in * ).

(** An invocation that aborts leaves the datastore as it was. *)
Lemma invoke_Abort f ctx st msg :
  f ctx (mkHost st []) = Abort msg -> invoke f ctx st = st.
Proof. unfold invoke. by intros ->. Qed.

(** Running forwards: unfold the monad and the helpers down to the host
    primitives. *)
Ltac fwd :=
  cbv beta iota zeta delta
    [Sdk.bind expect ret Sdk.assert abort log
     Context_caller Context_callee Context_timestamp Context_transferredCoins
     isAddressEoa Storage_has Storage_get Storage_set
     transferCoins generateEvent sendMessage call
     V22._hasCollection V22._getNFTOwner V22._marketplaceOwner
     V22.calculateMarketplaceFee V1._hasCollection V1._getNFTOwner];
  cbn [storage trace].

Lemma decode_offer_eq data :
  SellOffer_deserialize (mkSellOffer "" "" 0 "" 0 0) data 0
  = (decode_offer data,
     snd (SellOffer_deserialize (mkSellOffer "" "" 0 "" 0 0) data 0)).
Proof. unfold decode_offer. by destruct (SellOffer_deserialize _ _ _). Qed.

Lemma decode_bid_eq data :
  Bid_deserialize (mkBid "" 0 0) data 0
  = (decode_bid data, snd (Bid_deserialize (mkBid "" 0 0) data 0)).
Proof. unfold decode_bid. by destruct (Bid_deserialize _ _ _). Qed.

(** The tests a successful run has passed, as propositions. *)
Ltac bool_hyps :=
  repeat match goal with
         | H : true = _ |- _ => symmetry in H
         | H : bool_decide _ = true |- _ => apply bool_decide_eq_true in H
         | H : negb _ = true |- _ => apply negb_true_iff in H
         | H : bool_decide _ = false |- _ => apply bool_decide_eq_false in H
         end.

Lemma transfers_app l1 l2 : transfers (l1 ++ l2) = transfers l1 ++ transfers l2.
Proof. unfold transfers. apply omap_app. Qed.

Lemma args2_inv binaryArgs c t :
  args2 binaryArgs = Some (c, t) ->
  exists a a', nextString (Args_new binaryArgs 0) = Some (c, a)
               /\ nextU256 a = Some (t, a').
Proof.
  unfold args2. intros H. repeat case_match; simplify_eq. eauto.
Qed.

(** ** Autonomous expiry

    C8: a successful [autonomousDeleteOffer] (the caller is the contract
    itself and the offer is stored) removes the sell-offer record of
    (collection, tokenId) and nothing else: every bid record is left as it
    was and the call moves no coins. *)
Theorem autonomousDeleteOffer_frame ctx h binaryArgs c t :
  args2 binaryArgs = Some (c, t) ->
  ctx_caller ctx = ctx_callee ctx ->
  is_Some (storage h !! V22._keyGenerator c t) ->
  exists h',
    V22.autonomousDeleteOffer binaryArgs ctx h = Done tt h' /\
    storage h' = delete (V22._keyGenerator c t) (storage h) /\
    (forall c' t' b,
        storage h' !! V22._bidKeyGenerator c' t' b
        = storage h !! V22._bidKeyGenerator c' t' b) /\
    trace h' = trace h ++ [StorageDel (V22._keyGenerator c t);
                           GenerateEvent (V22._keyGenerator c t
                                          +:+ " expired and removed")] /\
    transfers (trace h') = transfers (trace h).
Proof.
  intros (a & a' & Ha & Ha')%args2_inv Hc Hs.
  eexists. split.
  - unfold V22.autonomousDeleteOffer. cbn zeta. rewrite Ha.
    unfold Sdk.bind at 1. cbn [expect ret]. rewrite Ha'.
    unfold Sdk.bind at 1. cbn [expect ret].
    unfold Sdk.bind, Context_caller, Context_callee, Storage_has.
    rewrite Hc, bool_decide_true by done. cbn [Sdk.assert ret].
    rewrite bool_decide_true by done. cbn [Sdk.assert ret].
    rewrite Storage_del_run by (cbn; auto). cbn. reflexivity.
  - cbn. split_and!.
    + done.
    + intros. rewrite lookup_delete_ne; [done|]. apply offerKey_not_bidKey.
    + by rewrite <- app_assoc.
    + rewrite <- app_assoc, transfers_app. cbn. by rewrite app_nil_r.
Qed.

Lemma autonomousDeleteOffer_frame_witness :
  exists h',
    V22.autonomousDeleteOffer (Scenario.encode2 Scenario.collectionX 7)
      (Scenario.ctx Scenario.market Scenario.t_late 0 Scenario.seller false)
      (mkHost Scenario.st_two_bids []) = Done tt h' /\
    storage h' !! V22._bidKeyGenerator Scenario.collectionX 7 Scenario.bob
    = Scenario.st_two_bids
        !! V22._bidKeyGenerator Scenario.collectionX 7 Scenario.bob /\
    transfers (trace h') = [].
Proof.
  destruct (autonomousDeleteOffer_frame
              (Scenario.ctx Scenario.market Scenario.t_late 0
                 Scenario.seller false)
              (mkHost Scenario.st_two_bids [])
              (Scenario.encode2 Scenario.collectionX 7)
              Scenario.collectionX 7)
    as (h' & Hrun & _ & Hbids & _ & Htr).
  - vm_compute. reflexivity.
  - reflexivity.
  - vm_compute. eexists. reflexivity.
  - exists h'. split; [exact Hrun|]. split; [apply Hbids|exact Htr].
Defined.
(** ** Externally-owned callers only

    C10: in the v2.2 marketplace [sellOffer] and [buyOffer] abort for
    every caller that is not an externally-owned account, whatever the
    arguments, the datastore and the answers of the collection contract;
    the datastore is left unchanged. *)
Theorem sell_buy_reject_contract_callers ctx h binaryArgs :
  ctx_isAddressEoa ctx (ctx_caller ctx) = false ->
  (exists msg, V22.sellOffer binaryArgs ctx h = Abort msg) /\
  (exists msg, V22.buyOffer binaryArgs ctx h = Abort msg) /\
  invoke (V22.sellOffer binaryArgs) ctx (storage h) = storage h /\
  invoke (V22.buyOffer binaryArgs) ctx (storage h) = storage h.
Proof.
  intros Heoa.
  assert (Hs : forall h0, exists msg, V22.sellOffer binaryArgs ctx h0 = Abort msg).
  { intros h0. destruct (V22.sellOffer binaryArgs ctx h0) as [[] h'|msg] eqn:E; [|eauto].
    exfalso. unfold V22.sellOffer in E. run_all. congruence. }
  assert (Hb : forall h0, exists msg, V22.buyOffer binaryArgs ctx h0 = Abort msg).
  { intros h0. destruct (V22.buyOffer binaryArgs ctx h0) as [[] h'|msg] eqn:E; [|eauto].
    exfalso. unfold V22.buyOffer in E. run_all. congruence. }
  split; [apply Hs|]. split; [apply Hb|]. split.
  - destruct (Hs (mkHost (storage h) [])) as [msg E]. by eapply invoke_Abort.
  - destruct (Hb (mkHost (storage h) [])) as [msg E]. by eapply invoke_Abort.
Qed.


Lemma sell_buy_reject_contract_callers_witness :
  exists msg,
    V22.buyOffer (Scenario.encode2 Scenario.collectionX 7)
      (Scenario.ctx Scenario.market Scenario.t_live 1000
         Scenario.seller false)
      (mkHost Scenario.st_listed []) = Abort msg.
Proof.
  eapply (sell_buy_reject_contract_callers
            (Scenario.ctx Scenario.market Scenario.t_live 1000
               Scenario.seller false)
            (mkHost Scenario.st_listed [])
            (Scenario.encode2 Scenario.collectionX 7)).
  vm_compute. reflexivity.
Defined.
Lemma offerKey_versions c t : V1._keyGenerator c t = V22._keyGenerator c t.
Proof. reflexivity. Qed.

Lemma args4_inv binaryArgs c t p e :
  args4 binaryArgs = Some (c, t, p, e) ->
  exists a1 a2 a3 a4,
    nextString (Args_new binaryArgs 0) = Some (c, a1) /\
    nextU256 a1 = Some (t, a2) /\
    nextU64 a2 = Some (p, a3) /\
    nextU64 a3 = Some (e, a4).
Proof.
  unfold args4. intros H. repeat case_match; simplify_eq. eauto 10.
Qed.

(** ** One offer per token

    C4: while a sell offer is stored for (collection, tokenId), every
    [sellOffer] for that pair aborts and the datastore keeps the offer it
    had; this holds in the earlier marketplace and in v2.2.  The datastore
    has one slot per key, so at most one offer per pair is ever stored. *)
Theorem sellOffer_rejects_second_offer ctx h binaryArgs c t p e :
  args4 binaryArgs = Some (c, t, p, e) ->
  is_Some (storage h !! V22._keyGenerator c t) ->
  (exists msg, V22.sellOffer binaryArgs ctx h = Abort msg) /\
  (exists msg, V1.sellOffer binaryArgs ctx h = Abort msg) /\
  invoke (V22.sellOffer binaryArgs) ctx (storage h) = storage h /\
  invoke (V1.sellOffer binaryArgs) ctx (storage h) = storage h.
Proof.
  intros (a1 & a2 & a3 & a4 & H1 & H2 & H3 & H4)%args4_inv Hs.
  assert (Hv22 : forall tr, exists msg,
             V22.sellOffer binaryArgs ctx (mkHost (storage h) tr) = Abort msg).
  { intros tr.
    destruct (V22.sellOffer binaryArgs ctx _) as [[] h'|msg] eqn:E; [|eauto].
    exfalso. unfold V22.sellOffer in E. run_all. simplify_eq.
    rewrite bool_decide_true in * by done. done. }
  assert (Hv1 : forall tr, exists msg,
             V1.sellOffer binaryArgs ctx (mkHost (storage h) tr) = Abort msg).
  { intros tr.
    destruct (V1.sellOffer binaryArgs ctx _) as [[] h'|msg] eqn:E; [|eauto].
    exfalso. unfold V1.sellOffer in E. run_all. simplify_eq.
    rewrite offerKey_versions in *.
    rewrite bool_decide_true in * by done. done. }
  destruct h as [st tr]. cbn [storage] in *. split_and!.
  - apply Hv22.
  - apply Hv1.
  - destruct (Hv22 []) as [msg E]. by eapply invoke_Abort.
  - destruct (Hv1 []) as [msg E]. by eapply invoke_Abort.
Qed.


Lemma sellOffer_rejects_second_offer_witness :
  exists msg,
    V22.sellOffer (Scenario.encode4 Scenario.collectionX 7 2000 3600000)
      (Scenario.ctx Scenario.seller Scenario.t_live 0 Scenario.seller false)
      (mkHost Scenario.st_listed []) = Abort msg.
Proof.
  eapply (sellOffer_rejects_second_offer
            (Scenario.ctx Scenario.seller Scenario.t_live 0
               Scenario.seller false)
            (mkHost Scenario.st_listed [])
            (Scenario.encode4 Scenario.collectionX 7 2000 3600000)
            Scenario.collectionX 7 2000 3600000).
  - vm_compute. reflexivity.
  - vm_compute. eexists. reflexivity.
Defined.
Lemma buyOffer_expired_message_v22 ctx h binaryArgs c t data :
  args2 binaryArgs = Some (c, t) ->
  is_Some (storage h !! (V22.COLLECTION_PREFIX +:+ c)) ->
  storage h !! V22._keyGenerator c t = Some data ->
  expirationTime (decode_offer data) < wrap64 (ctx_timestamp ctx) ->
  V22.buyOffer binaryArgs ctx h = Abort "Sell offer has expired".
Proof.
  intros (a & a' & Ha & Ha')%args2_inv Hc Hd Hexp.
  unfold V22.buyOffer. fwd. rewrite Ha. fwd. rewrite Ha'. fwd.
  rewrite bool_decide_true by done. fwd.
  rewrite Hd. rewrite bool_decide_true by eauto. fwd.
  rewrite Hd. fwd. rewrite decode_offer_eq. fwd. rewrite SellOffer_deserialize_isOk. fwd.
  rewrite (proj2 (Z.leb_gt _ _)) by done. reflexivity.
Qed.

Lemma buyOffer_expired_message_v1 ctx h binaryArgs c t data :
  args2 binaryArgs = Some (c, t) ->
  is_Some (storage h !! (V1.COLLECTION_PREFIX +:+ c)) ->
  storage h !! V1._keyGenerator c t = Some data ->
  expirationTime (decode_offer data) < wrap64 (ctx_timestamp ctx) ->
  V1.buyOffer binaryArgs ctx h = Abort "Sell offer has expired".
Proof.
  intros (a & a' & Ha & Ha')%args2_inv Hc Hd Hexp.
  unfold V1.buyOffer. fwd. rewrite Ha. fwd. rewrite Ha'. fwd.
  rewrite bool_decide_true by done. fwd.
  rewrite Hd. rewrite bool_decide_true by eauto. fwd.
  rewrite Hd. fwd. rewrite decode_offer_eq. fwd.
  rewrite SellOffer_deserialize_isOk. fwd.
  rewrite (proj2 (Z.leb_gt _ _)) by done. reflexivity.
Qed.

Lemma buyOffer_expired_aborts_v22 ctx h binaryArgs c t data :
  args2 binaryArgs = Some (c, t) ->
  storage h !! V22._keyGenerator c t = Some data ->
  expirationTime (decode_offer data) < wrap64 (ctx_timestamp ctx) ->
  exists msg, V22.buyOffer binaryArgs ctx h = Abort msg.
Proof.
  intros (a & a' & Ha & Ha')%args2_inv Hd Hexp.
  destruct (V22.buyOffer binaryArgs ctx h) as [[] h'|msg] eqn:E; [|eauto].
  exfalso. unfold V22.buyOffer in E. run_all. simplify_eq.
  unfold decode_offer in Hexp.
  match goal with H : SellOffer_deserialize _ _ _ = _ |- _ =>
    rewrite H in Hexp end.
  cbn [fst] in Hexp. lia.
Qed.

Lemma buyOffer_expired_aborts_v1 ctx h binaryArgs c t data :
  args2 binaryArgs = Some (c, t) ->
  storage h !! V1._keyGenerator c t = Some data ->
  expirationTime (decode_offer data) < wrap64 (ctx_timestamp ctx) ->
  exists msg, V1.buyOffer binaryArgs ctx h = Abort msg.
Proof.
  intros (a & a' & Ha & Ha')%args2_inv Hd Hexp.
  destruct (V1.buyOffer binaryArgs ctx h) as [[] h'|msg] eqn:E; [|eauto].
  exfalso. unfold V1.buyOffer in E. run_all. simplify_eq.
  unfold decode_offer in Hexp.
  match goal with H : SellOffer_deserialize _ _ _ = _ |- _ =>
    rewrite H in Hexp end.
  cbn [fst] in Hexp. lia.
Qed.

(** ** Expired offers

    C6, as amended: when the stored offer of (collection, tokenId) has an
    expirationTime strictly below the current timestamp, [buyOffer] aborts
    in both marketplaces and leaves the datastore unchanged, so the offer
    is not bought; the abort carries the message "Sell offer has expired"
    whenever the collection is still registered (the registry is checked
    before the offer is read). *)
Theorem buyOffer_expired ctx h binaryArgs c t data :
  args2 binaryArgs = Some (c, t) ->
  storage h !! V22._keyGenerator c t = Some data ->
  expirationTime (decode_offer data) < wrap64 (ctx_timestamp ctx) ->
  (exists msg, V22.buyOffer binaryArgs ctx h = Abort msg) /\
  (exists msg, V1.buyOffer binaryArgs ctx h = Abort msg) /\
  invoke (V22.buyOffer binaryArgs) ctx (storage h) = storage h /\
  invoke (V1.buyOffer binaryArgs) ctx (storage h) = storage h /\
  (is_Some (storage h !! (V22.COLLECTION_PREFIX +:+ c)) ->
   V22.buyOffer binaryArgs ctx h = Abort "Sell offer has expired" /\
   V1.buyOffer binaryArgs ctx h = Abort "Sell offer has expired").
Proof.
  intros Ha Hd Hexp. split_and!.
  - by eapply buyOffer_expired_aborts_v22.
  - by eapply buyOffer_expired_aborts_v1.
  - destruct (buyOffer_expired_aborts_v22 ctx (mkHost (storage h) [])
                binaryArgs c t data) as [msg E]; [done..|].
    by eapply invoke_Abort.
  - destruct (buyOffer_expired_aborts_v1 ctx (mkHost (storage h) [])
                binaryArgs c t data) as [msg E]; [done..|].
    by eapply invoke_Abort.
  - intros Hc. split.
    + by eapply buyOffer_expired_message_v22.
    + by eapply buyOffer_expired_message_v1.
Qed.

Lemma buyOffer_expired_witness :
  V22.buyOffer (Scenario.encode2 Scenario.collectionX 7)
    (Scenario.ctx Scenario.carol Scenario.t_late 1000 Scenario.seller false)
    (mkHost Scenario.st_two_bids [])
  = Abort "Sell offer has expired".
Proof.
  eapply (buyOffer_expired
            (Scenario.ctx Scenario.carol Scenario.t_late 1000
               Scenario.seller false)
            (mkHost Scenario.st_two_bids [])
            (Scenario.encode2 Scenario.collectionX 7)
            Scenario.collectionX 7).
  - vm_compute. reflexivity.
  - vm_compute. reflexivity.
  - vm_compute. reflexivity.
  - vm_compute. eexists. reflexivity.
Defined.

(** The claim as first stated (always the expiry error) fails once the
    collection has been taken off the registry: the offer of token 7 is
    still stored and has expired, and [buyOffer] aborts with the registry's
    message. *)
Lemma buyOffer_expired_other_error :
  ~ (forall ctx h binaryArgs c t data,
        args2 binaryArgs = Some (c, t) ->
        storage h !! V22._keyGenerator c t = Some data ->
        expirationTime (decode_offer data) < wrap64 (ctx_timestamp ctx) ->
        V22.buyOffer binaryArgs ctx h = Abort "Sell offer has expired").
Proof.
  intros H.
  destruct (Scenario.st_delisted !! V22._keyGenerator Scenario.collectionX 7)
    as [data|] eqn:Hd; [|vm_compute in Hd; discriminate].
  specialize (H (Scenario.ctx Scenario.carol Scenario.t_late 1000
                   Scenario.seller false)
                (mkHost Scenario.st_delisted [])
                (Scenario.encode2 Scenario.collectionX 7)
                Scenario.collectionX 7 data).
  vm_compute in Hd. injection Hd as <-.
  specialize (H ltac:(vm_compute; reflexivity) ltac:(vm_compute; reflexivity)
                ltac:(vm_compute; reflexivity)).
  vm_compute in H. discriminate.
Qed.

Lemma serialize_u256 t : serialize (add_u256 t Args_empty) = u256ToBytes t.
Proof. reflexivity. Qed.

Lemma removeSellOffer_Done_v1 ctx h binaryArgs c t h' :
  args2 binaryArgs = Some (c, t) ->
  V1.removeSellOffer binaryArgs ctx h = Done tt h' ->
  exists data,
    storage h !! V1._keyGenerator c t = Some data /\
    creatorAddress (decode_offer data) = ctx_caller ctx /\
    owner_of ctx c t = Some (ctx_caller ctx) /\
    storage h' = delete (V1._keyGenerator c t) (storage h).
Proof.
  intros (a & a' & Ha & Ha')%args2_inv E.
  unfold V1.removeSellOffer in E. run_all. simplify_eq.
  bool_hyps.
  eexists. split; [eassumption|]. split_and!.
  - unfold decode_offer.
    match goal with H : SellOffer_deserialize _ _ _ = _ |- _ => rewrite H end.
    done.
  - unfold owner_of. rewrite <- serialize_u256.
    match goal with H : ctx_call _ _ _ _ _ = Some _ |- _ => rewrite H end.
    cbn. congruence.
  - done.
Qed.

Lemma removeSellOffer_Done_v22 ctx h binaryArgs c t h' :
  args2 binaryArgs = Some (c, t) ->
  V22.removeSellOffer binaryArgs ctx h = Done tt h' ->
  is_Some (storage h !! V22._keyGenerator c t) /\
  owner_of ctx c t = Some (ctx_caller ctx) /\
  storage h' !! V22._keyGenerator c t = None.
Proof.
  intros (a & a' & Ha & Ha')%args2_inv E.
  unfold V22.removeSellOffer in E. run_all. simplify_eq.
  bool_hyps.
  split_and!.
  - done.
  - unfold owner_of. rewrite <- serialize_u256.
    match goal with H : ctx_call _ _ _ _ _ = Some _ |- _ => rewrite H end.
    cbn. congruence.
  - apply lookup_delete_eq.
Qed.

(** ** Removing an offer

    C2, as amended: in the earlier marketplace [removeSellOffer] succeeds
    only when the caller is both the creator recorded in the stored offer
    and the owner the collection contract reports for the token; in v2.2 it
    succeeds only when the caller is that reported owner (the recorded
    creator is not consulted).  In either marketplace a call that fails its
    checks aborts and leaves the datastore unchanged.  The collection
    address, and in the refusals the reported owner and the recorded
    creator, are strings of plain ASCII characters, as addresses are. *)
Theorem removeSellOffer_checks ctx h binaryArgs c t :
  args2 binaryArgs = Some (c, t) ->
  plain_ascii c = true ->
  (forall h', V1.removeSellOffer binaryArgs ctx h = Done tt h' ->
     exists data,
       storage h !! V1._keyGenerator c t = Some data /\
       creatorAddress (decode_offer data) = ctx_caller ctx /\
       owner_of ctx c t = Some (ctx_caller ctx)) /\
  (forall h', V22.removeSellOffer binaryArgs ctx h = Done tt h' ->
     is_Some (storage h !! V22._keyGenerator c t) /\
     owner_of ctx c t = Some (ctx_caller ctx)) /\
  ((forall o, owner_of ctx c t = Some o -> plain_ascii o = true) ->
   owner_of ctx c t <> Some (ctx_caller ctx) ->
     (exists msg, V1.removeSellOffer binaryArgs ctx h = Abort msg) /\
     (exists msg, V22.removeSellOffer binaryArgs ctx h = Abort msg) /\
     invoke (V1.removeSellOffer binaryArgs) ctx (storage h) = storage h /\
     invoke (V22.removeSellOffer binaryArgs) ctx (storage h) = storage h) /\
  (forall data,
     storage h !! V1._keyGenerator c t = Some data ->
     plain_ascii (creatorAddress (decode_offer data)) = true ->
     creatorAddress (decode_offer data) <> ctx_caller ctx ->
     (exists msg, V1.removeSellOffer binaryArgs ctx h = Abort msg) /\
     invoke (V1.removeSellOffer binaryArgs) ctx (storage h) = storage h).
Proof.
  intros Ha _.
  assert (Hv1 : forall h0, owner_of ctx c t <> Some (ctx_caller ctx) ->
            exists msg, V1.removeSellOffer binaryArgs ctx h0 = Abort msg).
  { intros h0 Hne.
    destruct (V1.removeSellOffer binaryArgs ctx h0) as [[] h'|msg] eqn:E;
      [|eauto].
    by destruct (removeSellOffer_Done_v1 _ _ _ _ _ _ Ha E)
      as (? & _ & _ & ? & _). }
  assert (Hv22 : forall h0, owner_of ctx c t <> Some (ctx_caller ctx) ->
            exists msg, V22.removeSellOffer binaryArgs ctx h0 = Abort msg).
  { intros h0 Hne.
    destruct (V22.removeSellOffer binaryArgs ctx h0) as [[] h'|msg] eqn:E;
      [|eauto].
    by destruct (removeSellOffer_Done_v22 _ _ _ _ _ _ Ha E) as (_ & ? & _). }
  assert (Hcr : forall h0 data,
            storage h0 !! V1._keyGenerator c t = Some data ->
            creatorAddress (decode_offer data) <> ctx_caller ctx ->
            exists msg, V1.removeSellOffer binaryArgs ctx h0 = Abort msg).
  { intros h0 data Hd Hne.
    destruct (V1.removeSellOffer binaryArgs ctx h0) as [[] h'|msg] eqn:E;
      [|eauto].
    destruct (removeSellOffer_Done_v1 _ _ _ _ _ _ Ha E)
      as (data' & Hd' & Hc & _). congruence. }
  split_and!.
  - intros h' E.
    destruct (removeSellOffer_Done_v1 _ _ _ _ _ _ Ha E)
      as (data & ? & ? & ? & _). eauto.
  - intros h' E.
    destruct (removeSellOffer_Done_v22 _ _ _ _ _ _ Ha E) as (? & ? & _). eauto.
  - intros _ Hne. split_and!; [by apply Hv1|by apply Hv22|..].
    + destruct (Hv1 (mkHost (storage h) []) Hne) as [msg E].
      by eapply invoke_Abort.
    + destruct (Hv22 (mkHost (storage h) []) Hne) as [msg E].
      by eapply invoke_Abort.
  - intros data Hd _ Hne. split; [by eapply Hcr|].
    destruct (Hcr (mkHost (storage h) []) data Hd Hne) as [msg E].
    by eapply invoke_Abort.
Qed.

Lemma removeSellOffer_checks_witness :
  (exists msg,
      V22.removeSellOffer (Scenario.encode2 Scenario.collectionX 7)
        (Scenario.ctx Scenario.carol Scenario.t_live 0 Scenario.seller false)
        (mkHost Scenario.st_listed []) = Abort msg) /\
  invoke (V22.removeSellOffer (Scenario.encode2 Scenario.collectionX 7))
    (Scenario.ctx Scenario.carol Scenario.t_live 0 Scenario.seller false)
    Scenario.st_listed = Scenario.st_listed /\
  (exists msg,
      V1.removeSellOffer (Scenario.encode2 Scenario.collectionX 7)
        (Scenario.ctx Scenario.carol Scenario.t_live 0 Scenario.carol false)
        (mkHost Scenario.st_listed_v1 []) = Abort msg) /\
  invoke (V1.removeSellOffer (Scenario.encode2 Scenario.collectionX 7))
    (Scenario.ctx Scenario.carol Scenario.t_live 0 Scenario.carol false)
    Scenario.st_listed_v1 = Scenario.st_listed_v1 /\
  (exists h',
      V1.removeSellOffer (Scenario.encode2 Scenario.collectionX 7)
        (Scenario.ctx Scenario.seller Scenario.t_live 0 Scenario.seller false)
        (mkHost Scenario.st_listed_v1 []) = Done tt h' /\
      storage h' = Scenario.st_deployed).
Proof.
  split_and!.
  - (* Carol is not the owner the collection reports *)
    destruct (removeSellOffer_checks
                (Scenario.ctx Scenario.carol Scenario.t_live 0
                   Scenario.seller false)
                (mkHost Scenario.st_listed [])
                (Scenario.encode2 Scenario.collectionX 7)
                Scenario.collectionX 7) as (_ & _ & H & _).
    + vm_compute. reflexivity.
    + vm_compute. reflexivity.
    + apply H.
      * intros o Ho. vm_compute in Ho. injection Ho as <-.
        vm_compute. reflexivity.
      * vm_compute. discriminate.
  - destruct (removeSellOffer_checks
                (Scenario.ctx Scenario.carol Scenario.t_live 0
                   Scenario.seller false)
                (mkHost Scenario.st_listed [])
                (Scenario.encode2 Scenario.collectionX 7)
                Scenario.collectionX 7) as (_ & _ & H & _).
    + vm_compute. reflexivity.
    + vm_compute. reflexivity.
    + apply H.
      * intros o Ho. vm_compute in Ho. injection Ho as <-.
        vm_compute. reflexivity.
      * vm_compute. discriminate.
  - (* Carol owns the token now but did not create the offer *)
    destruct (Scenario.st_listed_v1
                !! V1._keyGenerator Scenario.collectionX 7)
      as [data|] eqn:Hd; [|vm_compute in Hd; discriminate].
    destruct (removeSellOffer_checks
                (Scenario.ctx Scenario.carol Scenario.t_live 0
                   Scenario.carol false)
                (mkHost Scenario.st_listed_v1 [])
                (Scenario.encode2 Scenario.collectionX 7)
                Scenario.collectionX 7) as (_ & _ & _ & H).
    + vm_compute. reflexivity.
    + vm_compute. reflexivity.
    + apply (H data Hd).
      * vm_compute in Hd. injection Hd as <-. vm_compute. reflexivity.
      * vm_compute in Hd. injection Hd as <-. vm_compute. discriminate.
  - destruct (Scenario.st_listed_v1
                !! V1._keyGenerator Scenario.collectionX 7)
      as [data|] eqn:Hd; [|vm_compute in Hd; discriminate].
    destruct (removeSellOffer_checks
                (Scenario.ctx Scenario.carol Scenario.t_live 0
                   Scenario.carol false)
                (mkHost Scenario.st_listed_v1 [])
                (Scenario.encode2 Scenario.collectionX 7)
                Scenario.collectionX 7) as (_ & _ & _ & H).
    + vm_compute. reflexivity.
    + vm_compute. reflexivity.
    + apply (H data Hd).
      * vm_compute in Hd. injection Hd as <-. vm_compute. reflexivity.
      * vm_compute in Hd. injection Hd as <-. vm_compute. discriminate.
  - eexists. split; vm_compute; reflexivity.
Defined.

(** The claim as first stated (creator and owner in every version) fails
    in v2.2: token 7 was listed by the seller and now belongs to Carol, who
    did not create the offer, and Carol's [removeSellOffer] succeeds. *)
Lemma removeSellOffer_v22_ignores_creator :
  ~ (forall ctx h binaryArgs c t data h',
        args2 binaryArgs = Some (c, t) ->
        storage h !! V22._keyGenerator c t = Some data ->
        V22.removeSellOffer binaryArgs ctx h = Done tt h' ->
        creatorAddress (decode_offer data) = ctx_caller ctx /\
        owner_of ctx c t = Some (ctx_caller ctx)).
Proof.
  intros H.
  destruct (Scenario.st_listed !! V22._keyGenerator Scenario.collectionX 7)
    as [data|] eqn:Hd; [|vm_compute in Hd; discriminate].
  destruct (V22.removeSellOffer (Scenario.encode2 Scenario.collectionX 7)
              (Scenario.ctx Scenario.carol Scenario.t_live 0
                 Scenario.carol false)
              (mkHost Scenario.st_listed []))
    as [[] h'|msg] eqn:E; [|vm_compute in E; discriminate].
  assert (Ha : args2 (Scenario.encode2 Scenario.collectionX 7)
               = Some (Scenario.collectionX, 7))
    by (vm_compute; reflexivity).
  destruct (H _ (mkHost Scenario.st_listed []) _ _ _ data h' Ha Hd E)
    as [Hc _].
  vm_compute in Hd. injection Hd as <-.
  vm_compute in Hc. discriminate.
Qed.

Lemma wrap64_range z : 0 <= wrap64 z < 2 ^ 64.
Proof. unfold wrap64, wrap. apply Z.mod_pos_bound. lia. Qed.

Lemma wrap64_small z : 0 <= z < 2 ^ 64 -> wrap64 z = z.
Proof. unfold wrap64, wrap. apply Z.mod_small. Qed.

(** The u64/u8 arithmetic of the scheduling code, for any elapsed time
    that is itself a u64. *)
Lemma schedule_arith elapsed :
  0 <= elapsed < 2 ^ 64 ->
  let startPeriod := elapsed / 16000 in
  wrap8 (wrap64 (elapsed - wrap64 (startPeriod * 16000)) / (16000 / 32))
  = spec_thread elapsed 16000 32 /\
  wrap64 (startPeriod + 10) = spec_period elapsed 16000 + 10 /\
  0 <= spec_thread elapsed 16000 32 < 32.
Proof.
  intros He startPeriod. unfold spec_thread, spec_period.
  fold startPeriod.
  assert (Hp : 0 <= startPeriod * 16000 <= elapsed).
  { subst startPeriod. pose proof (Z.mul_div_le elapsed 16000 ltac:(lia)).
    split; [|lia]. apply Z.mul_nonneg_nonneg; [|lia].
    apply Z.div_pos; lia. }
  assert (Hr : 0 <= elapsed - startPeriod * 16000 < 16000).
  { subst startPeriod. pose proof (Z.mod_pos_bound elapsed 16000 ltac:(lia)).
    rewrite Z.mod_eq in H by lia. lia. }
  rewrite (wrap64_small (startPeriod * 16000)) by lia.
  rewrite (wrap64_small (elapsed - _)) by lia.
  change (16000 / 32) with 500.
  assert (Ht : 0 <= (elapsed - startPeriod * 16000) / 500 < 32).
  { split; [apply Z.div_pos; lia|apply Z.div_lt_upper_bound; lia]. }
  split_and!.
  - unfold wrap8, wrap. apply Z.mod_small. change (2 ^ 8) with 256. lia.
  - apply wrap64_small.
    assert (startPeriod < 2 ^ 64 / 16000 + 1).
    { subst startPeriod. apply Z.lt_succ_r. apply Z.div_le_mono; lia. }
    change (2 ^ 64 / 16000) with 1152921504606846 in H.
    change (2 ^ 64) with 18446744073709551616. lia.
  - apply Ht.
  - apply Ht.
Qed.

Lemma sellOffer_Done_v22 ctx h binaryArgs c t p e h' :
  args4 binaryArgs = Some (c, t, p, e) ->
  V22.sellOffer binaryArgs ctx h = Done tt h' ->
  let now := wrap64 (ctx_timestamp ctx) in
  let expireAt := wrap64 (now + e) in
  let elapsed := wrap64 (expireAt - V22.genesisTimestamp) in
  let key := V22._keyGenerator c t in
  let offer := mkSellOffer c (pretty t) p (ctx_caller ctx) expireAt now in
  storage h !! key = None /\
  storage h' = <[key := SellOffer_serialize offer]> (storage h) /\
  trace h'
  = trace h ++
    [Call c "ownerOf" (u256ToBytes t) 0;
     Call c "isApprovedForAll"
       (serialize (add_string (ctx_callee ctx)
                     (add_string (ctx_caller ctx) Args_empty))) 0;
     StorageSet key (SellOffer_serialize offer);
     SendMessage (ctx_callee ctx) "autonomousDeleteOffer"
       (elapsed / V22.t0)
       (wrap8 (wrap64 (elapsed - wrap64 (elapsed / V22.t0 * V22.t0))
               / (V22.t0 / V22.thread_count)))
       (wrap64 (elapsed / V22.t0 + 10)) 31 1000000000 50000000 0
       (serialize (add_u256 t (add_string c Args_empty)));
     GenerateEvent ("autonomous remove started for the " +:+ c
                    +:+ "_" +:+ pretty t)].
Proof.
  intros (a1 & a2 & a3 & a4 & H1 & H2 & H3 & H4)%args4_inv E.
  unfold V22.sellOffer in E. run_all. simplify_eq. bool_hyps.
  cbn zeta. split_and!.
  - match goal with H : ¬ is_Some _ |- _ =>
      by apply eq_None_not_Some in H end. 
  - done.
  - rewrite <- !app_assoc. cbn. reflexivity.
Qed.

Lemma sellOffer_Done_v1 ctx h binaryArgs c t p e h' :
  args4 binaryArgs = Some (c, t, p, e) ->
  V1.sellOffer binaryArgs ctx h = Done tt h' ->
  let now := wrap64 (ctx_timestamp ctx) in
  let expireAt := wrap64 (now + e) in
  let elapsed := wrap64 (expireAt - V1.genesisTimestamp) in
  let key := V1._keyGenerator c t in
  let offer := mkSellOffer c (pretty t) p (ctx_caller ctx) expireAt now in
  storage h !! key = None /\
  storage h' = <[key := SellOffer_serialize offer]> (storage h) /\
  trace h'
  = trace h ++
    [Call c "ownerOf" (u256ToBytes t) 0;
     Call c "isApprovedForAll"
       (serialize (add_string (ctx_callee ctx)
                     (add_string (ctx_caller ctx) Args_empty))) 0;
     StorageSet key (SellOffer_serialize offer);
     SendMessage (ctx_callee ctx) "autonomousDeleteOffer"
       (elapsed / V1.t0)
       (wrap8 (wrap64 (elapsed - wrap64 (elapsed / V1.t0 * V1.t0))
               / (V1.t0 / V1.thread_count)))
       (wrap64 (elapsed / V1.t0 + 10)) 31 500000000 0 0
       (serialize (add_u256 t (add_string c Args_empty)))].
Proof.
  intros (a1 & a2 & a3 & a4 & H1 & H2 & H3 & H4)%args4_inv E.
  unfold V1.sellOffer in E. run_all. simplify_eq. bool_hyps.
  cbn zeta. split_and!.
  - match goal with H : ¬ is_Some _ |- _ =>
      by apply eq_None_not_Some in H end.
  - done.
  - rewrite <- !app_assoc. cbn. reflexivity.
Qed.

(** ** Scheduling the expiry

    A successful [sellOffer] sends itself one deferred
    [autonomousDeleteOffer] message whose window starts at
    period = floor(elapsed / t0),
    thread = floor((elapsed - period * t0) / (t0 / threadCount)),
    and ends at period + 10, thread 31, where elapsed is the u64
    difference expireAt - genesis and expireAt = now + expireIn; when
    expireAt is not before genesis that difference is the exact one.
    This holds for the earlier marketplace and for v2.2, each with its own
    genesis constant. *)
Theorem sellOffer_schedules_expiry ctx h binaryArgs c t p e :
  args4 binaryArgs = Some (c, t, p, e) ->
  let expireAt := wrap64 (wrap64 (ctx_timestamp ctx) + e) in
  let payload := serialize (add_u256 t (add_string c Args_empty)) in
  (forall h', V22.sellOffer binaryArgs ctx h = Done tt h' ->
     let elapsed := wrap64 (expireAt - V22.genesisTimestamp) in
     exists pre post,
       trace h' = trace h ++ pre ++
         SendMessage (ctx_callee ctx) "autonomousDeleteOffer"
           (spec_period elapsed V22.t0)
           (spec_thread elapsed V22.t0 V22.thread_count)
           (spec_period elapsed V22.t0 + 10) 31
           1000000000 50000000 0 payload :: post /\
       (V22.genesisTimestamp <= expireAt ->
        elapsed = expireAt - V22.genesisTimestamp)) /\
  (forall h', V1.sellOffer binaryArgs ctx h = Done tt h' ->
     let elapsed := wrap64 (expireAt - V1.genesisTimestamp) in
     exists pre,
       trace h' = trace h ++ pre ++
         [SendMessage (ctx_callee ctx) "autonomousDeleteOffer"
            (spec_period elapsed V1.t0)
            (spec_thread elapsed V1.t0 V1.thread_count)
            (spec_period elapsed V1.t0 + 10) 31
            500000000 0 0 payload] /\
       (V1.genesisTimestamp <= expireAt ->
        elapsed = expireAt - V1.genesisTimestamp)).
Proof.
  intros Ha expireAt payload. split.
  - intros h' E elapsed.
    destruct (sellOffer_Done_v22 _ _ _ _ _ _ _ _ Ha E) as (_ & _ & Htr).
    cbn zeta in Htr. fold expireAt elapsed in Htr.
    destruct (schedule_arith elapsed (wrap64_range _)) as (Hth & Hend & _).
    cbn zeta in Hth.
    change V22.t0 with 16000 in *. change V22.thread_count with 32 in *.
    rewrite Hth, Hend in Htr.
    eexists [_; _; _], [_]. split; [exact Htr|].
    intros Hg. subst elapsed. apply wrap64_small.
    pose proof (wrap64_range (wrap64 (ctx_timestamp ctx) + e)).
    fold expireAt in H. unfold V22.genesisTimestamp in *. lia.
  - intros h' E elapsed.
    destruct (sellOffer_Done_v1 _ _ _ _ _ _ _ _ Ha E) as (_ & _ & Htr).
    cbn zeta in Htr. fold expireAt elapsed in Htr.
    destruct (schedule_arith elapsed (wrap64_range _)) as (Hth & Hend & _).
    cbn zeta in Hth.
    change V1.t0 with 16000 in *. change V1.thread_count with 32 in *.
    rewrite Hth, Hend in Htr.
    eexists [_; _; _]. split; [exact Htr|].
    intros Hg. subst elapsed. apply wrap64_small.
    pose proof (wrap64_range (wrap64 (ctx_timestamp ctx) + e)).
    fold expireAt in H. unfold V1.genesisTimestamp in *. lia.
Qed.

Lemma sellOffer_schedules_expiry_witness :
  exists h' pre post,
    V22.sellOffer (Scenario.encode4 Scenario.collectionX 7 1000 3600000)
      (Scenario.ctx Scenario.seller Scenario.t_list 0 Scenario.seller false)
      (mkHost Scenario.st_deployed []) = Done tt h' /\
    trace h' = pre ++
      SendMessage Scenario.market "autonomousDeleteOffer"
        5918175 0 5918185 31 1000000000 50000000 0
        (Scenario.encode2 Scenario.collectionX 7) :: post.
Proof.
  destruct (V22.sellOffer
              (Scenario.encode4 Scenario.collectionX 7 1000 3600000)
              (Scenario.ctx Scenario.seller Scenario.t_list 0
                 Scenario.seller false)
              (mkHost Scenario.st_deployed []))
    as [[] h'|msg] eqn:E; [|vm_compute in E; discriminate].
  destruct (sellOffer_schedules_expiry
              (Scenario.ctx Scenario.seller Scenario.t_list 0
                 Scenario.seller false)
              (mkHost Scenario.st_deployed [])
              (Scenario.encode4 Scenario.collectionX 7 1000 3600000)
              Scenario.collectionX 7 1000 3600000)
    as [Hv22 _].
  - vm_compute. reflexivity.
  - destruct (Hv22 h' E) as (pre & post & Htr & _).
    exists h', pre, post. split; [reflexivity|]. exact Htr.
Defined.

(** C7: the coordinate is computed with an unsigned subtraction and, as
    the comment above it in the earlier marketplace warns, nothing checks
    that the expiration is not before genesis.  The earlier [sellOffer]
    does not compare the expiration with the current time either, so a
    duration that wraps the u64 sum now + expireIn is accepted: at
    now = 1800000000000 and expireIn = 18446743977999351615 the
    expiration is one millisecond before genesis, the listing succeeds,
    and the message it sends is scheduled for period 1152921504606846,
    where floor((expireAt - genesis) / t0) is -1. *)
Theorem sellOffer_v1_period_before_genesis :
  let expireIn := 18446743977999351615 in
  let expireAt := wrap64 (wrap64 Scenario.t_list + expireIn) in
  expireAt = V1.genesisTimestamp - 1 /\
  spec_period (expireAt - V1.genesisTimestamp) V1.t0 = -1 /\
  exists h' pre,
    V1.sellOffer (Scenario.encode4 Scenario.collectionX 7 1000 expireIn)
      (Scenario.ctx Scenario.seller Scenario.t_list 0 Scenario.seller false)
      (mkHost Scenario.st_deployed []) = Done tt h' /\
    trace h' = pre ++
      [SendMessage Scenario.market "autonomousDeleteOffer"
         1152921504606846 31 1152921504606856 31 500000000 0 0
         (Scenario.encode2 Scenario.collectionX 7)].
Proof.
  cbv zeta. split; [vm_compute; reflexivity|].
  split; [vm_compute; reflexivity|].
  eexists _, [_; _; _]. split; vm_compute; reflexivity.
Qed.
(** ** Reading what was written: the stored records *)

(** Reads stated on the bytes that remain from the offset on, so that
    consecutive reads chain. *)
Lemma nextFixed_drop n data off z rest :
  (off <= length data)%nat ->
  drop off data = le_bytes n z ++ rest ->
  nextFixed n (mkArgs data off)
  = Some (z mod 256 ^ Z.of_nat n, mkArgs data (off + n)) /\
  (off + n <= length data)%nat /\
  drop (off + n) data = rest.
Proof.
  intros Hle Hd.
  assert (Hlen : (length data - off = n + length rest)%nat).
  { rewrite <- length_drop, Hd, length_app, length_le_bytes. done. }
  unfold nextFixed, getNextData. cbn [serialized offset].
  rewrite (proj2 (Nat.leb_le _ _)) by lia.
  rewrite Hd, take_app_length' by (by rewrite length_le_bytes).
  rewrite le_value_le_bytes. split_and!; [done|lia|].
  rewrite <- drop_drop, Hd.
  by rewrite drop_app_length' by (by rewrite length_le_bytes).
Qed.

Lemma nextString_drop data off s rest :
  Z.of_nat (String.length s) < 2 ^ 32 ->
  (off <= length data)%nat ->
  drop off data
  = u32ToBytes (Z.of_nat (String.length s)) ++ stringToBytes s ++ rest ->
  nextString (mkArgs data off)
  = Some (s, mkArgs data (off + 4 + String.length s)) /\
  (off + 4 + String.length s <= length data)%nat /\
  drop (off + 4 + String.length s) data = rest.
Proof.
  intros Hl Hle Hd. unfold nextString, nextU32.
  destruct (nextFixed_drop 4 data off _ _ Hle Hd) as (Hn & Hle' & Hd').
  rewrite Hn. cbn [serialized offset].
  change (256 ^ Z.of_nat 4) with (2 ^ 32).
  rewrite Z.mod_small by lia. rewrite Nat2Z.id.
  assert (Hlen : (length data - (off + 4)
                  = String.length s + length rest)%nat).
  { rewrite <- length_drop, Hd', length_app, length_stringToBytes. done. }
  rewrite (proj2 (Nat.leb_le _ _)) by lia.
  unfold getNextData. cbn [serialized offset].
  rewrite Hd', take_app_length' by (by rewrite length_stringToBytes).
  unfold bytesToString, stringToBytes at 1.
  rewrite string_of_list_byte_of_string. split_and!; [done|lia|].
  rewrite <- drop_drop, Hd'.
  by rewrite drop_app_length' by (by rewrite length_stringToBytes).
Qed.

(** Chaining the reads of a record that was written field by field. *)
Ltac read_string s :=
  match goal with
  | Hle : (?off <= length ?data)%nat, Hd : drop ?off ?data = _ |- _ =>
      let Hn := fresh "Hn" in
      destruct (nextString_drop data off s _ ltac:(assumption) Hle Hd)
        as (Hn & ? & ?);
      rewrite Hn; clear Hn Hle Hd; cbv beta iota
  end.

Ltac read_u64 z :=
  match goal with
  | Hle : (?off <= length ?data)%nat, Hd : drop ?off ?data = _ |- _ =>
      let Hn := fresh "Hn" in
      destruct (nextFixed_drop 8 data off z _ Hle Hd) as (Hn & ? & ?);
      unfold nextU64; rewrite Hn; clear Hn Hle Hd; cbv beta iota
  end.

Lemma Bid_deserialize_serialize this b :
  wf_string (bidder b) -> wf_u64 (amount b) -> wf_u64 (timestamp b) ->
  fst (Bid_deserialize this (Bid_serialize b) 0) = b /\
  value (snd (Bid_deserialize this (Bid_serialize b) 0))
  = Z.of_nat (length (Bid_serialize b)).
Proof.
  unfold wf_string, wf_u64. destruct b as [bd am ts].
  cbn [bidder amount timestamp]. intros Hs Ha Ht.
  set (b := mkBid bd am ts). set (data := Bid_serialize b).
  assert (Hle : (0 <= length data)%nat) by lia.
  assert (Hd : drop 0 data
               = u32ToBytes (Z.of_nat (String.length (bidder b)))
                 ++ stringToBytes (bidder b)
                 ++ le_bytes 8 (amount b) ++ le_bytes 8 (timestamp b) ++ []).
  { subst data. rewrite Bid_serialize_eq, app_nil_r.
    by rewrite <- !app_assoc. }
  unfold Bid_deserialize, Args_new.
  subst b. cbn [bidder amount timestamp] in Hd.
  read_string bd. read_u64 am. read_u64 ts.
  cbv beta iota zeta delta [fst snd bidder amount timestamp
                            Result_new value offset].
  change (256 ^ Z.of_nat 8) with (2 ^ 64). rewrite !Z.mod_small by done.
  split; [done|].
  match goal with H : drop ?n data = [] |- _ =>
    apply drop_nil_inv in H end. lia.
Qed.

Ltac unfold_serialize :=
  unfold SellOffer_serialize, Bid_serialize, CollectionDetail_serialize,
    serialize, add_u64, add_u256, add_string, add_u32, add_bytes,
    Args_empty, u64ToBytes, u256ToBytes;
  cbn [serialized offset app];
  rewrite ?length_stringToBytes, <- ?app_assoc.

Lemma SellOffer_deserialize_serialize this o :
  wf_string (collectionAddress o) -> wf_string (tokenId o) ->
  wf_u64 (price o) -> wf_string (creatorAddress o) ->
  wf_u64 (expirationTime o) -> wf_u64 (createdTime o) ->
  fst (SellOffer_deserialize this (SellOffer_serialize o) 0) = o /\
  value (snd (SellOffer_deserialize this (SellOffer_serialize o) 0))
  = Z.of_nat (length (SellOffer_serialize o)).
Proof.
  unfold wf_string, wf_u64. destruct o as [f1 f2 f3 f4 f5 f6].
  cbn [collectionAddress tokenId price creatorAddress expirationTime
       createdTime].
  intros H1 H2 H3 H4 H5 H6.
  set (o := mkSellOffer f1 f2 f3 f4 f5 f6).
  set (data := SellOffer_serialize o).
  assert (Hle : (0 <= length data)%nat) by lia.
  assert (Hd : drop 0 data
               = u32ToBytes (Z.of_nat (String.length (collectionAddress o)))
                 ++ stringToBytes (collectionAddress o)
                 ++ u32ToBytes (Z.of_nat (String.length (tokenId o)))
                 ++ stringToBytes (tokenId o)
                 ++ le_bytes 8 (price o)
                 ++ u32ToBytes (Z.of_nat (String.length (creatorAddress o)))
                 ++ stringToBytes (creatorAddress o)
                 ++ le_bytes 8 (expirationTime o)
                 ++ le_bytes 8 (createdTime o) ++ []).
  { subst data. rewrite app_nil_r. unfold_serialize. reflexivity. }
  unfold SellOffer_deserialize, Args_new.
  cbv beta iota zeta delta [collectionAddress tokenId price creatorAddress
                            expirationTime createdTime].
  subst o.
  cbn [collectionAddress tokenId price creatorAddress expirationTime
       createdTime] in Hd.
  read_string f1. read_string f2. read_u64 f3. read_string f4.
  read_u64 f5. read_u64 f6.
  cbv beta iota zeta delta [fst snd collectionAddress tokenId price
                            creatorAddress expirationTime createdTime
                            Result_new value offset].
  change (256 ^ Z.of_nat 8) with (2 ^ 64). rewrite !Z.mod_small by done.
  split; [done|].
  match goal with H : drop ?n data = [] |- _ =>
    apply drop_nil_inv in H end. lia.
Qed.

Lemma decode_offer_serialize o :
  wf_string (collectionAddress o) -> wf_string (tokenId o) ->
  wf_u64 (price o) -> wf_string (creatorAddress o) ->
  wf_u64 (expirationTime o) -> wf_u64 (createdTime o) ->
  decode_offer (SellOffer_serialize o) = o.
Proof.
  intros. unfold decode_offer.
  by apply SellOffer_deserialize_serialize.
Qed.

(** X1: a [Bid] whose bidder fits the u32 length prefix and whose amount
    and timestamp are u64 values reads back from its own serialisation,
    field for field, into any object, and the returned offset is the
    length of the serialisation. *)
Theorem Bid_roundtrip this b :
  wf_string (bidder b) -> wf_u64 (amount b) -> wf_u64 (timestamp b) ->
  fst (Bid_deserialize this (Bid_serialize b) 0) = b /\
  value (snd (Bid_deserialize this (Bid_serialize b) 0))
  = Z.of_nat (length (Bid_serialize b)).
Proof. apply Bid_deserialize_serialize. Qed.

Lemma Bid_roundtrip_witness :
  fst (Bid_deserialize (mkBid "stale" 1 2)
         (Bid_serialize (mkBid Scenario.alice 100 Scenario.t_live)) 0)
  = mkBid Scenario.alice 100 Scenario.t_live.
Proof.
  apply (Bid_roundtrip (mkBid "stale" 1 2)
           (mkBid Scenario.alice 100 Scenario.t_live)).
  - vm_compute. reflexivity.
  - vm_compute. split; [discriminate|reflexivity].
  - vm_compute. split; [discriminate|reflexivity].
Defined.

(** X2: a [SellOffer] whose three strings fit the u32 length prefix and
    whose price, expiration time and creation time are u64 values reads
    back from its own serialisation, field for field, into any object,
    and the returned offset is the length of the serialisation. *)
Theorem SellOffer_roundtrip this o :
  wf_string (collectionAddress o) -> wf_string (tokenId o) ->
  wf_u64 (price o) -> wf_string (creatorAddress o) ->
  wf_u64 (expirationTime o) -> wf_u64 (createdTime o) ->
  fst (SellOffer_deserialize this (SellOffer_serialize o) 0) = o /\
  value (snd (SellOffer_deserialize this (SellOffer_serialize o) 0))
  = Z.of_nat (length (SellOffer_serialize o)).
Proof. apply SellOffer_deserialize_serialize. Qed.

Lemma SellOffer_roundtrip_witness :
  fst (SellOffer_deserialize (mkSellOffer "" "" 0 "" 0 0)
         (SellOffer_serialize
            (mkSellOffer Scenario.collectionX "7" 1000 Scenario.seller
               Scenario.t_late Scenario.t_list)) 0)
  = mkSellOffer Scenario.collectionX "7" 1000 Scenario.seller
      Scenario.t_late Scenario.t_list.
Proof.
  apply (SellOffer_roundtrip (mkSellOffer "" "" 0 "" 0 0)
           (mkSellOffer Scenario.collectionX "7" 1000 Scenario.seller
              Scenario.t_late Scenario.t_list)).
  - vm_compute. reflexivity.
  - vm_compute. reflexivity.
  - vm_compute. split; [discriminate|reflexivity].
  - vm_compute. reflexivity.
  - vm_compute. split; [discriminate|reflexivity].
  - vm_compute. split; [discriminate|reflexivity].
Defined.

Lemma nextString_short data off :
  (length data < off + 4)%nat -> nextString (Args_new data off) = None.
Proof.
  intros. unfold nextString, nextU32, nextFixed, Args_new.
  cbn [serialized offset]. by rewrite (proj2 (Nat.leb_gt _ _)) by lia.
Qed.

(** X3: the deserialisers of the stored records answer [new Result(0)]
    when a field cannot be read, and that result carries no error: on
    every input they pass [isOk], and an input too short for the first
    field leaves the object as it was. *)
Theorem deserialize_never_reports_failure :
  (forall this data off, isOk (snd (Bid_deserialize this data off)) = true) /\
  (forall this data off,
      isOk (snd (SellOffer_deserialize this data off)) = true) /\
  (forall this data off,
      (length data < off + 4)%nat ->
      Bid_deserialize this data off = (this, Result_new 0)) /\
  (forall this data off,
      (length data < off + 4)%nat ->
      SellOffer_deserialize this data off = (this, Result_new 0)).
Proof.
  split_and!.
  - apply Bid_deserialize_isOk.
  - apply SellOffer_deserialize_isOk.
  - intros this data off Hlen. unfold Bid_deserialize.
    by rewrite nextString_short.
  - intros this data off Hlen. unfold SellOffer_deserialize.
    by rewrite nextString_short.
Qed.

Lemma bytesToU64_range bs : 0 <= bytesToU64 bs < 2 ^ 64.
Proof.
  unfold bytesToU64. pose proof (le_value_range (take 8 bs)) as H.
  assert (Hl : (length (take 8 bs) <= 8)%nat) by (rewrite length_take; lia).
  assert (256 ^ Z.of_nat (length (take 8 bs)) <= 256 ^ 8)
    by (apply Z.pow_le_mono_r; lia).
  change (256 ^ 8) with (2 ^ 64) in *. lia.
Qed.

Lemma bytesToU64_u64ToBytes z : bytesToU64 (u64ToBytes z) = wrap64 z.
Proof.
  unfold bytesToU64, u64ToBytes.
  rewrite take_ge by (rewrite length_le_bytes; lia).
  by rewrite le_value_le_bytes.
Qed.

Lemma nextU64_range a v a' : nextU64 a = Some (v, a') -> 0 <= v < 2 ^ 64.
Proof. apply (nextFixed_range 8). Qed.

Lemma decode_bid_amount_range data : 0 <= amount (decode_bid data) < 2 ^ 64.
Proof.
  unfold decode_bid, Bid_deserialize.
  repeat case_match; cbn [fst amount]; try (cbn; lia);
    eapply nextU64_range; eassumption.
Qed.

Lemma decode_offer_price_range data :
  0 <= price (decode_offer data) < 2 ^ 64.
Proof.
  unfold decode_offer, SellOffer_deserialize.
  cbv beta iota zeta delta [collectionAddress tokenId price creatorAddress
                            expirationTime createdTime].
  destruct (nextString _) as [[? ?]|]; [|cbn; lia].
  destruct (nextString _) as [[? ?]|]; [|cbn; lia].
  destruct (nextU64 _) as [[v ?]|] eqn:Hv; [|cbn; lia].
  apply nextU64_range in Hv.
  repeat (first [destruct (nextString _) as [[? ?]|]
                |destruct (nextU64 _) as [[? ?]|]]; [|exact Hv]).
  exact Hv.
Qed.

(** The fee arithmetic on u64 values, for a rate of at most 100. *)
Lemma fee_split P F :
  0 <= P < 2 ^ 64 -> 0 <= F <= 100 ->
  let fee := wrap64 (P / 100 * F) in
  fee = P / 100 * F /\ 0 <= fee <= P /\ wrap64 (P - fee) = P - fee.
Proof.
  intros HP HF fee.
  assert (Hq : 0 <= P / 100 * 100 <= P).
  { pose proof (Z.mul_div_le P 100 ltac:(lia)).
    assert (0 <= P / 100) by (apply Z.div_pos; lia). lia. }
  assert (Hf : 0 <= P / 100 * F <= P).
  { assert (0 <= P / 100) by (apply Z.div_pos; lia). nia. }
  assert (fee = P / 100 * F) by (subst fee; apply wrap64_small; lia).
  split_and!; [done|lia|lia|]. apply wrap64_small. lia.
Qed.

Lemma args3_inv binaryArgs c t b :
  args3 binaryArgs = Some (c, t, b) ->
  exists a1 a2 a3,
    nextString (Args_new binaryArgs 0) = Some (c, a1) /\
    nextU256 a1 = Some (t, a2) /\
    nextString a2 = Some (b, a3).
Proof.
  unfold args3. intros H. repeat case_match; simplify_eq. eauto 10.
Qed.

Lemma owner_of_call ctx c t r :
  ctx_call ctx c "ownerOf" (serialize (add_u256 t Args_empty)) 0 = Some r ->
  owner_of ctx c t = Some (bytesToString r).
Proof. unfold owner_of. rewrite serialize_u256. by intros ->. Qed.

(** What a successful [buyOffer] of v2.2 has read and done. *)
Lemma buyOffer_Done_v22 ctx h binaryArgs c t h' :
  args2 binaryArgs = Some (c, t) ->
  V22.buyOffer binaryArgs ctx h = Done tt h' ->
  exists data feeBytes ownerBytes owner,
    storage h !! V22._keyGenerator c t = Some data /\
    storage h !! V22.MARKETPLACE_FEE_KEY = Some feeBytes /\
    storage h !! V22.MARKETPLACE_OWNER_KEY = Some ownerBytes /\
    owner_of ctx c t = Some owner /\
    wrap64 (ctx_timestamp ctx) <= expirationTime (decode_offer data) /\
    price (decode_offer data) <= wrap64 (ctx_transferredCoins ctx) /\
    ctx_isAddressEoa ctx (ctx_caller ctx) = true /\
    let P := price (decode_offer data) in
    let feeAmount := wrap64 (P / 100 * bytesToU64 feeBytes) in
    let ks := keys_with_prefix (bid_prefix c t) (storage h) in
    storage h' = delete (V22._keyGenerator c t) (delete_all ks (storage h)) /\
    trace h'
    = trace h ++
      [Call c "ownerOf" (u256ToBytes t) 0;
       Call c "transferFrom"
         (serialize (add_u256 t (add_string (ctx_caller ctx)
                                   (add_string owner Args_empty))))
         10000000;
       TransferCoins (bytesToString ownerBytes) feeAmount;
       TransferCoins owner (wrap64 (P - feeAmount));
       GenerateEvent (ctx_caller ctx +:+ " bought this " +:+ pretty t
                      +:+ " NFT at this " +:+ pretty P +:+ " price")]
      ++ reset_ops (storage h) ks ""
      ++ [StorageDel (V22._keyGenerator c t)].
Proof.
  intros (a & a' & Ha & Ha')%args2_inv E.
  unfold V22.buyOffer in E. run_all. simplify_eq. bool_hyps.
  match goal with H : ctx_call _ _ "ownerOf" _ _ = Some _ |- _ =>
    apply owner_of_call in H end.
  match goal with H : SellOffer_deserialize _ ?d _ = (?o, _) |- _ =>
    assert (Ho : decode_offer d = o) by (unfold decode_offer; by rewrite H);
    clear H; subst o
  end.
  do 4 eexists. split_and!; try eassumption.
  - by apply Z.leb_le.
  - by apply Z.leb_le.
  - done.
  - rewrite <- !(@app_assoc HostOp). reflexivity.
Qed.

(** What a successful [acceptBid] has read and done. *)
Lemma acceptBid_Done ctx h binaryArgs c t b h' :
  args3 binaryArgs = Some (c, t, b) ->
  V22.acceptBid binaryArgs ctx h = Done tt h' ->
  exists data feeBytes,
    storage h !! V22._bidKeyGenerator c t b = Some data /\
    storage h !! V22.MARKETPLACE_FEE_KEY = Some feeBytes /\
    owner_of ctx c t = Some (ctx_caller ctx) /\
    let A := amount (decode_bid data) in
    let feeAmount := wrap64 (A / 100 * bytesToU64 feeBytes) in
    let st1 := delete (V22._bidKeyGenerator c t b) (storage h) in
    let ks := keys_with_prefix (bid_prefix c t) st1 in
    storage h' = delete (V22._keyGenerator c t) (delete_all ks st1) /\
    trace h'
    = trace h ++
      [Call c "ownerOf" (u256ToBytes t) 0;
       Call c "transferFrom"
         (serialize (add_u256 t (add_string b
                                   (add_string (ctx_caller ctx) Args_empty))))
         10000000;
       TransferCoins (ctx_caller ctx) (wrap64 (A - feeAmount));
       GenerateEvent (ctx_caller ctx +:+ " accepted a bid from " +:+ b
                      +:+ " on " +:+ c +:+ " token " +:+ pretty t
                      +:+ " for amount " +:+ pretty A);
       StorageDel (V22._bidKeyGenerator c t b)]
      ++ reset_ops st1 ks b
      ++ [StorageDel (V22._keyGenerator c t)].
Proof.
  intros (a1 & a2 & a3 & H1 & H2 & H3)%args3_inv E.
  unfold V22.acceptBid in E. run_all. simplify_eq. bool_hyps.
  match goal with H : ctx_call _ _ "ownerOf" _ _ = Some _ |- _ =>
    apply owner_of_call in H end.
  match goal with H : Bid_deserialize _ ?d _ = (?o, _) |- _ =>
    assert (Ho : decode_bid d = o) by (unfold decode_bid; by rewrite H);
    clear H; subst o
  end.
  match goal with H : bytesToString _ = ctx_caller ctx |- _ =>
    rewrite H in * end.
  do 2 eexists. split_and!; try eassumption.
  - done.
  - rewrite <- !(@app_assoc HostOp). reflexivity.
Qed.


(** ** Bids *)

Ltac fwd_bids :=
  cbv beta iota zeta delta
    [Sdk.bind expect ret Sdk.assert abort log
     Context_caller Context_callee Context_timestamp Context_transferredCoins
     isAddressEoa Storage_has Storage_get Storage_set
     transferCoins generateEvent sendMessage call
     V22._hasCollection V22._getNFTOwner V22._marketplaceOwner
     V22.calculateMarketplaceFee V22._onlyOwner V1._onlyOwner
     V1._hasCollection V1._getNFTOwner];
  cbn [storage trace].

(** The refund [placeBid] makes for what is stored under the caller's
    key. *)
Lemma placeBid_run ctx h binaryArgs c t :
  args2 binaryArgs = Some (c, t) ->
  is_Some (storage h !! (V22.COLLECTION_PREFIX +:+ c)) ->
  is_Some (storage h !! V22._keyGenerator c t) ->
  let bidKey := V22._bidKeyGenerator c t (ctx_caller ctx) in
  let bid := mkBid (ctx_caller ctx) (wrap64 (ctx_transferredCoins ctx))
               (wrap64 (ctx_timestamp ctx)) in
  let refund :=
    match storage h !! bidKey with
    | Some data =>
        [TransferCoins (bidder (decode_bid data)) (amount (decode_bid data))]
    | None => []
    end in
  V22.placeBid binaryArgs ctx h
  = Done tt
      (mkHost (<[bidKey := Bid_serialize bid]> (storage h))
         (trace h ++ refund ++
          [StorageSet bidKey (Bid_serialize bid);
           GenerateEvent
             (ctx_caller ctx +:+ " placed a bid on " +:+ c +:+ " token "
              +:+ pretty t +:+ " with amount "
              +:+ pretty (wrap64 (ctx_transferredCoins ctx)))])).
Proof.
  intros (a & a' & Ha & Ha')%args2_inv Hc Ho bidKey bid refund.
  unfold V22.placeBid. fwd_bids. rewrite Ha. fwd_bids. rewrite Ha'. fwd_bids.
  rewrite bool_decide_true by done. fwd_bids.
  rewrite bool_decide_true by done. fwd_bids.
  fold bidKey. subst refund.
  destruct (storage h !! bidKey) as [data|] eqn:Hb.
  - rewrite bool_decide_true by eauto. fwd_bids. rewrite Hb. fwd_bids.
    rewrite decode_bid_eq. fwd_bids. rewrite Bid_deserialize_isOk. fwd_bids.
    rewrite <- !(@app_assoc HostOp). reflexivity.
  - rewrite bool_decide_false by (intros [? ?]; done). fwd_bids.
    rewrite <- !(@app_assoc HostOp). reflexivity.
Qed.

Lemma removeBid_run ctx h binaryArgs c t data :
  args2 binaryArgs = Some (c, t) ->
  let bidKey := V22._bidKeyGenerator c t (ctx_caller ctx) in
  storage h !! bidKey = Some data ->
  V22.removeBid binaryArgs ctx h
  = Done tt
      (mkHost (delete bidKey (storage h))
         (trace h ++
          [TransferCoins (ctx_caller ctx) (amount (decode_bid data));
           StorageDel bidKey])).
Proof.
  intros (a & a' & Ha & Ha')%args2_inv bidKey Hb.
  unfold V22.removeBid. fwd_bids. rewrite Ha. fwd_bids. rewrite Ha'. fwd_bids.
  fold bidKey. rewrite Hb. rewrite bool_decide_true by eauto. fwd_bids.
  fold bidKey. rewrite Hb. fwd_bids.
  rewrite decode_bid_eq. fwd_bids. rewrite Bid_deserialize_isOk. fwd_bids.
  rewrite Storage_del_run by (cbn; eauto). cbn [storage trace].
  rewrite <- !(@app_assoc HostOp). reflexivity.
Qed.

Lemma removeBid_absent ctx h binaryArgs c t :
  args2 binaryArgs = Some (c, t) ->
  storage h !! V22._bidKeyGenerator c t (ctx_caller ctx) = None ->
  V22.removeBid binaryArgs ctx h = Abort "Bid not found".
Proof.
  intros (a & a' & Ha & Ha')%args2_inv Hb.
  unfold V22.removeBid. fwd_bids. rewrite Ha. fwd_bids. rewrite Ha'. fwd_bids.
  rewrite Hb. rewrite bool_decide_false by (intros [? ?]; done). reflexivity.
Qed.

Lemma placeBid_unlisted ctx h binaryArgs c t :
  args2 binaryArgs = Some (c, t) ->
  (storage h !! (V22.COLLECTION_PREFIX +:+ c) = None ->
   V22.placeBid binaryArgs ctx h
   = Abort "Collection not found in marketplace") /\
  (is_Some (storage h !! (V22.COLLECTION_PREFIX +:+ c)) ->
   storage h !! V22._keyGenerator c t = None ->
   V22.placeBid binaryArgs ctx h = Abort "Sell offer doesn't exist").
Proof.
  intros (a & a' & Ha & Ha')%args2_inv. split.
  - intros Hc. unfold V22.placeBid. fwd_bids. rewrite Ha. fwd_bids.
    rewrite Ha'. fwd_bids. rewrite Hc.
    rewrite bool_decide_false by (intros [? ?]; done). reflexivity.
  - intros Hc Ho. unfold V22.placeBid. fwd_bids. rewrite Ha. fwd_bids.
    rewrite Ha'. fwd_bids. rewrite bool_decide_true by done. fwd_bids.
    rewrite Ho. rewrite bool_decide_false by (intros [? ?]; done).
    reflexivity.
Qed.

(** X4: on a registered collection with a stored offer [placeBid] always
    succeeds; afterwards the slot of (collection, tokenId, caller) holds a
    record that reads back as (caller, attached coins, current timestamp),
    every other key is as before, and when the caller had no bid no coins
    move. *)
Theorem placeBid_records_bid ctx h binaryArgs c t :
  args2 binaryArgs = Some (c, t) ->
  is_Some (storage h !! (V22.COLLECTION_PREFIX +:+ c)) ->
  is_Some (storage h !! V22._keyGenerator c t) ->
  wf_string (ctx_caller ctx) ->
  let bidKey := V22._bidKeyGenerator c t (ctx_caller ctx) in
  exists h' data,
    V22.placeBid binaryArgs ctx h = Done tt h' /\
    storage h' !! bidKey = Some data /\
    decode_bid data
    = mkBid (ctx_caller ctx) (wrap64 (ctx_transferredCoins ctx))
        (wrap64 (ctx_timestamp ctx)) /\
    (forall k, k <> bidKey -> storage h' !! k = storage h !! k) /\
    (storage h !! bidKey = None ->
     transfers (trace h') = transfers (trace h)).
Proof.
  intros Ha Hc Ho Hw bidKey.
  eexists _, _. split; [by apply placeBid_run|]. cbn [storage trace].
  fold bidKey. split_and!.
  - apply lookup_insert_eq.
  - apply decode_bid_serialize; cbn [bidder amount timestamp];
      [exact Hw|apply wrap64_range..].
  - intros k Hk. by rewrite lookup_insert_ne.
  - intros ->. rewrite transfers_app. cbn. by rewrite app_nil_r.
Qed.

Lemma placeBid_records_bid_witness :
  exists h' data,
    V22.placeBid (Scenario.encode2 Scenario.collectionX 7)
      (Scenario.ctx Scenario.alice Scenario.t_live 100 Scenario.seller false)
      (mkHost Scenario.st_listed []) = Done tt h' /\
    storage h' !! V22._bidKeyGenerator Scenario.collectionX 7 Scenario.alice
    = Some data /\
    decode_bid data = mkBid Scenario.alice 100 Scenario.t_live.
Proof.
  destruct (placeBid_records_bid
              (Scenario.ctx Scenario.alice Scenario.t_live 100
                 Scenario.seller false)
              (mkHost Scenario.st_listed [])
              (Scenario.encode2 Scenario.collectionX 7)
              Scenario.collectionX 7)
    as (h' & data & Hrun & Hk & Hd & _).
  - vm_compute. reflexivity.
  - vm_compute. eexists. reflexivity.
  - vm_compute. eexists. reflexivity.
  - vm_compute. reflexivity.
  - exists h', data. split; [exact Hrun|]. split; [exact Hk|exact Hd].
Defined.

(** X5: when the same caller bids twice on a listed token, the second
    [placeBid] first transfers the whole amount of the first bid back to
    that caller, then stores the new bid and reports it, and does nothing
    else. *)
Theorem placeBid_twice_refunds_first ctx1 ctx2 h binaryArgs c t :
  args2 binaryArgs = Some (c, t) ->
  is_Some (storage h !! (V22.COLLECTION_PREFIX +:+ c)) ->
  is_Some (storage h !! V22._keyGenerator c t) ->
  ctx_caller ctx2 = ctx_caller ctx1 ->
  wf_string (ctx_caller ctx1) ->
  let bidKey := V22._bidKeyGenerator c t (ctx_caller ctx1) in
  let bid2 := mkBid (ctx_caller ctx1) (wrap64 (ctx_transferredCoins ctx2))
                (wrap64 (ctx_timestamp ctx2)) in
  exists h1 h2,
    V22.placeBid binaryArgs ctx1 h = Done tt h1 /\
    V22.placeBid binaryArgs ctx2 h1 = Done tt h2 /\
    trace h2
    = trace h1 ++
      [TransferCoins (ctx_caller ctx1) (wrap64 (ctx_transferredCoins ctx1));
       StorageSet bidKey (Bid_serialize bid2);
       GenerateEvent
         (ctx_caller ctx1 +:+ " placed a bid on " +:+ c +:+ " token "
          +:+ pretty t +:+ " with amount "
          +:+ pretty (wrap64 (ctx_transferredCoins ctx2)))] /\
    storage h2 = <[bidKey := Bid_serialize bid2]> (storage h).
Proof.
  intros Ha Hc Ho Hcaller Hw bidKey bid2.
  eexists _, _. split; [by apply placeBid_run|].
  split.
  - apply placeBid_run; [done|cbn [storage]..].
    + rewrite lookup_insert_ne by discriminate. done.
    + rewrite lookup_insert_ne; [done|].
      intros E. symmetry in E. by apply offerKey_not_bidKey in E.
  - cbn [storage trace]. rewrite Hcaller. fold bidKey.
    rewrite lookup_insert_eq.
    rewrite decode_bid_serialize; cbn [bidder amount timestamp];
      [|exact Hw|apply wrap64_range..].
    split; [reflexivity|]. by rewrite insert_insert_eq.
Qed.

Lemma placeBid_twice_refunds_first_witness :
  exists h1 h2,
    V22.placeBid (Scenario.encode2 Scenario.collectionX 7)
      (Scenario.ctx Scenario.alice Scenario.t_live 100 Scenario.seller false)
      (mkHost Scenario.st_listed []) = Done tt h1 /\
    V22.placeBid (Scenario.encode2 Scenario.collectionX 7)
      (Scenario.ctx Scenario.alice Scenario.t_live 150 Scenario.seller false)
      h1 = Done tt h2 /\
    transfers (trace h2) = [(Scenario.alice, 100)].
Proof.
  destruct (placeBid_twice_refunds_first
              (Scenario.ctx Scenario.alice Scenario.t_live 100
                 Scenario.seller false)
              (Scenario.ctx Scenario.alice Scenario.t_live 150
                 Scenario.seller false)
              (mkHost Scenario.st_listed [])
              (Scenario.encode2 Scenario.collectionX 7)
              Scenario.collectionX 7)
    as (h1 & h2 & H1 & H2 & Htr & _).
  - vm_compute. reflexivity.
  - vm_compute. eexists. reflexivity.
  - vm_compute. eexists. reflexivity.
  - reflexivity.
  - vm_compute. reflexivity.
  - exists h1, h2. split; [exact H1|]. split; [exact H2|].
    rewrite Htr, transfers_app.
    assert (Ht1 : transfers (trace h1) = []).
    { vm_compute in H1. injection H1 as <-. reflexivity. }
    rewrite Ht1. reflexivity.
Defined.

(** X6: for a collection address of plain ASCII characters, [placeBid]
    is refused, with no state change, when that collection is not
    registered and when the token has no stored offer. *)
Theorem placeBid_needs_listing ctx h binaryArgs c t :
  args2 binaryArgs = Some (c, t) ->
  plain_ascii c = true ->
  (storage h !! (V22.COLLECTION_PREFIX +:+ c) = None ->
   V22.placeBid binaryArgs ctx h
   = Abort "Collection not found in marketplace") /\
  (is_Some (storage h !! (V22.COLLECTION_PREFIX +:+ c)) ->
   storage h !! V22._keyGenerator c t = None ->
   V22.placeBid binaryArgs ctx h = Abort "Sell offer doesn't exist") /\
  (storage h !! (V22.COLLECTION_PREFIX +:+ c) = None \/
   storage h !! V22._keyGenerator c t = None ->
   invoke (V22.placeBid binaryArgs) ctx (storage h) = storage h).
Proof.
  intros Ha _.
  destruct (placeBid_unlisted ctx h binaryArgs c t Ha) as [H1 H2].
  split; [exact H1|]. split; [exact H2|].
  intros Hor.
  destruct (placeBid_unlisted ctx (mkHost (storage h) []) binaryArgs c t Ha)
    as [H1' H2']. cbn [storage] in *.
  destruct (storage h !! (V22.COLLECTION_PREFIX +:+ c)) eqn:Hc.
  - destruct Hor as [?|Ho]; [done|].
    eapply invoke_Abort. apply H2'; eauto.
  - eapply invoke_Abort. by apply H1'.
Qed.

Lemma placeBid_needs_listing_witness :
  V22.placeBid (Scenario.encode2 Scenario.collectionX 9)
    (Scenario.ctx Scenario.alice Scenario.t_live 100 Scenario.seller false)
    (mkHost Scenario.st_listed []) = Abort "Sell offer doesn't exist".
Proof.
  destruct (placeBid_needs_listing
              (Scenario.ctx Scenario.alice Scenario.t_live 100
                 Scenario.seller false)
              (mkHost Scenario.st_listed [])
              (Scenario.encode2 Scenario.collectionX 9)
              Scenario.collectionX 9)
    as (_ & H2 & _).
  - vm_compute. reflexivity.
  - vm_compute. reflexivity.
  - apply H2.
    + vm_compute. eexists. reflexivity.
    + vm_compute. reflexivity.
Defined.

(** X7: for a collection address of plain ASCII characters, [removeBid]
    looks only at the caller's own slot for (collection, tokenId): with
    a bid stored there it sends the recorded amount to the caller and
    deletes that one key, whether or not the offer or the collection
    still exists; with none it aborts with "Bid not found". *)
Theorem removeBid_refunds_and_deletes ctx h binaryArgs c t :
  args2 binaryArgs = Some (c, t) ->
  plain_ascii c = true ->
  let bidKey := V22._bidKeyGenerator c t (ctx_caller ctx) in
  (forall data,
      storage h !! bidKey = Some data ->
      exists h',
        V22.removeBid binaryArgs ctx h = Done tt h' /\
        storage h' = delete bidKey (storage h) /\
        trace h' = trace h ++
          [TransferCoins (ctx_caller ctx) (amount (decode_bid data));
           StorageDel bidKey]) /\
  (storage h !! bidKey = None ->
   V22.removeBid binaryArgs ctx h = Abort "Bid not found").
Proof.
  intros Ha _ bidKey. split.
  - intros data Hd. eexists. split; [by eapply removeBid_run|]. done.
  - intros Hn. by eapply removeBid_absent.
Qed.

Lemma removeBid_refunds_and_deletes_witness :
  exists h',
    V22.removeBid (Scenario.encode2 Scenario.collectionX 7)
      (Scenario.ctx Scenario.bob Scenario.t_late 0 Scenario.seller false)
      (mkHost Scenario.st_two_bids []) = Done tt h' /\
    transfers (trace h') = [(Scenario.bob, 250)].
Proof.
  destruct (Scenario.st_two_bids
              !! V22._bidKeyGenerator Scenario.collectionX 7 Scenario.bob)
    as [data|] eqn:Hd; [|vm_compute in Hd; discriminate].
  destruct (removeBid_refunds_and_deletes
              (Scenario.ctx Scenario.bob Scenario.t_late 0
                 Scenario.seller false)
              (mkHost Scenario.st_two_bids [])
              (Scenario.encode2 Scenario.collectionX 7)
              Scenario.collectionX 7) as [Hrun _].
  - vm_compute. reflexivity.
  - vm_compute. reflexivity.
  - destruct (Hrun data Hd) as (h' & E & _ & Htr).
    exists h'. split; [exact E|]. rewrite Htr.
    vm_compute in Hd. injection Hd as <-. vm_compute. reflexivity.
Defined.

(** X8: a first bid followed by the same caller's [removeBid] restores
    the datastore to what it was before the bid, and the only coins that
    move are the bid's own amount, back to the caller. *)
Theorem placeBid_removeBid_roundtrip ctx1 ctx2 h binaryArgs c t :
  args2 binaryArgs = Some (c, t) ->
  is_Some (storage h !! (V22.COLLECTION_PREFIX +:+ c)) ->
  is_Some (storage h !! V22._keyGenerator c t) ->
  storage h !! V22._bidKeyGenerator c t (ctx_caller ctx1) = None ->
  ctx_caller ctx2 = ctx_caller ctx1 ->
  wf_string (ctx_caller ctx1) ->
  exists h1 h2,
    V22.placeBid binaryArgs ctx1 h = Done tt h1 /\
    V22.removeBid binaryArgs ctx2 h1 = Done tt h2 /\
    storage h2 = storage h /\
    transfers (trace h2)
    = transfers (trace h)
      ++ [(ctx_caller ctx1, wrap64 (ctx_transferredCoins ctx1))].
Proof.
  intros Ha Hc Ho Hb Hcaller Hw.
  eexists _, _. split; [by apply placeBid_run|]. split.
  - eapply removeBid_run; [done|]. cbn [storage]. rewrite Hcaller.
    apply lookup_insert_eq.
  - cbn [storage trace]. rewrite Hcaller, Hb. split.
    + rewrite delete_insert_eq. by apply delete_id.
    + rewrite decode_bid_serialize; cbn [bidder amount timestamp];
        [|exact Hw|apply wrap64_range..].
      rewrite !transfers_app. cbn. by rewrite app_nil_r.
Qed.

Lemma placeBid_removeBid_roundtrip_witness :
  exists h1 h2,
    V22.placeBid (Scenario.encode2 Scenario.collectionX 7)
      (Scenario.ctx Scenario.alice Scenario.t_live 100 Scenario.seller false)
      (mkHost Scenario.st_listed []) = Done tt h1 /\
    V22.removeBid (Scenario.encode2 Scenario.collectionX 7)
      (Scenario.ctx Scenario.alice Scenario.t_late 0 Scenario.seller false)
      h1 = Done tt h2 /\
    storage h2 = Scenario.st_listed.
Proof.
  destruct (placeBid_removeBid_roundtrip
              (Scenario.ctx Scenario.alice Scenario.t_live 100
                 Scenario.seller false)
              (Scenario.ctx Scenario.alice Scenario.t_late 0
                 Scenario.seller false)
              (mkHost Scenario.st_listed [])
              (Scenario.encode2 Scenario.collectionX 7)
              Scenario.collectionX 7)
    as (h1 & h2 & H1 & H2 & Hst & _).
  - vm_compute. reflexivity.
  - vm_compute. eexists. reflexivity.
  - vm_compute. eexists. reflexivity.
  - vm_compute. reflexivity.
  - reflexivity.
  - vm_compute. reflexivity.
  - exists h1, h2. split; [exact H1|]. split; [exact H2|exact Hst].
Defined.

(** ** Clearing the bids of a token *)

Lemma prefix_app_r (s s' r : string) :
  String.prefix s s' = true -> String.prefix s (s' +:+ r) = true.
Proof.
  revert s'. induction s as [|x s IH]; intros s' H; [by destruct (s' +:+ r)|].
  destruct s' as [|y s']; [discriminate|].
  change (String.prefix (String x s) (String y (s' +:+ r)) = true).
  cbn [String.prefix] in *. destruct (ascii_dec x y); [by apply IH|done].
Qed.

Lemma bidKey_prefix_overlap c t t' b :
  String.prefix (pretty t) (pretty t') = true ->
  String.prefix (bid_prefix c t) (V22._bidKeyGenerator c t' b) = true.
Proof.
  intros H. unfold bid_prefix, V22._bidKeyGenerator.
  rewrite !prefix_append_same. by apply prefix_app_r.
Qed.

Lemma elem_of_transfers_reset_ops (m : gmap string bytes) ks buyer to amt :
  (to, amt) ∈ transfers (reset_ops m ks buyer) <->
  exists k data,
    k ∈ ks /\ m !! k = Some data /\
    bidder (decode_bid data) = to /\ amount (decode_bid data) = amt /\
    (buyer = "" \/ to <> buyer).
Proof.
  induction ks as [|k ks IH]; cbn [reset_ops].
  - cbn. split; [by intros ?%elem_of_nil|]. intros (k & ? & ?%elem_of_nil & _).
    done.
  - rewrite transfers_app. cbn [transfers omap]. fold (transfers (reset_ops m ks buyer)).
    rewrite elem_of_app, IH. split.
    + intros [H|(k' & data & Hk' & ?)].
      * destruct (m !! k) as [data|] eqn:Hk; [|by apply elem_of_nil in H].
        unfold refund_ops in H.
        destruct (bool_decide (buyer = "")) eqn:Eb;
          [|destruct (bool_decide (bidder (decode_bid data) = buyer)) eqn:Ec];
          cbn -[decode_bid] in H; try (by apply elem_of_nil in H);
          apply list_elem_of_singleton in H; injection H as -> ->;
          exists k, data; split_and!; try done; try set_solver.
        -- left. by apply bool_decide_eq_true in Eb.
        -- right. by apply bool_decide_eq_false in Ec.
      * exists k', data. split; [set_solver|done].
    + intros (k' & data & [->|Hk']%elem_of_cons & Hm & <- & <- & Hor).
      * left. rewrite Hm. unfold refund_ops.
        destruct Hor as [->| Hne].
        -- rewrite bool_decide_true by done. apply list_elem_of_singleton.
           done.
        -- rewrite (bool_decide_false (bidder _ = buyer)) by congruence.
           rewrite orb_true_r. by apply list_elem_of_singleton.
      * right. exists k', data. done.
Qed.

Lemma transfers_reset_ops (m : gmap string bytes) p buyer :
  transfers (reset_ops m (keys_with_prefix p m) buyer) = bid_refunds m p buyer.
Proof.
  unfold bid_refunds. induction (keys_with_prefix p m) as [|k ks IH];
    [reflexivity|].
  cbn [reset_ops flat_map]. rewrite transfers_app. f_equal.
  - destruct (m !! k) as [data|]; [|reflexivity].
    unfold refund_ops. by destruct (_ || _).
  - exact IH.
Qed.

(** X9: [resetBids] never aborts.  Afterwards no key that starts with
    "bid_<collection>_<tokenId>" is stored and every other key is as
    before.  The keys it visits are those stored under that prefix, each
    once, and the coins it sends are, up to their order, one transfer per
    visited key of the recorded amount to the recorded bidder, leaving
    out the keys whose bidder is the buyer (none when the buyer is the
    empty string). *)
Theorem resetBids_effect c t buyer ctx h :
  let ks := keys_with_prefix (bid_prefix c t) (storage h) in
  exists h' refunds,
    V22.resetBids c t buyer ctx h = Done tt h' /\
    (forall k,
        storage h' !! k
        = if String.prefix (bid_prefix c t) k then None
          else storage h !! k) /\
    NoDup ks /\
    (forall k,
        k ∈ ks <->
        String.prefix (bid_prefix c t) k = true /\ is_Some (storage h !! k)) /\
    transfers (trace h') = transfers (trace h) ++ refunds /\
    refunds
    ≡ₚ flat_map
         (fun k =>
            match storage h !! k with
            | Some data =>
                if bool_decide (buyer = "")
                   || negb (bool_decide (bidder (decode_bid data) = buyer))
                then [(bidder (decode_bid data), amount (decode_bid data))]
                else []
            | None => []
            end) ks.
Proof.
  intros ks. rewrite resetBids_run. cbv zeta.
  exists (mkHost (delete_all (keys_with_prefix (bid_prefix c t) (storage h))
                    (storage h))
            (trace h ++ reset_ops (storage h)
                          (keys_with_prefix (bid_prefix c t) (storage h))
                          buyer)),
         (bid_refunds (storage h) (bid_prefix c t) buyer).
  split; [reflexivity|]. cbn [storage trace]. split_and!.
  - intros k. rewrite lookup_delete_all.
    destruct (String.prefix (bid_prefix c t) k) eqn:Hp.
    + destruct (storage h !! k) eqn:Hk.
      * rewrite bool_decide_true; [done|].
        apply elem_of_keys_with_prefix. eauto.
      * by destruct (bool_decide _).
    + rewrite bool_decide_false; [done|].
      intros [? _]%elem_of_keys_with_prefix. congruence.
  - apply NoDup_keys_with_prefix.
  - intros k. apply elem_of_keys_with_prefix.
  - rewrite transfers_app, transfers_reset_ops. reflexivity.
  - reflexivity.
Qed.

(** X10: the prefix [resetBids] enumerates ends with the token id and no
    separator, so it also matches the bid keys of every token whose
    decimal id starts with the digits of this one (1 and 10, 12, 137):
    such a bid is deleted too, and refunded unless its bidder is the
    buyer. *)
Theorem resetBids_reaches_longer_token_ids c t t' b buyer ctx h data :
  String.prefix (pretty t) (pretty t') = true ->
  storage h !! V22._bidKeyGenerator c t' b = Some data ->
  exists h',
    V22.resetBids c t buyer ctx h = Done tt h' /\
    storage h' !! V22._bidKeyGenerator c t' b = None /\
    (buyer = "" \/ bidder (decode_bid data) <> buyer ->
     (bidder (decode_bid data), amount (decode_bid data))
       ∈ transfers (trace h')).
Proof.
  intros Hp Hd. rewrite resetBids_run. cbv zeta.
  pose proof (bidKey_prefix_overlap c t t' b Hp) as Hk.
  assert (Hin : V22._bidKeyGenerator c t' b
                ∈ keys_with_prefix (bid_prefix c t) (storage h)).
  { apply elem_of_keys_with_prefix. eauto. }
  eexists. split; [reflexivity|]. cbn [storage trace]. split.
  - rewrite lookup_delete_all. by rewrite bool_decide_true.
  - intros Hor. rewrite transfers_app, elem_of_app. right.
    apply elem_of_transfers_reset_ops.
    exists (V22._bidKeyGenerator c t' b), data. done.
Qed.

Lemma resetBids_reaches_longer_token_ids_witness :
  exists h',
    V22.resetBids Scenario.collectionX 1 Scenario.alice
      (Scenario.ctx Scenario.seller Scenario.t_live 0 Scenario.seller false)
      (mkHost (<[V22._bidKeyGenerator Scenario.collectionX 10 Scenario.bob
                 := Bid_serialize (mkBid Scenario.bob 250 Scenario.t_live)]>
                 Scenario.st_listed) [])
    = Done tt h' /\
    storage h' !! V22._bidKeyGenerator Scenario.collectionX 10 Scenario.bob
    = None /\
    (Scenario.bob, 250) ∈ transfers (trace h').
Proof.
  destruct (resetBids_reaches_longer_token_ids
              Scenario.collectionX 1 10 Scenario.bob Scenario.alice
              (Scenario.ctx Scenario.seller Scenario.t_live 0
                 Scenario.seller false)
              (mkHost (<[V22._bidKeyGenerator Scenario.collectionX 10
                           Scenario.bob
                         := Bid_serialize
                              (mkBid Scenario.bob 250 Scenario.t_live)]>
                         Scenario.st_listed) [])
              (Bid_serialize (mkBid Scenario.bob 250 Scenario.t_live)))
    as (h' & E & Hst & Href).
  - vm_compute. reflexivity.
  - apply lookup_insert_eq.
  - exists h'. split; [exact E|]. split; [exact Hst|].
    apply Href. right. vm_compute. discriminate.
Defined.

(** ** Accepting a bid *)

Lemma owner_of_inv ctx c t o :
  owner_of ctx c t = Some o ->
  exists r, ctx_call ctx c "ownerOf" (u256ToBytes t) 0 = Some r
            /\ bytesToString r = o.
Proof.
  unfold owner_of. destruct (ctx_call _ _ _ _ _) as [r|]; [|done].
  intros [= <-]. eauto.
Qed.

Lemma acceptBid_run ctx h binaryArgs c t b data feeBytes r :
  args3 binaryArgs = Some (c, t, b) ->
  storage h !! V22._bidKeyGenerator c t b = Some data ->
  owner_of ctx c t = Some (ctx_caller ctx) ->
  ctx_call ctx c "transferFrom"
    (serialize (add_u256 t (add_string b
                              (add_string (ctx_caller ctx) Args_empty))))
    10000000 = Some r ->
  storage h !! V22.MARKETPLACE_FEE_KEY = Some feeBytes ->
  ctx_del_absent_ok ctx = true \/ is_Some (storage h !! V22._keyGenerator c t) ->
  let A := amount (decode_bid data) in
  let feeAmount := wrap64 (A / 100 * bytesToU64 feeBytes) in
  let st1 := delete (V22._bidKeyGenerator c t b) (storage h) in
  let ks := keys_with_prefix (bid_prefix c t) st1 in
  V22.acceptBid binaryArgs ctx h
  = Done tt
      (mkHost (delete (V22._keyGenerator c t) (delete_all ks st1))
         (trace h ++
          [Call c "ownerOf" (u256ToBytes t) 0;
           Call c "transferFrom"
             (serialize (add_u256 t (add_string b
                                       (add_string (ctx_caller ctx)
                                          Args_empty))))
             10000000;
           TransferCoins (ctx_caller ctx) (wrap64 (A - feeAmount));
           GenerateEvent (ctx_caller ctx +:+ " accepted a bid from " +:+ b
                          +:+ " on " +:+ c +:+ " token " +:+ pretty t
                          +:+ " for amount " +:+ pretty A);
           StorageDel (V22._bidKeyGenerator c t b)]
          ++ reset_ops st1 ks b
          ++ [StorageDel (V22._keyGenerator c t)])).
Proof.
  intros (a1 & a2 & a3 & H1 & H2 & H3)%args3_inv Hb
         (ro & Hro & Hown)%owner_of_inv Htr Hfee Hdel A feeAmount st1 ks.
  unfold V22.acceptBid. fwd_bids. rewrite H1. fwd_bids. rewrite H2. fwd_bids.
  rewrite H3. fwd_bids. rewrite Hb. rewrite bool_decide_true by eauto.
  fwd_bids. rewrite Hb. fwd_bids. rewrite decode_bid_eq. fwd_bids.
  rewrite Bid_deserialize_isOk. fwd_bids.
  rewrite serialize_u256, Hro. fwd_bids. rewrite Hown.
  rewrite bool_decide_true by done. fwd_bids.
  rewrite Htr. fwd_bids. rewrite Hfee. fwd_bids.
  rewrite Storage_del_run by (cbn [storage]; eauto). cbn [storage trace].
  rewrite resetBids_run. cbv zeta. cbn [storage trace].
  fold st1. fold ks.
  rewrite Storage_del_run; cycle 1.
  { cbn [storage]. destruct Hdel as [?|Ho]; [by right|left].
    rewrite lookup_delete_all. rewrite bool_decide_false.
    - subst st1. rewrite lookup_delete_ne; [done|].
      intros E. symmetry in E. by apply offerKey_not_bidKey in E.
    - intros [Hp _]%elem_of_keys_with_prefix.
      unfold bid_prefix in Hp. by rewrite offerKey_no_bid_prefix in Hp. }
  cbn [storage trace]. rewrite <- !(@app_assoc HostOp). reflexivity.
Qed.

Lemma no_refund_to_buyer (m : gmap string bytes) ks buyer amt :
  buyer <> "" -> (buyer, amt) ∉ transfers (reset_ops m ks buyer).
Proof.
  intros Hb (k & data & _ & _ & _ & _ & [?|?])%elem_of_transfers_reset_ops;
    done.
Qed.

(** X11: when the bid of [b] is stored, the caller is the token's owner,
    the collection's transferFrom goes through, the offer is stored and
    the fee rate is at most 100, [acceptBid] succeeds.  It asks the
    collection to move the token from the caller to [b], pays the caller
    the bid amount less the fee and pays the fee to nobody; the other
    coins it sends are, up to their order, one refund for each remaining
    bid under "bid_<collection>_<tokenId>" whose bidder is not [b].
    Afterwards no key under that prefix and no offer is stored, and every
    other key is as before. *)
Theorem acceptBid_settles ctx h binaryArgs c t b data feeBytes r :
  args3 binaryArgs = Some (c, t, b) ->
  storage h !! V22._bidKeyGenerator c t b = Some data ->
  owner_of ctx c t = Some (ctx_caller ctx) ->
  ctx_call ctx c "transferFrom"
    (serialize (add_u256 t (add_string b
                              (add_string (ctx_caller ctx) Args_empty))))
    10000000 = Some r ->
  storage h !! V22.MARKETPLACE_FEE_KEY = Some feeBytes ->
  is_Some (storage h !! V22._keyGenerator c t) ->
  bytesToU64 feeBytes <= 100 ->
  let A := amount (decode_bid data) in
  let fee := A / 100 * bytesToU64 feeBytes in
  exists h' refunds,
    V22.acceptBid binaryArgs ctx h = Done tt h' /\
    (forall k,
        storage h' !! k
        = if String.prefix (bid_prefix c t) k
             || bool_decide (k = V22._keyGenerator c t)
          then None else storage h !! k) /\
    Call c "transferFrom"
      (serialize (add_u256 t (add_string b
                                (add_string (ctx_caller ctx) Args_empty))))
      10000000 ∈ trace h' /\
    0 <= fee <= A /\
    transfers (trace h')
    = transfers (trace h) ++ (ctx_caller ctx, A - fee) :: refunds /\
    refunds
    ≡ₚ bid_refunds (delete (V22._bidKeyGenerator c t b) (storage h))
         (bid_prefix c t) b.
Proof.
  intros Ha Hb Hown Htr Hfee Ho HF A fee.
  destruct (fee_split A (bytesToU64 feeBytes)) as (E1 & E2 & E3).
  { apply decode_bid_amount_range. }
  { pose proof (bytesToU64_range feeBytes). lia. }
  cbv zeta in E1, E2, E3. fold A in E1, E2, E3.
  eexists _, (bid_refunds (delete (V22._bidKeyGenerator c t b) (storage h))
                (bid_prefix c t) b).
  split.
  { eapply acceptBid_run; eauto. }
  cbn [storage trace]. fold A. rewrite E3, E1. rewrite E1 in E2.
  fold fee in E2 |- *. split_and!.
  - intros k. destruct (bool_decide (k = V22._keyGenerator c t)) eqn:Ek.
    + apply bool_decide_eq_true in Ek as ->. rewrite orb_true_r.
      apply lookup_delete_eq.
    + apply bool_decide_eq_false in Ek. rewrite orb_false_r.
      rewrite lookup_delete_ne by done. rewrite lookup_delete_all.
      destruct (String.prefix (bid_prefix c t) k) eqn:Hp.
      * case_bool_decide as Hin; [done|].
        destruct (delete (V22._bidKeyGenerator c t b) (storage h) !! k)
          eqn:Hk; [|done].
        exfalso. apply Hin. apply elem_of_keys_with_prefix. eauto.
      * rewrite bool_decide_false
          by (intros [? _]%elem_of_keys_with_prefix; congruence).
        apply lookup_delete_ne. intros <-.
        by rewrite bidKey_prefix in Hp.
  - rewrite elem_of_app. right.
    apply list_elem_of_further, list_elem_of_here.
  - lia.
  - lia.
  - rewrite !transfers_app, transfers_reset_ops.
    cbn [transfers omap list_omap app]. by rewrite app_nil_r.
  - reflexivity.
Qed.

Lemma acceptBid_settles_witness :
  exists h',
    V22.acceptBid (Scenario.encode3 Scenario.collectionX 7 Scenario.bob)
      (Scenario.ctx Scenario.seller Scenario.t_live 0 Scenario.seller false)
      (mkHost Scenario.st_two_bids []) = Done tt h' /\
    transfers (trace h')
    = [(Scenario.seller, 240); (Scenario.alice, 100)].
Proof.
  destruct (Scenario.st_two_bids
              !! V22._bidKeyGenerator Scenario.collectionX 7 Scenario.bob)
    as [data|] eqn:Hd; [|vm_compute in Hd; discriminate].
  destruct (acceptBid_settles
              (Scenario.ctx Scenario.seller Scenario.t_live 0
                 Scenario.seller false)
              (mkHost Scenario.st_two_bids [])
              (Scenario.encode3 Scenario.collectionX 7 Scenario.bob)
              Scenario.collectionX 7 Scenario.bob data (u64ToBytes 5) [])
    as (h' & refunds & E & _).
  - vm_compute. reflexivity.
  - exact Hd.
  - vm_compute. reflexivity.
  - vm_compute. reflexivity.
  - vm_compute. reflexivity.
  - vm_compute. eexists. reflexivity.
  - vm_compute. discriminate.
  - exists h'. split; [exact E|].
    vm_compute in E. injection E as <-. vm_compute. reflexivity.
Defined.

(** X12: for a collection address and a bidder address of plain ASCII
    characters, [acceptBid] is refused when [b] has no bid stored for
    the token ("Bid not found") and, with the bid stored, when the
    collection reports an owner other than the caller ("You are not the
    owner of the NFT"). *)
Theorem acceptBid_rejects ctx h binaryArgs c t b :
  args3 binaryArgs = Some (c, t, b) ->
  plain_ascii c = true -> plain_ascii b = true ->
  (storage h !! V22._bidKeyGenerator c t b = None ->
   V22.acceptBid binaryArgs ctx h = Abort "Bid not found") /\
  (forall o,
      is_Some (storage h !! V22._bidKeyGenerator c t b) ->
      owner_of ctx c t = Some o -> plain_ascii o = true ->
      o <> ctx_caller ctx ->
      V22.acceptBid binaryArgs ctx h
      = Abort "You are not the owner of the NFT").
Proof.
  intros (a1 & a2 & a3 & H1 & H2 & H3)%args3_inv _ _. split.
  - intros Hb. unfold V22.acceptBid. fwd_bids. rewrite H1. fwd_bids.
    rewrite H2. fwd_bids. rewrite H3. fwd_bids. rewrite Hb.
    rewrite bool_decide_false by (intros [? ?]; done). reflexivity.
  - intros o [data Hb] (ro & Hro & Hown)%owner_of_inv _ Hne.
    unfold V22.acceptBid. fwd_bids. rewrite H1. fwd_bids.
    rewrite H2. fwd_bids. rewrite H3. fwd_bids. rewrite Hb.
    rewrite bool_decide_true by eauto. fwd_bids. rewrite Hb. fwd_bids.
    rewrite decode_bid_eq. fwd_bids. rewrite Bid_deserialize_isOk. fwd_bids.
    rewrite serialize_u256, Hro. fwd_bids. rewrite Hown.
    rewrite bool_decide_false by done. reflexivity.
Qed.

Lemma acceptBid_rejects_witness :
  V22.acceptBid (Scenario.encode3 Scenario.collectionX 7 Scenario.bob)
    (Scenario.ctx Scenario.carol Scenario.t_live 0 Scenario.seller false)
    (mkHost Scenario.st_two_bids [])
  = Abort "You are not the owner of the NFT" /\
  V22.acceptBid (Scenario.encode3 Scenario.collectionX 7 Scenario.carol)
    (Scenario.ctx Scenario.seller Scenario.t_live 0 Scenario.seller false)
    (mkHost Scenario.st_two_bids [])
  = Abort "Bid not found".
Proof.
  split.
  - destruct (acceptBid_rejects
                (Scenario.ctx Scenario.carol Scenario.t_live 0
                   Scenario.seller false)
                (mkHost Scenario.st_two_bids [])
                (Scenario.encode3 Scenario.collectionX 7 Scenario.bob)
                Scenario.collectionX 7 Scenario.bob) as [_ H].
    + vm_compute. reflexivity.
    + vm_compute. reflexivity.
    + vm_compute. reflexivity.
    + apply (H Scenario.seller).
      * vm_compute. eexists. reflexivity.
      * vm_compute. reflexivity.
      * vm_compute. reflexivity.
      * vm_compute. discriminate.
  - destruct (acceptBid_rejects
                (Scenario.ctx Scenario.seller Scenario.t_live 0
                   Scenario.seller false)
                (mkHost Scenario.st_two_bids [])
                (Scenario.encode3 Scenario.collectionX 7 Scenario.carol)
                Scenario.collectionX 7 Scenario.carol) as [H _].
    + vm_compute. reflexivity.
    + vm_compute. reflexivity.
    + vm_compute. reflexivity.
    + apply H. vm_compute. reflexivity.
Defined.

(** X13: accepting the bid of [b] on token [t] also erases, without any
    refund, a bid of [b] on another token of the collection whose decimal
    id starts with the digits of [t]: the bulk reset matches its key and
    skips the refund because the bidder is the buyer. *)
Theorem acceptBid_erases_buyer_bid_on_longer_id
    ctx h binaryArgs c t t' b data data' feeBytes r :
  args3 binaryArgs = Some (c, t, b) ->
  storage h !! V22._bidKeyGenerator c t b = Some data ->
  owner_of ctx c t = Some (ctx_caller ctx) ->
  ctx_call ctx c "transferFrom"
    (serialize (add_u256 t (add_string b
                              (add_string (ctx_caller ctx) Args_empty))))
    10000000 = Some r ->
  storage h !! V22.MARKETPLACE_FEE_KEY = Some feeBytes ->
  is_Some (storage h !! V22._keyGenerator c t) ->
  String.prefix (pretty t) (pretty t') = true ->
  storage h !! V22._bidKeyGenerator c t' b = Some data' ->
  b <> "" -> b <> ctx_caller ctx ->
  exists h' ops,
    V22.acceptBid binaryArgs ctx h = Done tt h' /\
    trace h' = trace h ++ ops /\
    storage h' !! V22._bidKeyGenerator c t' b = None /\
    forall amt, (b, amt) ∉ transfers ops.
Proof.
  intros Ha Hb Hown Htr Hfee Ho Hp Hb' Hne Hcaller.
  eexists _, _. split.
  { eapply acceptBid_run; eauto. }
  cbn [storage trace]. split_and!.
  - reflexivity.
  - rewrite lookup_delete_ne
      by (intros E; by apply offerKey_not_bidKey in E).
    rewrite lookup_delete_all.
    destruct (decide (V22._bidKeyGenerator c t' b
                      = V22._bidKeyGenerator c t b)) as [E|E].
    + rewrite E. case_bool_decide; [done|apply lookup_delete_eq].
    + rewrite bool_decide_true; [done|].
      apply elem_of_keys_with_prefix. split.
      * by apply bidKey_prefix_overlap.
      * rewrite lookup_delete_ne by done. eauto.
  - intros amt. rewrite transfers_app.
    intros [Hin|Hin]%elem_of_app.
    + cbn in Hin. apply list_elem_of_singleton in Hin. congruence.
    + rewrite transfers_app in Hin. apply elem_of_app in Hin as [Hin|Hin].
      * by apply no_refund_to_buyer in Hin.
      * cbn in Hin. by apply elem_of_nil in Hin.
Qed.

Lemma acceptBid_erases_buyer_bid_on_longer_id_witness :
  exists h',
    V22.acceptBid (Scenario.encode3 Scenario.collectionX 7 Scenario.bob)
      (Scenario.ctx Scenario.seller Scenario.t_live 0 Scenario.seller false)
      (mkHost (<[V22._bidKeyGenerator Scenario.collectionX 70 Scenario.bob
                 := Bid_serialize (mkBid Scenario.bob 900 Scenario.t_live)]>
                 Scenario.st_two_bids) [])
    = Done tt h' /\
    storage h' !! V22._bidKeyGenerator Scenario.collectionX 70 Scenario.bob
    = None /\
    forall amt, (Scenario.bob, amt) ∉ transfers (trace h').
Proof.
  destruct (Scenario.st_two_bids
              !! V22._bidKeyGenerator Scenario.collectionX 7 Scenario.bob)
    as [data|] eqn:Hd; [|vm_compute in Hd; discriminate].
  destruct (acceptBid_erases_buyer_bid_on_longer_id
              (Scenario.ctx Scenario.seller Scenario.t_live 0
                 Scenario.seller false)
              (mkHost (<[V22._bidKeyGenerator Scenario.collectionX 70
                           Scenario.bob
                         := Bid_serialize
                              (mkBid Scenario.bob 900 Scenario.t_live)]>
                         Scenario.st_two_bids) [])
              (Scenario.encode3 Scenario.collectionX 7 Scenario.bob)
              Scenario.collectionX 7 70 Scenario.bob data
              (Bid_serialize (mkBid Scenario.bob 900 Scenario.t_live))
              (u64ToBytes 5) [])
    as (h' & ops & E & Htr & Hst & Hno).
  - vm_compute. reflexivity.
  - cbn [storage]. rewrite lookup_insert_ne; [exact Hd|].
    vm_compute. discriminate.
  - vm_compute. reflexivity.
  - vm_compute. reflexivity.
  - vm_compute. reflexivity.
  - vm_compute. eexists. reflexivity.
  - vm_compute. reflexivity.
  - apply lookup_insert_eq.
  - discriminate.
  - vm_compute. discriminate.
  - exists h'. split; [exact E|]. split; [exact Hst|].
    cbn [trace] in Htr. rewrite Htr. exact Hno.
Defined.

(** ** Buying *)

Lemma buyOffer_run ctx h binaryArgs c t data feeBytes ownerBytes owner r :
  args2 binaryArgs = Some (c, t) ->
  is_Some (storage h !! (V22.COLLECTION_PREFIX +:+ c)) ->
  storage h !! V22._keyGenerator c t = Some data ->
  wrap64 (ctx_timestamp ctx) <= expirationTime (decode_offer data) ->
  price (decode_offer data) <= wrap64 (ctx_transferredCoins ctx) ->
  owner_of ctx c t = Some owner ->
  ctx_isAddressEoa ctx (ctx_caller ctx) = true ->
  ctx_call ctx c "transferFrom"
    (serialize (add_u256 t (add_string (ctx_caller ctx)
                              (add_string owner Args_empty))))
    10000000 = Some r ->
  storage h !! V22.MARKETPLACE_FEE_KEY = Some feeBytes ->
  storage h !! V22.MARKETPLACE_OWNER_KEY = Some ownerBytes ->
  let P := price (decode_offer data) in
  let feeAmount := wrap64 (P / 100 * bytesToU64 feeBytes) in
  let ks := keys_with_prefix (bid_prefix c t) (storage h) in
  V22.buyOffer binaryArgs ctx h
  = Done tt
      (mkHost (delete (V22._keyGenerator c t) (delete_all ks (storage h)))
         (trace h ++
          [Call c "ownerOf" (u256ToBytes t) 0;
           Call c "transferFrom"
             (serialize (add_u256 t (add_string (ctx_caller ctx)
                                       (add_string owner Args_empty))))
             10000000;
           TransferCoins (bytesToString ownerBytes) feeAmount;
           TransferCoins owner (wrap64 (P - feeAmount));
           GenerateEvent (ctx_caller ctx +:+ " bought this " +:+ pretty t
                          +:+ " NFT at this " +:+ pretty P +:+ " price")]
          ++ reset_ops (storage h) ks ""
          ++ [StorageDel (V22._keyGenerator c t)])).
Proof.
  intros (a & a' & Ha & Ha')%args2_inv Hc Ho Hexp Hpaid
         (ro & Hro & Hown)%owner_of_inv Heoa Htr Hfee Hmo P feeAmount ks.
  unfold V22.buyOffer. fwd_bids. rewrite Ha. fwd_bids. rewrite Ha'. fwd_bids.
  rewrite bool_decide_true by done. fwd_bids.
  rewrite Ho. rewrite bool_decide_true by eauto. fwd_bids.
  rewrite Ho. fwd_bids. rewrite decode_offer_eq. fwd_bids.
  rewrite SellOffer_deserialize_isOk. fwd_bids.
  apply Z.leb_le in Hexp. rewrite Hexp. fwd_bids.
  apply Z.leb_le in Hpaid. rewrite Hpaid. fwd_bids.
  rewrite serialize_u256, Hro. fwd_bids. rewrite Heoa. fwd_bids.
  rewrite Hown, Htr. fwd_bids. rewrite Hfee. fwd_bids.
  rewrite Hmo. fwd_bids.
  rewrite resetBids_run. cbv zeta. cbn [storage trace].
  rewrite Storage_del_run; cycle 1.
  { cbn [storage]. left. rewrite lookup_delete_all.
    rewrite bool_decide_false; [eauto|].
    intros [Hp _]%elem_of_keys_with_prefix.
    unfold bid_prefix in Hp. by rewrite offerKey_no_bid_prefix in Hp. }
  cbn [storage trace]. rewrite <- !(@app_assoc HostOp). reflexivity.
Qed.

(** X14: a live, fully paid offer bought by an externally-owned caller
    settles.  [buyOffer] asks the collection to move the token from its
    current owner to the caller; with a fee rate F of at most 100 the
    marketplace owner is sent (P / 100) * F and the token's owner P less
    that, so the two add up to the listed price P whatever was attached;
    then each bid under "bid_<collection>_<tokenId>" is refunded once to
    its recorded bidder, and no other coins move.  Those bids are deleted
    with the offer, and every other key is as before. *)
Theorem buyOffer_settles
    ctx h binaryArgs c t data feeBytes ownerBytes owner r :
  args2 binaryArgs = Some (c, t) ->
  is_Some (storage h !! (V22.COLLECTION_PREFIX +:+ c)) ->
  storage h !! V22._keyGenerator c t = Some data ->
  wrap64 (ctx_timestamp ctx) <= expirationTime (decode_offer data) ->
  price (decode_offer data) <= wrap64 (ctx_transferredCoins ctx) ->
  owner_of ctx c t = Some owner ->
  ctx_isAddressEoa ctx (ctx_caller ctx) = true ->
  ctx_call ctx c "transferFrom"
    (serialize (add_u256 t (add_string (ctx_caller ctx)
                              (add_string owner Args_empty))))
    10000000 = Some r ->
  storage h !! V22.MARKETPLACE_FEE_KEY = Some feeBytes ->
  storage h !! V22.MARKETPLACE_OWNER_KEY = Some ownerBytes ->
  bytesToU64 feeBytes <= 100 ->
  let P := price (decode_offer data) in
  let fee := P / 100 * bytesToU64 feeBytes in
  exists h' refunds,
    V22.buyOffer binaryArgs ctx h = Done tt h' /\
    (forall k,
        storage h' !! k
        = if String.prefix (bid_prefix c t) k
             || bool_decide (k = V22._keyGenerator c t)
          then None else storage h !! k) /\
    Call c "transferFrom"
      (serialize (add_u256 t (add_string (ctx_caller ctx)
                                (add_string owner Args_empty))))
      10000000 ∈ trace h' /\
    transfers (trace h')
    = transfers (trace h)
      ++ (bytesToString ownerBytes, fee) :: (owner, P - fee) :: refunds /\
    refunds ≡ₚ bid_refunds (storage h) (bid_prefix c t) "" /\
    0 <= fee <= P.
Proof.
  intros Ha Hc Ho Hexp Hpaid Hown Heoa Htr Hfee Hmo HF P fee.
  destruct (fee_split P (bytesToU64 feeBytes)) as (E1 & E2 & E3).
  { apply decode_offer_price_range. }
  { pose proof (bytesToU64_range feeBytes). lia. }
  eexists _, (bid_refunds (storage h) (bid_prefix c t) ""). split.
  { eapply buyOffer_run; eauto. }
  cbn [storage trace]. fold P. cbv zeta in E1, E2, E3. fold P in E1, E2, E3.
  rewrite E3, E1. rewrite E1 in E2. fold fee in E2 |- *. split_and!.
  - intros k. destruct (bool_decide (k = V22._keyGenerator c t)) eqn:Ek.
    + apply bool_decide_eq_true in Ek as ->. rewrite orb_true_r.
      apply lookup_delete_eq.
    + apply bool_decide_eq_false in Ek. rewrite orb_false_r.
      rewrite lookup_delete_ne by done. rewrite lookup_delete_all.
      destruct (String.prefix (bid_prefix c t) k) eqn:Hp.
      * case_bool_decide as Hin; [done|].
        destruct (storage h !! k) eqn:Hk; [|done].
        exfalso. apply Hin. apply elem_of_keys_with_prefix. eauto.
      * rewrite bool_decide_false; [done|].
        intros [? _]%elem_of_keys_with_prefix. congruence.
  - rewrite elem_of_app. right.
    apply list_elem_of_further, list_elem_of_here.
  - rewrite !transfers_app, transfers_reset_ops.
    cbn [transfers omap list_omap app]. by rewrite app_nil_r.
  - reflexivity.
  - lia.
  - lia.
Qed.

Lemma buyOffer_settles_witness :
  exists h',
    V22.buyOffer (Scenario.encode2 Scenario.collectionX 7)
      (Scenario.ctx Scenario.carol Scenario.t_live 1200 Scenario.seller false)
      (mkHost Scenario.st_two_bids []) = Done tt h' /\
    transfers (trace h')
    = [(Scenario.admin, 50); (Scenario.seller, 950);
       (Scenario.alice, 100); (Scenario.bob, 250)].
Proof.
  destruct (Scenario.st_two_bids !! V22._keyGenerator Scenario.collectionX 7)
    as [data|] eqn:Hd; [|vm_compute in Hd; discriminate].
  destruct (buyOffer_settles
              (Scenario.ctx Scenario.carol Scenario.t_live 1200
                 Scenario.seller false)
              (mkHost Scenario.st_two_bids [])
              (Scenario.encode2 Scenario.collectionX 7)
              Scenario.collectionX 7 data (u64ToBytes 5)
              (stringToBytes Scenario.admin) Scenario.seller [])
    as (h' & refunds & E & _).
  - vm_compute. reflexivity.
  - vm_compute. eexists. reflexivity.
  - exact Hd.
  - vm_compute in Hd. injection Hd as <-. vm_compute. discriminate.
  - vm_compute in Hd. injection Hd as <-. vm_compute. discriminate.
  - vm_compute. reflexivity.
  - vm_compute. reflexivity.
  - vm_compute. reflexivity.
  - vm_compute. reflexivity.
  - vm_compute. reflexivity.
  - vm_compute. discriminate.
  - exists h'. split; [exact E|].
    vm_compute in E. injection E as <-. vm_compute. reflexivity.
Defined.

(** X15: for a collection address of plain ASCII characters, [buyOffer]
    is refused when the collection is not registered, when the token has
    no stored offer, and when a live offer is underpaid; it reports the
    three cases with different messages. *)
Theorem buyOffer_rejects ctx h binaryArgs c t :
  args2 binaryArgs = Some (c, t) ->
  plain_ascii c = true ->
  (storage h !! (V22.COLLECTION_PREFIX +:+ c) = None ->
   V22.buyOffer binaryArgs ctx h
   = Abort "Collection not found in marketplace") /\
  (is_Some (storage h !! (V22.COLLECTION_PREFIX +:+ c)) ->
   storage h !! V22._keyGenerator c t = None ->
   V22.buyOffer binaryArgs ctx h = Abort "Sell offer doesnt exist") /\
  (forall data,
      is_Some (storage h !! (V22.COLLECTION_PREFIX +:+ c)) ->
      storage h !! V22._keyGenerator c t = Some data ->
      wrap64 (ctx_timestamp ctx) <= expirationTime (decode_offer data) ->
      wrap64 (ctx_transferredCoins ctx) < price (decode_offer data) ->
      V22.buyOffer binaryArgs ctx h
      = Abort "Could not send enough coins to buy this NFT").
Proof.
  intros (a & a' & Ha & Ha')%args2_inv _. split_and!.
  - intros Hc. unfold V22.buyOffer. fwd_bids. rewrite Ha. fwd_bids.
    rewrite Ha'. fwd_bids. rewrite Hc.
    rewrite bool_decide_false by (intros [? ?]; done). reflexivity.
  - intros Hc Ho. unfold V22.buyOffer. fwd_bids. rewrite Ha. fwd_bids.
    rewrite Ha'. fwd_bids. rewrite bool_decide_true by done. fwd_bids.
    rewrite Ho. rewrite bool_decide_false by (intros [? ?]; done).
    reflexivity.
  - intros data Hc Ho Hexp Hpaid. unfold V22.buyOffer. fwd_bids.
    rewrite Ha. fwd_bids. rewrite Ha'. fwd_bids.
    rewrite bool_decide_true by done. fwd_bids.
    rewrite Ho. rewrite bool_decide_true by eauto. fwd_bids.
    rewrite Ho. fwd_bids. rewrite decode_offer_eq. fwd_bids.
    rewrite SellOffer_deserialize_isOk. fwd_bids.
    apply Z.leb_le in Hexp. rewrite Hexp. fwd_bids.
    apply Z.leb_gt in Hpaid. rewrite Hpaid. reflexivity.
Qed.

Lemma buyOffer_rejects_witness :
  V22.buyOffer (Scenario.encode2 Scenario.collectionX 7)
    (Scenario.ctx Scenario.carol Scenario.t_live 999 Scenario.seller false)
    (mkHost Scenario.st_listed [])
  = Abort "Could not send enough coins to buy this NFT".
Proof.
  destruct (Scenario.st_listed !! V22._keyGenerator Scenario.collectionX 7)
    as [data|] eqn:Hd; [|vm_compute in Hd; discriminate].
  destruct (buyOffer_rejects
              (Scenario.ctx Scenario.carol Scenario.t_live 999
                 Scenario.seller false)
              (mkHost Scenario.st_listed [])
              (Scenario.encode2 Scenario.collectionX 7)
              Scenario.collectionX 7) as (_ & _ & H).
  - vm_compute. reflexivity.
  - vm_compute. reflexivity.
  - apply (H data).
    + vm_compute. eexists. reflexivity.
    + exact Hd.
    + vm_compute in Hd. injection Hd as <-. vm_compute. discriminate.
    + vm_compute in Hd. injection Hd as <-. vm_compute. reflexivity.
Defined.

(** ** Listing *)

Lemma args2_encode c t :
  wf_string c -> 0 <= t < 2 ^ 256 ->
  args2 (serialize (add_u256 t (add_string c Args_empty))) = Some (c, t).
Proof.
  unfold wf_string. intros Hc Ht.
  set (data := serialize (add_u256 t (add_string c Args_empty))).
  assert (Hle : (0 <= length data)%nat) by lia.
  assert (Hd : drop 0 data
               = u32ToBytes (Z.of_nat (String.length c))
                 ++ stringToBytes c ++ le_bytes 32 t ++ []).
  { subst data. rewrite app_nil_r. unfold_serialize. reflexivity. }
  unfold args2, Args_new.
  destruct (nextString_drop data 0 c _ Hc Hle Hd) as (Hn & Hle' & Hd').
  rewrite Hn.
  destruct (nextFixed_drop 32 data _ t _ Hle' Hd') as (Hn' & _ & _).
  unfold nextU256. rewrite Hn'.
  change (256 ^ Z.of_nat 32) with (2 ^ 256). by rewrite Z.mod_small.
Qed.

Lemma nextU256_range a v a' : nextU256 a = Some (v, a') -> 0 <= v < 2 ^ 256.
Proof. apply (nextFixed_range 32). Qed.

(** What a successful [sellOffer] of v2.2 has checked. *)
Lemma sellOffer_checked_v22 ctx h binaryArgs c t p e h' :
  args4 binaryArgs = Some (c, t, p, e) ->
  V22.sellOffer binaryArgs ctx h = Done tt h' ->
  let now := wrap64 (ctx_timestamp ctx) in
  ctx_isAddressEoa ctx (ctx_caller ctx) = true /\
  now < wrap64 (now + e) /\
  is_Some (storage h !! (V22.COLLECTION_PREFIX +:+ c)) /\
  owner_of ctx c t = Some (ctx_caller ctx) /\
  0 <= t < 2 ^ 256 /\ 0 <= p < 2 ^ 64.
Proof.
  intros (a1 & a2 & a3 & a4 & H1 & H2 & H3 & H4)%args4_inv E.
  pose proof (nextU256_range _ _ _ H2). pose proof (nextU64_range _ _ _ H3).
  unfold V22.sellOffer in E. run_all. simplify_eq. bool_hyps.
  match goal with H : ctx_call _ _ "ownerOf" _ _ = Some _ |- _ =>
    apply owner_of_call in H end.
  match goal with H : (_ <? _) = true |- _ => apply Z.ltb_lt in H end.
  cbn zeta. split_and!; try done; try lia. congruence.
Qed.

(** X16: a successful [sellOffer] found no offer under the key, and
    leaves there a record that reads back as (collection, decimal token
    id, price, caller, now + expireIn, now) with the expiration strictly
    after now; every other key is as before and no coins move. *)
Theorem sellOffer_stores_offer ctx h binaryArgs c t p e h' :
  args4 binaryArgs = Some (c, t, p, e) ->
  V22.sellOffer binaryArgs ctx h = Done tt h' ->
  wf_string c -> wf_string (pretty t) -> wf_string (ctx_caller ctx) ->
  let now := wrap64 (ctx_timestamp ctx) in
  let key := V22._keyGenerator c t in
  storage h !! key = None /\
  (exists data,
      storage h' !! key = Some data /\
      decode_offer data
      = mkSellOffer c (pretty t) p (ctx_caller ctx) (wrap64 (now + e)) now) /\
  now < wrap64 (now + e) /\
  (forall k, k <> key -> storage h' !! k = storage h !! k) /\
  transfers (trace h') = transfers (trace h).
Proof.
  intros Ha E Hc Ht Hcaller now key.
  destruct (sellOffer_checked_v22 _ _ _ _ _ _ _ _ Ha E)
    as (_ & Hexp & _ & _ & _ & Hp).
  destruct (sellOffer_Done_v22 _ _ _ _ _ _ _ _ Ha E) as (Hn & Hst & Htr).
  split_and!; try done.
  - eexists. split.
    + rewrite Hst. apply lookup_insert_eq.
    + apply decode_offer_serialize; cbn; try done; apply wrap64_range.
  - intros k Hk. rewrite Hst. by apply lookup_insert_ne.
  - rewrite Htr, transfers_app. cbn. by rewrite app_nil_r.
Qed.

Lemma sellOffer_stores_offer_witness :
  exists data,
    Scenario.st_listed !! V22._keyGenerator Scenario.collectionX 7
    = Some data /\
    price (decode_offer data) = 1000 /\
    creatorAddress (decode_offer data) = Scenario.seller.
Proof.
  unfold Scenario.st_listed, invoke.
  destruct (V22.sellOffer
              (Scenario.encode4 Scenario.collectionX 7 1000 3600000)
              (Scenario.ctx Scenario.seller Scenario.t_list 0
                 Scenario.seller false)
              (mkHost Scenario.st_deployed []))
    as [[] h'|msg] eqn:E; [|vm_compute in E; discriminate].
  destruct (sellOffer_stores_offer
              (Scenario.ctx Scenario.seller Scenario.t_list 0
                 Scenario.seller false)
              (mkHost Scenario.st_deployed [])
              (Scenario.encode4 Scenario.collectionX 7 1000 3600000)
              Scenario.collectionX 7 1000 3600000 h')
    as (_ & (data & Hd & Hdec) & _).
  - vm_compute. reflexivity.
  - exact E.
  - vm_compute. reflexivity.
  - vm_compute. reflexivity.
  - vm_compute. reflexivity.
  - exists data. split; [exact Hd|]. rewrite Hdec. split; reflexivity.
Defined.

Lemma autonomousDeleteOffer_run ctx h binaryArgs c t :
  args2 binaryArgs = Some (c, t) ->
  ctx_caller ctx = ctx_callee ctx ->
  is_Some (storage h !! V22._keyGenerator c t) ->
  V22.autonomousDeleteOffer binaryArgs ctx h
  = Done tt
      (mkHost (delete (V22._keyGenerator c t) (storage h))
         (trace h ++ [StorageDel (V22._keyGenerator c t);
                      GenerateEvent (V22._keyGenerator c t
                                     +:+ " expired and removed")])).
Proof.
  intros (a & a' & Ha & Ha')%args2_inv Hc Hs.
  unfold V22.autonomousDeleteOffer. fwd_bids. rewrite Ha. fwd_bids.
  rewrite Ha'. fwd_bids. rewrite Hc, bool_decide_true by done. fwd_bids.
  rewrite bool_decide_true by done. fwd_bids.
  rewrite Storage_del_run by (cbn [storage]; auto). cbn [storage trace].
  fwd_bids. rewrite <- !(@app_assoc HostOp). reflexivity.
Qed.

(** X17: the deferred message a successful [sellOffer] schedules is
    addressed to the contract's own [autonomousDeleteOffer] with
    parameters that function decodes to the same (collection, tokenId):
    delivered with the contract as caller it succeeds, and the datastore
    is then what it was before the listing. *)
Theorem sellOffer_expiry_message_deletes_offer
    ctx ctx' h binaryArgs c t p e h1 :
  args4 binaryArgs = Some (c, t, p, e) ->
  V22.sellOffer binaryArgs ctx h = Done tt h1 ->
  wf_string c ->
  ctx_caller ctx' = ctx_callee ctx' ->
  exists startPeriod startThread endPeriod params h2,
    SendMessage (ctx_callee ctx) "autonomousDeleteOffer"
      startPeriod startThread endPeriod 31 1000000000 50000000 0 params
      ∈ trace h1 /\
    V22.autonomousDeleteOffer params ctx' h1 = Done tt h2 /\
    storage h2 = storage h.
Proof.
  intros Ha E Hc Hself.
  destruct (sellOffer_checked_v22 _ _ _ _ _ _ _ _ Ha E)
    as (_ & _ & _ & _ & Ht & _).
  destruct (sellOffer_Done_v22 _ _ _ _ _ _ _ _ Ha E) as (Hn & Hst & Htr).
  eexists _, _, _, _, _. split_and!.
  - rewrite Htr. rewrite elem_of_app. right.
    do 3 apply list_elem_of_further. apply list_elem_of_here.
  - apply autonomousDeleteOffer_run; [by apply args2_encode|done|].
    rewrite Hst, lookup_insert_eq. eauto.
  - cbn [storage]. rewrite Hst, delete_insert_eq. by apply delete_id.
Qed.

Lemma sellOffer_expiry_message_deletes_offer_witness :
  exists h1 params h2,
    V22.sellOffer (Scenario.encode4 Scenario.collectionX 7 1000 3600000)
      (Scenario.ctx Scenario.seller Scenario.t_list 0 Scenario.seller false)
      (mkHost Scenario.st_deployed []) = Done tt h1 /\
    V22.autonomousDeleteOffer params
      (Scenario.ctx Scenario.market Scenario.t_late 0 Scenario.seller false)
      h1 = Done tt h2 /\
    storage h2 = Scenario.st_deployed.
Proof.
  destruct (V22.sellOffer
              (Scenario.encode4 Scenario.collectionX 7 1000 3600000)
              (Scenario.ctx Scenario.seller Scenario.t_list 0
                 Scenario.seller false)
              (mkHost Scenario.st_deployed []))
    as [[] h1|msg] eqn:E; [|vm_compute in E; discriminate].
  destruct (sellOffer_expiry_message_deletes_offer
              (Scenario.ctx Scenario.seller Scenario.t_list 0
                 Scenario.seller false)
              (Scenario.ctx Scenario.market Scenario.t_late 0
                 Scenario.seller false)
              (mkHost Scenario.st_deployed [])
              (Scenario.encode4 Scenario.collectionX 7 1000 3600000)
              Scenario.collectionX 7 1000 3600000 h1)
    as (sp & st & ep & params & h2 & _ & Hrun & Hst).
  - vm_compute. reflexivity.
  - exact E.
  - vm_compute. reflexivity.
  - reflexivity.
  - exists h1, params, h2. split; [reflexivity|]. split; [exact Hrun|].
    exact Hst.
Defined.

(** X18: what [sellOffer] stores is what [buyOffer] settles.  After a
    successful listing at price [p], a purchase no later than the stored
    expiration, by an externally-owned caller who attaches at least [p],
    succeeds whenever the collection's transferFrom does: with a fee rate
    of at most 100 the marketplace owner and the token's owner are sent
    amounts that add up to [p], and the offer is gone. *)
Theorem sellOffer_then_buyOffer
    ctx1 ctx2 h sellArgs buyArgs c t p e h1 feeBytes ownerBytes owner r :
  args4 sellArgs = Some (c, t, p, e) ->
  args2 buyArgs = Some (c, t) ->
  V22.sellOffer sellArgs ctx1 h = Done tt h1 ->
  wf_string c -> wf_string (pretty t) -> wf_string (ctx_caller ctx1) ->
  wrap64 (ctx_timestamp ctx2)
  <= wrap64 (wrap64 (ctx_timestamp ctx1) + e) ->
  p <= wrap64 (ctx_transferredCoins ctx2) ->
  owner_of ctx2 c t = Some owner ->
  ctx_isAddressEoa ctx2 (ctx_caller ctx2) = true ->
  ctx_call ctx2 c "transferFrom"
    (serialize (add_u256 t (add_string (ctx_caller ctx2)
                              (add_string owner Args_empty))))
    10000000 = Some r ->
  storage h !! V22.MARKETPLACE_FEE_KEY = Some feeBytes ->
  storage h !! V22.MARKETPLACE_OWNER_KEY = Some ownerBytes ->
  bytesToU64 feeBytes <= 100 ->
  let fee := p / 100 * bytesToU64 feeBytes in
  exists h2 refunds,
    V22.buyOffer buyArgs ctx2 h1 = Done tt h2 /\
    storage h2 !! V22._keyGenerator c t = None /\
    0 <= fee <= p /\
    transfers (trace h2)
    = transfers (trace h)
      ++ (bytesToString ownerBytes, fee) :: (owner, p - fee) :: refunds.
Proof.
  intros Ha4 Ha2 E Hc Ht Hcaller Hexp Hpaid Hown Heoa Htr Hfee Hmo HF fee.
  destruct (sellOffer_checked_v22 _ _ _ _ _ _ _ _ Ha4 E)
    as (_ & _ & Hreg & _ & _ & Hp).
  destruct (sellOffer_Done_v22 _ _ _ _ _ _ _ _ Ha4 E) as (Hn & Hst & Htr1).
  set (offer := mkSellOffer c (pretty t) p (ctx_caller ctx1)
                  (wrap64 (wrap64 (ctx_timestamp ctx1) + e))
                  (wrap64 (ctx_timestamp ctx1))) in *.
  assert (Hdec : decode_offer (SellOffer_serialize offer) = offer).
  { apply decode_offer_serialize; cbn; try done; apply wrap64_range. }
  destruct (fee_split p (bytesToU64 feeBytes)) as (E1 & E2 & E3); [done|..].
  { pose proof (bytesToU64_range feeBytes). lia. }
  cbv zeta in E1, E2, E3.
  eexists _, _. split.
  { eapply (buyOffer_run ctx2 h1 buyArgs c t (SellOffer_serialize offer)
              feeBytes ownerBytes owner r); try done.
    - rewrite Hst. by rewrite lookup_insert_ne.
    - rewrite Hst. apply lookup_insert_eq.
    - by rewrite Hdec.
    - by rewrite Hdec.
    - rewrite Hst. by rewrite lookup_insert_ne.
    - rewrite Hst. by rewrite lookup_insert_ne. }
  cbn [storage trace]. rewrite Hdec. cbn [price offer].
  rewrite E3, E1. rewrite E1 in E2. fold fee in E2 |- *. split_and!.
  - apply lookup_delete_eq.
  - lia.
  - lia.
  - rewrite Htr1, !transfers_app. cbn [transfers omap list_omap].
    rewrite <- !app_assoc. cbn [app]. reflexivity.
Qed.

Lemma sellOffer_then_buyOffer_witness :
  exists h1 h2,
    V22.sellOffer (Scenario.encode4 Scenario.collectionX 7 1000 3600000)
      (Scenario.ctx Scenario.seller Scenario.t_list 0 Scenario.seller false)
      (mkHost Scenario.st_deployed []) = Done tt h1 /\
    V22.buyOffer (Scenario.encode2 Scenario.collectionX 7)
      (Scenario.ctx Scenario.carol Scenario.t_live 1200 Scenario.seller false)
      h1 = Done tt h2 /\
    transfers (trace h2) = [(Scenario.admin, 50); (Scenario.seller, 950)].
Proof.
  destruct (V22.sellOffer
              (Scenario.encode4 Scenario.collectionX 7 1000 3600000)
              (Scenario.ctx Scenario.seller Scenario.t_list 0
                 Scenario.seller false)
              (mkHost Scenario.st_deployed []))
    as [[] h1|msg] eqn:E; [|vm_compute in E; discriminate].
  destruct (sellOffer_then_buyOffer
              (Scenario.ctx Scenario.seller Scenario.t_list 0
                 Scenario.seller false)
              (Scenario.ctx Scenario.carol Scenario.t_live 1200
                 Scenario.seller false)
              (mkHost Scenario.st_deployed [])
              (Scenario.encode4 Scenario.collectionX 7 1000 3600000)
              (Scenario.encode2 Scenario.collectionX 7)
              Scenario.collectionX 7 1000 3600000 h1
              (u64ToBytes 5) (stringToBytes Scenario.admin)
              Scenario.seller [])
    as (h2 & refunds & Hrun & _).
  - vm_compute. reflexivity.
  - vm_compute. reflexivity.
  - exact E.
  - vm_compute. reflexivity.
  - vm_compute. reflexivity.
  - vm_compute. reflexivity.
  - vm_compute. discriminate.
  - vm_compute. discriminate.
  - vm_compute. reflexivity.
  - vm_compute. reflexivity.
  - vm_compute. reflexivity.
  - vm_compute. reflexivity.
  - vm_compute. reflexivity.
  - vm_compute. discriminate.
  - exists h1, h2. split; [reflexivity|]. split; [exact Hrun|].
    vm_compute in E. injection E as <-.
    vm_compute in Hrun. injection Hrun as <-. vm_compute. reflexivity.
Defined.

(** X19: the guards of [sellOffer] after the caller-type and duplicate
    checks, for a collection address of plain ASCII characters.  For an
    externally-owned caller it is refused when the duration does not move
    the expiration past the current time (zero, or large enough to wrap
    the u64 sum); when the collection is not registered; when the
    collection reports an owner other than the caller; and when the
    collection reports that the marketplace is not approved for the
    caller's tokens. *)
Theorem sellOffer_guards ctx h binaryArgs c t p e :
  args4 binaryArgs = Some (c, t, p, e) ->
  plain_ascii c = true ->
  ctx_isAddressEoa ctx (ctx_caller ctx) = true ->
  let now := wrap64 (ctx_timestamp ctx) in
  (wrap64 (now + e) <= now ->
   V22.sellOffer binaryArgs ctx h
   = Abort "The end time must be greater than the Context.timestamp()") /\
  (now < wrap64 (now + e) ->
   storage h !! (V22.COLLECTION_PREFIX +:+ c) = None ->
   V22.sellOffer binaryArgs ctx h
   = Abort "Collection or Item not found in marketplace") /\
  (forall o,
      now < wrap64 (now + e) ->
      is_Some (storage h !! (V22.COLLECTION_PREFIX +:+ c)) ->
      storage h !! V22._keyGenerator c t = None ->
      owner_of ctx c t = Some o -> plain_ascii o = true ->
      o <> ctx_caller ctx ->
      V22.sellOffer binaryArgs ctx h
      = Abort ("You are not the owner of NFT owner:" +:+ o
               +:+ " callerAddress: " +:+ ctx_caller ctx)) /\
  (forall rb,
      now < wrap64 (now + e) ->
      is_Some (storage h !! (V22.COLLECTION_PREFIX +:+ c)) ->
      storage h !! V22._keyGenerator c t = None ->
      owner_of ctx c t = Some (ctx_caller ctx) ->
      ctx_call ctx c "isApprovedForAll"
        (serialize (add_string (ctx_callee ctx)
                      (add_string (ctx_caller ctx) Args_empty))) 0
      = Some rb ->
      byteToBool rb = Some false ->
      V22.sellOffer binaryArgs ctx h
      = Abort "Marketplace not approved for trading").
Proof.
  intros (a1 & a2 & a3 & a4 & H1 & H2 & H3 & H4)%args4_inv _ Heoa now.
  split_and!.
  - intros Hle. unfold V22.sellOffer. fwd_bids. rewrite H1. fwd_bids.
    rewrite H2. fwd_bids. rewrite H3. fwd_bids. rewrite H4. fwd_bids.
    rewrite Heoa. fwd_bids. fold now.
    rewrite (proj2 (Z.ltb_ge _ _)) by done. reflexivity.
  - intros Hlt Hc. unfold V22.sellOffer. fwd_bids. rewrite H1. fwd_bids.
    rewrite H2. fwd_bids. rewrite H3. fwd_bids. rewrite H4. fwd_bids.
    rewrite Heoa. fwd_bids. fold now.
    rewrite (proj2 (Z.ltb_lt _ _)) by done. fwd_bids.
    rewrite Hc. rewrite bool_decide_false by (intros [? ?]; done).
    reflexivity.
  - intros o Hlt Hc Ho (ro & Hro & Hown)%owner_of_inv _ Hne.
    unfold V22.sellOffer. fwd_bids. rewrite H1. fwd_bids.
    rewrite H2. fwd_bids. rewrite H3. fwd_bids. rewrite H4. fwd_bids.
    rewrite Heoa. fwd_bids. fold now.
    rewrite (proj2 (Z.ltb_lt _ _)) by done. fwd_bids.
    rewrite bool_decide_true by done. fwd_bids.
    rewrite Ho. rewrite bool_decide_false by (intros [? ?]; done). fwd_bids.
    rewrite serialize_u256, Hro. fwd_bids. rewrite Hown.
    rewrite bool_decide_false by done. reflexivity.
  - intros rb Hlt Hc Ho (ro & Hro & Hown)%owner_of_inv Hcall Hrb.
    unfold V22.sellOffer. fwd_bids. rewrite H1. fwd_bids.
    rewrite H2. fwd_bids. rewrite H3. fwd_bids. rewrite H4. fwd_bids.
    rewrite Heoa. fwd_bids. fold now.
    rewrite (proj2 (Z.ltb_lt _ _)) by done. fwd_bids.
    rewrite bool_decide_true by done. fwd_bids.
    rewrite Ho. rewrite bool_decide_false by (intros [? ?]; done). fwd_bids.
    rewrite serialize_u256, Hro. fwd_bids. rewrite Hown.
    rewrite bool_decide_true by done. fwd_bids.
    rewrite Hcall. fwd_bids. rewrite Hrb. reflexivity.
Qed.

Lemma sellOffer_guards_witness :
  V22.sellOffer (Scenario.encode4 Scenario.collectionX 7 1000 0)
    (Scenario.ctx Scenario.seller Scenario.t_list 0 Scenario.seller false)
    (mkHost Scenario.st_deployed [])
  = Abort "The end time must be greater than the Context.timestamp()".
Proof.
  destruct (sellOffer_guards
              (Scenario.ctx Scenario.seller Scenario.t_list 0
                 Scenario.seller false)
              (mkHost Scenario.st_deployed [])
              (Scenario.encode4 Scenario.collectionX 7 1000 0)
              Scenario.collectionX 7 1000 0) as (H & _).
  - vm_compute. reflexivity.
  - vm_compute. reflexivity.
  - vm_compute. reflexivity.
  - apply H. vm_compute. discriminate.
Defined.

(** ** Withdrawing and expiring *)

Lemma removeSellOffer_run ctx h binaryArgs c t :
  args2 binaryArgs = Some (c, t) ->
  is_Some (storage h !! (V22.COLLECTION_PREFIX +:+ c)) ->
  is_Some (storage h !! V22._keyGenerator c t) ->
  owner_of ctx c t = Some (ctx_caller ctx) ->
  let ks := keys_with_prefix (bid_prefix c t) (storage h) in
  V22.removeSellOffer binaryArgs ctx h
  = Done tt
      (mkHost (delete (V22._keyGenerator c t) (delete_all ks (storage h)))
         (trace h ++ [Call c "ownerOf" (u256ToBytes t) 0]
          ++ reset_ops (storage h) ks ""
          ++ [StorageDel (V22._keyGenerator c t);
              GenerateEvent ("REMOVE_SELL_OFFER : " +:+ ctx_caller ctx)])).
Proof.
  intros (a & a' & Ha & Ha')%args2_inv Hc Ho
         (ro & Hro & Hown)%owner_of_inv ks.
  unfold V22.removeSellOffer. fwd_bids. rewrite Ha. fwd_bids.
  rewrite Ha'. fwd_bids. rewrite bool_decide_true by done. fwd_bids.
  rewrite bool_decide_true by done. fwd_bids.
  rewrite serialize_u256, Hro. fwd_bids. rewrite Hown.
  rewrite bool_decide_true by done. fwd_bids.
  rewrite resetBids_run. cbv zeta. cbn [storage trace].
  rewrite Storage_del_run; cycle 1.
  { cbn [storage]. left. rewrite lookup_delete_all.
    rewrite bool_decide_false; [eauto|].
    intros [Hp _]%elem_of_keys_with_prefix.
    unfold bid_prefix in Hp. by rewrite offerKey_no_bid_prefix in Hp. }
  cbn [storage trace]. fwd_bids.
  rewrite <- !(@app_assoc HostOp). reflexivity.
Qed.

(** X20: for a collection address of plain ASCII characters,
    [removeSellOffer] by the token's owner on a registered collection
    succeeds: each bid under "bid_<collection>_<tokenId>" is refunded
    once to its recorded bidder and no other coins move; those bids are
    deleted together with the offer, and nothing else changes.  It is refused
    when the collection is not registered, even if the offer is still
    stored, and when no offer is stored. *)
Theorem removeSellOffer_refunds_all_bids ctx h binaryArgs c t :
  args2 binaryArgs = Some (c, t) ->
  plain_ascii c = true ->
  (is_Some (storage h !! (V22.COLLECTION_PREFIX +:+ c)) ->
   is_Some (storage h !! V22._keyGenerator c t) ->
   owner_of ctx c t = Some (ctx_caller ctx) ->
   exists h' refunds,
     V22.removeSellOffer binaryArgs ctx h = Done tt h' /\
     (forall k,
         storage h' !! k
         = if String.prefix (bid_prefix c t) k
              || bool_decide (k = V22._keyGenerator c t)
           then None else storage h !! k) /\
     transfers (trace h') = transfers (trace h) ++ refunds /\
     refunds ≡ₚ bid_refunds (storage h) (bid_prefix c t) "") /\
  (storage h !! (V22.COLLECTION_PREFIX +:+ c) = None ->
   V22.removeSellOffer binaryArgs ctx h
   = Abort "Collection not found in marketplace") /\
  (is_Some (storage h !! (V22.COLLECTION_PREFIX +:+ c)) ->
   storage h !! V22._keyGenerator c t = None ->
   V22.removeSellOffer binaryArgs ctx h = Abort "Sell offer doesnt exist").
Proof.
  intros Ha _. split_and!.
  - intros Hc Ho Hown.
    eexists _, (bid_refunds (storage h) (bid_prefix c t) ""). split.
    { by apply removeSellOffer_run. }
    cbn [storage trace]. split_and!.
    + intros k. destruct (bool_decide (k = V22._keyGenerator c t)) eqn:Ek.
      * apply bool_decide_eq_true in Ek as ->. rewrite orb_true_r.
        apply lookup_delete_eq.
      * apply bool_decide_eq_false in Ek. rewrite orb_false_r.
        rewrite lookup_delete_ne by done. rewrite lookup_delete_all.
        destruct (String.prefix (bid_prefix c t) k) eqn:Hp.
        -- case_bool_decide as Hin; [done|].
           destruct (storage h !! k) eqn:Hk; [|done].
           exfalso. apply Hin. apply elem_of_keys_with_prefix. eauto.
        -- rewrite bool_decide_false; [done|].
           intros [? _]%elem_of_keys_with_prefix. congruence.
    + rewrite !transfers_app, transfers_reset_ops.
      cbn [transfers omap list_omap app]. by rewrite app_nil_r.
    + reflexivity.
  - apply args2_inv in Ha as (a & a' & Ha & Ha').
    intros Hc. unfold V22.removeSellOffer. fwd_bids. rewrite Ha. fwd_bids.
    rewrite Ha'. fwd_bids. rewrite Hc.
    rewrite bool_decide_false by (intros [? ?]; done). reflexivity.
  - apply args2_inv in Ha as (a & a' & Ha & Ha').
    intros Hc Ho. unfold V22.removeSellOffer. fwd_bids. rewrite Ha. fwd_bids.
    rewrite Ha'. fwd_bids. rewrite bool_decide_true by done. fwd_bids.
    rewrite Ho. rewrite bool_decide_false by (intros [? ?]; done).
    reflexivity.
Qed.

Lemma removeSellOffer_refunds_all_bids_witness :
  exists h',
    V22.removeSellOffer (Scenario.encode2 Scenario.collectionX 7)
      (Scenario.ctx Scenario.seller Scenario.t_live 0 Scenario.seller false)
      (mkHost Scenario.st_two_bids []) = Done tt h' /\
    transfers (trace h') = [(Scenario.alice, 100); (Scenario.bob, 250)] /\
    V22.removeSellOffer (Scenario.encode2 Scenario.collectionX 7)
      (Scenario.ctx Scenario.seller Scenario.t_live 0 Scenario.seller false)
      (mkHost Scenario.st_delisted [])
    = Abort "Collection not found in marketplace".
Proof.
  destruct (removeSellOffer_refunds_all_bids
              (Scenario.ctx Scenario.seller Scenario.t_live 0
                 Scenario.seller false)
              (mkHost Scenario.st_two_bids [])
              (Scenario.encode2 Scenario.collectionX 7)
              Scenario.collectionX 7) as (H & _ & _).
  - vm_compute. reflexivity.
  - vm_compute. reflexivity.
  - destruct H as (h' & refunds & E & _).
    + vm_compute. eexists. reflexivity.
    + vm_compute. eexists. reflexivity.
    + vm_compute. reflexivity.
    + exists h'. split; [exact E|].
      vm_compute in E. injection E as <-. split.
      * vm_compute. reflexivity.
      * vm_compute. reflexivity.
Defined.

(** X21: [autonomousDeleteOffer] is refused for every caller other than
    the contract itself, and for the contract itself when the offer is no
    longer stored (bought, withdrawn or deleted before the deferred
    message arrives); the earlier marketplace behaves alike with its own
    message for the first case. *)
Theorem autonomousDeleteOffer_guards ctx h binaryArgs c t :
  args2 binaryArgs = Some (c, t) ->
  (ctx_caller ctx <> ctx_callee ctx ->
   V22.autonomousDeleteOffer binaryArgs ctx h = Abort "You are not root SC."
   /\ V1.autonomousDeleteOffer binaryArgs ctx h = Abort "you are not the SC")
  /\
  (ctx_caller ctx = ctx_callee ctx ->
   storage h !! V22._keyGenerator c t = None ->
   V22.autonomousDeleteOffer binaryArgs ctx h = Abort "sell offer not found"
   /\ V1.autonomousDeleteOffer binaryArgs ctx h
      = Abort "sell offer not found").
Proof.
  intros (a & a' & Ha & Ha')%args2_inv. split.
  - intros Hne. split.
    + unfold V22.autonomousDeleteOffer. fwd_bids. rewrite Ha. fwd_bids.
      rewrite Ha'. fwd_bids. rewrite bool_decide_false by done. reflexivity.
    + unfold V1.autonomousDeleteOffer. fwd_bids. rewrite Ha. fwd_bids.
      rewrite Ha'. fwd_bids. rewrite bool_decide_false by done. reflexivity.
  - intros He Hn. split.
    + unfold V22.autonomousDeleteOffer. fwd_bids. rewrite Ha. fwd_bids.
      rewrite Ha'. fwd_bids. rewrite bool_decide_true by done. fwd_bids.
      rewrite Hn. rewrite bool_decide_false by (intros [? ?]; done).
      reflexivity.
    + unfold V1.autonomousDeleteOffer. fwd_bids. rewrite Ha. fwd_bids.
      rewrite Ha'. fwd_bids. rewrite bool_decide_true by done. fwd_bids.
      rewrite offerKey_versions, Hn.
      rewrite bool_decide_false by (intros [? ?]; done). reflexivity.
Qed.

Lemma autonomousDeleteOffer_guards_witness :
  V22.autonomousDeleteOffer (Scenario.encode2 Scenario.collectionX 7)
    (Scenario.ctx Scenario.seller Scenario.t_late 0 Scenario.seller false)
    (mkHost Scenario.st_listed []) = Abort "You are not root SC.".
Proof.
  destruct (autonomousDeleteOffer_guards
              (Scenario.ctx Scenario.seller Scenario.t_late 0
                 Scenario.seller false)
              (mkHost Scenario.st_listed [])
              (Scenario.encode2 Scenario.collectionX 7)
              Scenario.collectionX 7) as (H & _).
  - vm_compute. reflexivity.
  - apply H. vm_compute. discriminate.
Defined.

(** ** Administration *)

Lemma onlyOwner_run ctx h ownerBytes :
  storage h !! V22.MARKETPLACE_OWNER_KEY = Some ownerBytes ->
  V22._onlyOwner ctx h
  = Done (bool_decide (ctx_caller ctx = bytesToString ownerBytes)) h.
Proof. intros Ho. unfold V22._onlyOwner. fwd_bids. by rewrite Ho. Qed.

Ltac gate_rejects Ho Hne :=
  fwd_bids;
  change V1.MARKETPLACE_OWNER_KEY with V22.MARKETPLACE_OWNER_KEY;
  rewrite Ho; fwd_bids;
  rewrite bool_decide_false by exact Hne; reflexivity.

(** X22: every administration entry point starts with the same gate:
    a caller other than the stored marketplace owner is refused with
    "The caller is not the owner of the contract" whatever the
    arguments, before anything is read or written. *)
Theorem admin_entry_points_reject_other_callers ctx h binaryArgs ownerBytes :
  storage h !! V22.MARKETPLACE_OWNER_KEY = Some ownerBytes ->
  ctx_caller ctx <> bytesToString ownerBytes ->
  let refused (f : bytes -> M unit) :=
    f binaryArgs ctx h = Abort "The caller is not the owner of the contract"
  in
  refused V22.adminAddCollection /\
  refused V22.adminDeleteCollection /\
  refused V22.adminChangeMarketplaceOwner /\
  refused V22.adminSendCoins /\
  refused V22.adminDeleteOffer /\
  refused V22.adminRemoveBid /\
  refused V22.adminChangeMarketplaceFee /\
  refused V1.adminDeleteOffer /\
  refused V1.adminChangeMarketplaceFee.
Proof.
  intros Ho Hne. cbv zeta. split_and!.
  - unfold V22.adminAddCollection. gate_rejects Ho Hne.
  - unfold V22.adminDeleteCollection. gate_rejects Ho Hne.
  - unfold V22.adminChangeMarketplaceOwner. gate_rejects Ho Hne.
  - unfold V22.adminSendCoins. gate_rejects Ho Hne.
  - unfold V22.adminDeleteOffer. gate_rejects Ho Hne.
  - unfold V22.adminRemoveBid. gate_rejects Ho Hne.
  - unfold V22.adminChangeMarketplaceFee. gate_rejects Ho Hne.
  - unfold V1.adminDeleteOffer. gate_rejects Ho Hne.
  - unfold V1.adminChangeMarketplaceFee. gate_rejects Ho Hne.
Qed.

Lemma admin_entry_points_reject_other_callers_witness :
  V22.adminChangeMarketplaceFee (u64ToBytes 90)
    (Scenario.ctx Scenario.seller Scenario.t_live 0 Scenario.seller false)
    (mkHost Scenario.st_listed [])
  = Abort "The caller is not the owner of the contract".
Proof.
  destruct (admin_entry_points_reject_other_callers
              (Scenario.ctx Scenario.seller Scenario.t_live 0
                 Scenario.seller false)
              (mkHost Scenario.st_listed []) (u64ToBytes 90)
              (stringToBytes Scenario.admin))
    as (_ & _ & _ & _ & _ & _ & H & _).
  - vm_compute. reflexivity.
  - vm_compute. discriminate.
  - exact H.
Defined.

Lemma args1_inv binaryArgs c :
  args1 binaryArgs = Some c ->
  exists a, nextString (Args_new binaryArgs 0) = Some (c, a).
Proof. unfold args1. intros H. repeat case_match; simplify_eq. eauto. Qed.

Lemma args_collection_inv binaryArgs d :
  args_collection binaryArgs = Some d ->
  exists a1 a2 a3 a4 a5 a6 a7,
    nextString (Args_new binaryArgs 0) = Some (name d, a1) /\
    nextString a1 = Some (desc d, a2) /\
    nextString a2 = Some (address d, a3) /\
    nextString a3 = Some (externalWebsite d, a4) /\
    nextString a4 = Some (bannerImage d, a5) /\
    nextString a5 = Some (backgroundImage d, a6) /\
    nextString a6 = Some (collectionLogoImage d, a7) /\
    d = mkCollectionDetail (name d) (desc d) (address d) (externalWebsite d)
          (bannerImage d) (backgroundImage d) (collectionLogoImage d).
Proof.
  unfold args_collection. intros H.
  destruct (nextString (Args_new binaryArgs 0)) as [[? a1]|] eqn:E1; [|done].
  cbn in H. destruct (nextString a1) as [[? a2]|] eqn:E2; [|done].
  cbn in H. destruct (nextString a2) as [[? a3]|] eqn:E3; [|done].
  cbn in H. destruct (nextString a3) as [[? a4]|] eqn:E4; [|done].
  cbn in H. destruct (nextString a4) as [[? a5]|] eqn:E5; [|done].
  cbn in H. destruct (nextString a5) as [[? a6]|] eqn:E6; [|done].
  cbn in H. destruct (nextString a6) as [[? a7]|] eqn:E7; [|done].
  cbn in H. injection H as <-. cbn.
  exists a1, a2, a3, a4, a5, a6, a7. split_and!; done.
Qed.

Lemma adminAddCollection_run ctx h binaryArgs d ownerBytes :
  args_collection binaryArgs = Some d ->
  storage h !! V22.MARKETPLACE_OWNER_KEY = Some ownerBytes ->
  ctx_caller ctx = bytesToString ownerBytes ->
  let key := V22.COLLECTION_PREFIX +:+ address d in
  V22.adminAddCollection binaryArgs ctx h
  = Done tt (mkHost (<[key := CollectionDetail_serialize d]> (storage h))
               (trace h ++ [StorageSet key (CollectionDetail_serialize d)])).
Proof.
  intros (a1 & a2 & a3 & a4 & a5 & a6 & a7 & H1 & H2 & H3 & H4 & H5 & H6
          & H7 & Hd)%args_collection_inv Ho Hcaller key.
  unfold V22.adminAddCollection. fwd_bids. rewrite Ho. fwd_bids.
  rewrite bool_decide_true by done. fwd_bids.
  rewrite H1. fwd_bids. rewrite H2. fwd_bids. rewrite H3. fwd_bids.
  rewrite H4. fwd_bids. rewrite H5. fwd_bids. rewrite H6. fwd_bids.
  rewrite H7. fwd_bids. rewrite <- Hd. reflexivity.
Qed.

Lemma adminDeleteCollection_run ctx h binaryArgs c ownerBytes :
  args1 binaryArgs = Some c ->
  storage h !! V22.MARKETPLACE_OWNER_KEY = Some ownerBytes ->
  ctx_caller ctx = bytesToString ownerBytes ->
  let key := V22.COLLECTION_PREFIX +:+ c in
  V22.adminDeleteCollection binaryArgs ctx h
  = match storage h !! key with
    | Some _ => Done tt (mkHost (delete key (storage h))
                           (trace h ++ [StorageDel key]))
    | None => Abort "Collection is not found"
    end.
Proof.
  intros (a & Ha)%args1_inv Ho Hcaller key.
  unfold V22.adminDeleteCollection. fwd_bids. rewrite Ho. fwd_bids.
  rewrite bool_decide_true by done. fwd_bids. rewrite Ha. fwd_bids.
  fold key. destruct (storage h !! key) as [v|] eqn:Hk.
  - rewrite bool_decide_true by eauto. fwd_bids.
    rewrite Storage_del_run by (cbn [storage]; eauto). reflexivity.
  - rewrite bool_decide_false by (intros [? ?]; done). reflexivity.
Qed.

(** X23: the collection registry, for a collection address of plain
    ASCII characters.  [adminAddCollection] by the owner writes the
    record under "collection_<address>" (replacing any earlier one),
    after which the address counts as registered;
    [adminDeleteCollection] of that address then removes it again, and
    when the address was not registered before, the datastore is back to
    what it was.  Deleting an address that is not registered is refused
    with "Collection is not found". *)
Theorem collection_registry_roundtrip ctx h addArgs delArgs d ownerBytes :
  args_collection addArgs = Some d ->
  args1 delArgs = Some (address d) ->
  plain_ascii (address d) = true ->
  storage h !! V22.MARKETPLACE_OWNER_KEY = Some ownerBytes ->
  ctx_caller ctx = bytesToString ownerBytes ->
  let key := V22.COLLECTION_PREFIX +:+ address d in
  (exists h1 h2,
      V22.adminAddCollection addArgs ctx h = Done tt h1 /\
      V22._hasCollection (address d) ctx h1 = Done true h1 /\
      (forall k, k <> key -> storage h1 !! k = storage h !! k) /\
      V22.adminDeleteCollection delArgs ctx h1 = Done tt h2 /\
      V22._hasCollection (address d) ctx h2 = Done false h2 /\
      storage h2 = delete key (storage h)) /\
  (storage h !! key = None ->
   V22.adminDeleteCollection delArgs ctx h = Abort "Collection is not found").
Proof.
  intros Ha Hd _ Ho Hcaller key. split.
  - eexists _, _. split_and!.
    + by eapply adminAddCollection_run.
    + unfold V22._hasCollection. fwd_bids. fold key.
      rewrite lookup_insert_eq. by rewrite bool_decide_true by eauto.
    + intros k Hk. cbn [storage]. by rewrite lookup_insert_ne.
    + rewrite (adminDeleteCollection_run _ _ _ (address d) ownerBytes);
        try done.
      * cbn [storage]. fold key. rewrite lookup_insert_eq. reflexivity.
      * cbn [storage]. by rewrite lookup_insert_ne.
    + unfold V22._hasCollection. fwd_bids. fold key.
      rewrite lookup_delete_eq.
      by rewrite bool_decide_false by (intros [? ?]; done).
    + cbn [storage]. apply delete_insert_eq.
  - intros Hn.
    rewrite (adminDeleteCollection_run _ _ _ (address d) ownerBytes);
      try done.
    fold key. by rewrite Hn.
Qed.

Lemma collection_registry_roundtrip_witness :
  exists h1 h2,
    V22.adminAddCollection
      (serialize
         (add_string "logo" (add_string "background" (add_string "banner"
           (add_string "site" (add_string "AS1collectionY"
             (add_string "about" (add_string "Y" Args_empty))))))))
      (Scenario.ctx Scenario.admin Scenario.t_live 0 Scenario.seller false)
      (mkHost Scenario.st_listed []) = Done tt h1 /\
    V22.adminDeleteCollection (Scenario.encode1 "AS1collectionY")
      (Scenario.ctx Scenario.admin Scenario.t_live 0 Scenario.seller false)
      h1 = Done tt h2 /\
    storage h2 = Scenario.st_listed.
Proof.
  destruct (collection_registry_roundtrip
              (Scenario.ctx Scenario.admin Scenario.t_live 0
                 Scenario.seller false)
              (mkHost Scenario.st_listed [])
              (serialize
                 (add_string "logo" (add_string "background"
                   (add_string "banner" (add_string "site"
                     (add_string "AS1collectionY"
                       (add_string "about" (add_string "Y" Args_empty))))))))
              (Scenario.encode1 "AS1collectionY")
              (mkCollectionDetail "Y" "about" "AS1collectionY" "site"
                 "banner" "background" "logo")
              (stringToBytes Scenario.admin))
    as ((h1 & h2 & E1 & _ & _ & E2 & _ & Hst) & _).
  - vm_compute. reflexivity.
  - vm_compute. reflexivity.
  - vm_compute. reflexivity.
  - vm_compute. reflexivity.
  - vm_compute. reflexivity.
  - exists h1, h2. split; [exact E1|]. split; [exact E2|].
    rewrite Hst. apply delete_id. vm_compute. reflexivity.
Defined.

Lemma bytesToString_stringToBytes s : bytesToString (stringToBytes s) = s.
Proof. apply string_of_list_byte_of_string. Qed.

(** X24: [adminChangeMarketplaceFee] by the owner stores any u64 it is
    given, with no upper bound, and [calculateMarketplaceFee] then
    charges that rate on the whole hundreds of the amount, in u64
    arithmetic, without touching the state. *)
Theorem adminChangeMarketplaceFee_sets_rate
    ctx ctx' h binaryArgs newFee ownerBytes :
  args_fee binaryArgs = Some newFee ->
  storage h !! V22.MARKETPLACE_OWNER_KEY = Some ownerBytes ->
  ctx_caller ctx = bytesToString ownerBytes ->
  exists h',
    V22.adminChangeMarketplaceFee binaryArgs ctx h = Done tt h' /\
    storage h' = <[V22.MARKETPLACE_FEE_KEY := u64ToBytes newFee]> (storage h) /\
    forall amount,
      V22.calculateMarketplaceFee amount ctx' h'
      = Done (wrap64 (amount / 100 * newFee)) h'.
Proof.
  unfold args_fee. intros Ha Ho Hcaller.
  destruct (nextU64 (Args_new binaryArgs 0)) as [[v a]|] eqn:Hn; [|done].
  injection Ha as ->. pose proof (nextU64_range _ _ _ Hn) as Hr.
  eexists. split_and!.
  - unfold V22.adminChangeMarketplaceFee. fwd_bids. rewrite Ho. fwd_bids.
    rewrite bool_decide_true by done. fwd_bids. rewrite Hn. fwd_bids.
    reflexivity.
  - reflexivity.
  - intros amount. unfold V22.calculateMarketplaceFee. fwd_bids.
    rewrite lookup_insert_eq. fwd_bids.
    rewrite bytesToU64_u64ToBytes, (wrap64_small newFee) by done. reflexivity.
Qed.

Lemma adminChangeMarketplaceFee_sets_rate_witness :
  exists h',
    V22.adminChangeMarketplaceFee (u64ToBytes 250)
      (Scenario.ctx Scenario.admin Scenario.t_live 0 Scenario.seller false)
      (mkHost Scenario.st_listed []) = Done tt h' /\
    V22.calculateMarketplaceFee 1000
      (Scenario.ctx Scenario.carol Scenario.t_live 0 Scenario.seller false) h'
    = Done 2500 h'.
Proof.
  destruct (adminChangeMarketplaceFee_sets_rate
              (Scenario.ctx Scenario.admin Scenario.t_live 0
                 Scenario.seller false)
              (Scenario.ctx Scenario.carol Scenario.t_live 0
                 Scenario.seller false)
              (mkHost Scenario.st_listed []) (u64ToBytes 250) 250
              (stringToBytes Scenario.admin)) as (h' & E & _ & Hfee).
  - vm_compute. reflexivity.
  - vm_compute. reflexivity.
  - vm_compute. reflexivity.
  - exists h'. split; [exact E|]. rewrite Hfee. reflexivity.
Defined.

(** X25: [adminChangeMarketplaceOwner] by the owner, given a new address
    of plain ASCII characters, hands the gate over: afterwards
    [_onlyOwner] holds exactly for the new address, so the previous owner
    is refused at the gate, and [_marketplaceOwner], to which [buyOffer]
    sends the fee, is the new address. *)
Theorem adminChangeMarketplaceOwner_hands_over
    ctx ctx' h binaryArgs newAdmin ownerBytes :
  args1 binaryArgs = Some newAdmin ->
  plain_ascii newAdmin = true ->
  storage h !! V22.MARKETPLACE_OWNER_KEY = Some ownerBytes ->
  ctx_caller ctx = bytesToString ownerBytes ->
  exists h',
    V22.adminChangeMarketplaceOwner binaryArgs ctx h = Done tt h' /\
    (forall k, k <> V22.MARKETPLACE_OWNER_KEY ->
               storage h' !! k = storage h !! k) /\
    V22._onlyOwner ctx' h'
    = Done (bool_decide (ctx_caller ctx' = newAdmin)) h' /\
    V22._marketplaceOwner ctx' h' = Done newAdmin h' /\
    (ctx_caller ctx' <> newAdmin ->
     forall args,
       V22.adminChangeMarketplaceOwner args ctx' h'
       = Abort "The caller is not the owner of the contract").
Proof.
  intros (a & Ha)%args1_inv _ Ho Hcaller.
  eexists. split_and!.
  - unfold V22.adminChangeMarketplaceOwner. fwd_bids. rewrite Ho. fwd_bids.
    rewrite bool_decide_true by done. fwd_bids. rewrite Ha. fwd_bids.
    reflexivity.
  - intros k Hk. cbn [storage]. by rewrite lookup_insert_ne.
  - unfold V22._onlyOwner. fwd_bids. rewrite lookup_insert_eq. fwd_bids.
    by rewrite bytesToString_stringToBytes.
  - unfold V22._marketplaceOwner. fwd_bids. rewrite lookup_insert_eq.
    fwd_bids. by rewrite bytesToString_stringToBytes.
  - intros Hne args. unfold V22.adminChangeMarketplaceOwner. fwd_bids.
    rewrite lookup_insert_eq. fwd_bids.
    rewrite bytesToString_stringToBytes.
    rewrite bool_decide_false by done. reflexivity.
Qed.

Lemma adminChangeMarketplaceOwner_hands_over_witness :
  exists h',
    V22.adminChangeMarketplaceOwner (Scenario.encode1 Scenario.carol)
      (Scenario.ctx Scenario.admin Scenario.t_live 0 Scenario.seller false)
      (mkHost Scenario.st_listed []) = Done tt h' /\
    V22.adminChangeMarketplaceOwner (Scenario.encode1 Scenario.admin)
      (Scenario.ctx Scenario.admin Scenario.t_late 0 Scenario.seller false)
      h'
    = Abort "The caller is not the owner of the contract".
Proof.
  destruct (adminChangeMarketplaceOwner_hands_over
              (Scenario.ctx Scenario.admin Scenario.t_live 0
                 Scenario.seller false)
              (Scenario.ctx Scenario.admin Scenario.t_late 0
                 Scenario.seller false)
              (mkHost Scenario.st_listed [])
              (Scenario.encode1 Scenario.carol) Scenario.carol
              (stringToBytes Scenario.admin))
    as (h' & E & _ & _ & _ & Hrej).
  - vm_compute. reflexivity.
  - vm_compute. reflexivity.
  - vm_compute. reflexivity.
  - vm_compute. reflexivity.
  - exists h'. split; [exact E|]. apply Hrej. vm_compute. discriminate.
Defined.

(** X26: [adminRemoveBid] by the owner for the bidder [b] has the very
    outcome of [removeBid] called by [b]: the same refund to [b] and the
    same deletion when the bid is stored, the same "Bid not found"
    otherwise. *)
Theorem adminRemoveBid_acts_as_bidder
    ctx ctxb h adminArgs userArgs c t b ownerBytes :
  args3 adminArgs = Some (c, t, b) ->
  args2 userArgs = Some (c, t) ->
  storage h !! V22.MARKETPLACE_OWNER_KEY = Some ownerBytes ->
  ctx_caller ctx = bytesToString ownerBytes ->
  ctx_caller ctxb = b ->
  V22.adminRemoveBid adminArgs ctx h = V22.removeBid userArgs ctxb h.
Proof.
  intros (a1 & a2 & a3 & H1 & H2 & H3)%args3_inv Hu Ho Hcaller Hb.
  destruct (storage h !! V22._bidKeyGenerator c t b) as [data|] eqn:Hk.
  - rewrite (removeBid_run ctxb h userArgs c t data Hu)
      by (by rewrite Hb).
    rewrite Hb.
    unfold V22.adminRemoveBid. fwd_bids. rewrite Ho. fwd_bids.
    rewrite bool_decide_true by done. fwd_bids.
    rewrite H1. fwd_bids. rewrite H2. fwd_bids. rewrite H3. fwd_bids.
    rewrite Hk. rewrite bool_decide_true by eauto. fwd_bids.
    rewrite Hk. fwd_bids.
    rewrite decode_bid_eq. fwd_bids. rewrite Bid_deserialize_isOk. fwd_bids.
    rewrite Storage_del_run by (cbn [storage]; eauto). cbn [storage trace].
    rewrite <- !(@app_assoc HostOp). reflexivity.
  - rewrite (removeBid_absent ctxb h userArgs c t Hu) by (by rewrite Hb).
    unfold V22.adminRemoveBid. fwd_bids. rewrite Ho. fwd_bids.
    rewrite bool_decide_true by done. fwd_bids.
    rewrite H1. fwd_bids. rewrite H2. fwd_bids. rewrite H3. fwd_bids.
    rewrite Hk. rewrite bool_decide_false by (intros [? ?]; done).
    reflexivity.
Qed.

Lemma adminRemoveBid_acts_as_bidder_witness :
  V22.adminRemoveBid (Scenario.encode3 Scenario.collectionX 7 Scenario.bob)
    (Scenario.ctx Scenario.admin Scenario.t_late 0 Scenario.seller false)
    (mkHost Scenario.st_two_bids [])
  = V22.removeBid (Scenario.encode2 Scenario.collectionX 7)
      (Scenario.ctx Scenario.bob Scenario.t_late 0 Scenario.seller false)
      (mkHost Scenario.st_two_bids []).
Proof.
  apply (adminRemoveBid_acts_as_bidder
           (Scenario.ctx Scenario.admin Scenario.t_late 0
              Scenario.seller false)
           (Scenario.ctx Scenario.bob Scenario.t_late 0
              Scenario.seller false)
           (mkHost Scenario.st_two_bids [])
           (Scenario.encode3 Scenario.collectionX 7 Scenario.bob)
           (Scenario.encode2 Scenario.collectionX 7)
           Scenario.collectionX 7 Scenario.bob
           (stringToBytes Scenario.admin)).
  - vm_compute. reflexivity.
  - vm_compute. reflexivity.
  - vm_compute. reflexivity.
  - vm_compute. reflexivity.
  - reflexivity.
Defined.

(** X27: [adminDeleteOffer] by the owner removes a stored offer without
    asking whether the collection is still registered or who owns the
    token.  In v2.2 each bid under "bid_<collection>_<tokenId>" is
    refunded once to its recorded bidder and no other coins move, and
    those bids are deleted with the offer; the earlier marketplace
    deletes the offer key and nothing else. *)
Theorem adminDeleteOffer_clears_listing ctx h binaryArgs c t ownerBytes :
  args2 binaryArgs = Some (c, t) ->
  storage h !! V22.MARKETPLACE_OWNER_KEY = Some ownerBytes ->
  ctx_caller ctx = bytesToString ownerBytes ->
  is_Some (storage h !! V22._keyGenerator c t) ->
  (exists h' refunds,
      V22.adminDeleteOffer binaryArgs ctx h = Done tt h' /\
      (forall k,
          storage h' !! k
          = if String.prefix (bid_prefix c t) k
               || bool_decide (k = V22._keyGenerator c t)
            then None else storage h !! k) /\
      transfers (trace h') = transfers (trace h) ++ refunds /\
      refunds ≡ₚ bid_refunds (storage h) (bid_prefix c t) "") /\
  V1.adminDeleteOffer binaryArgs ctx h
  = Done tt (mkHost (delete (V22._keyGenerator c t) (storage h))
               (trace h ++ [StorageDel (V22._keyGenerator c t)])).
Proof.
  intros (a & a' & Ha & Ha')%args2_inv Ho Hcaller Hk. split.
  - eexists _, (bid_refunds (storage h) (bid_prefix c t) ""). split.
    { unfold V22.adminDeleteOffer. fwd_bids. rewrite Ho. fwd_bids.
      rewrite bool_decide_true by done. fwd_bids.
      rewrite Ha. fwd_bids. rewrite Ha'. fwd_bids.
      rewrite resetBids_run. cbv zeta. cbn [storage trace].
      rewrite Storage_del_run; [reflexivity|].
      cbn [storage]. left. rewrite lookup_delete_all.
      rewrite bool_decide_false; [eauto|].
      intros [Hp _]%elem_of_keys_with_prefix.
      unfold bid_prefix in Hp. by rewrite offerKey_no_bid_prefix in Hp. }
    cbn [storage trace]. split_and!.
    + intros k. destruct (bool_decide (k = V22._keyGenerator c t)) eqn:Ek.
      * apply bool_decide_eq_true in Ek as ->. rewrite orb_true_r.
        apply lookup_delete_eq.
      * apply bool_decide_eq_false in Ek. rewrite orb_false_r.
        rewrite lookup_delete_ne by done. rewrite lookup_delete_all.
        destruct (String.prefix (bid_prefix c t) k) eqn:Hp.
        -- case_bool_decide as Hin; [done|].
           destruct (storage h !! k) eqn:Hk'; [|done].
           exfalso. apply Hin. apply elem_of_keys_with_prefix. eauto.
        -- rewrite bool_decide_false; [done|].
           intros [? _]%elem_of_keys_with_prefix. congruence.
    + rewrite !transfers_app, transfers_reset_ops.
      cbn [transfers omap list_omap app]. by rewrite app_nil_r.
    + reflexivity.
  - unfold V1.adminDeleteOffer. fwd_bids.
    change V1.MARKETPLACE_OWNER_KEY with V22.MARKETPLACE_OWNER_KEY.
    rewrite Ho. fwd_bids.
    rewrite bool_decide_true by done. fwd_bids.
    rewrite Ha. fwd_bids. rewrite Ha'. fwd_bids.
    rewrite offerKey_versions.
    by rewrite Storage_del_run by (cbn [storage]; eauto).
Qed.

Lemma adminDeleteOffer_clears_listing_witness :
  exists h',
    V22.adminDeleteOffer (Scenario.encode2 Scenario.collectionX 7)
      (Scenario.ctx Scenario.admin Scenario.t_live 0 Scenario.seller false)
      (mkHost Scenario.st_delisted []) = Done tt h' /\
    storage h' !! V22._keyGenerator Scenario.collectionX 7 = None.
Proof.
  destruct (adminDeleteOffer_clears_listing
              (Scenario.ctx Scenario.admin Scenario.t_live 0
                 Scenario.seller false)
              (mkHost Scenario.st_delisted [])
              (Scenario.encode2 Scenario.collectionX 7)
              Scenario.collectionX 7 (stringToBytes Scenario.admin))
    as ((h' & refunds & E & Hst & _) & _).
  - vm_compute. reflexivity.
  - vm_compute. reflexivity.
  - vm_compute. reflexivity.
  - vm_compute. eexists. reflexivity.
  - exists h'. split; [exact E|]. rewrite Hst.
    rewrite bool_decide_true by done. by rewrite orb_true_r.
Defined.

(** ** The fee *)

(** X28: [calculateMarketplaceFee] reads the stored rate and leaves the
    state alone.  With a rate of at most 100 the fee is the rate times
    the whole hundreds of the amount: never more than the amount, nothing
    at all for an amount under 100, and the same as for the amount
    rounded down to a multiple of 100. *)
Theorem calculateMarketplaceFee_whole_hundreds ctx h amount feeBytes :
  storage h !! V22.MARKETPLACE_FEE_KEY = Some feeBytes ->
  0 <= amount < 2 ^ 64 ->
  bytesToU64 feeBytes <= 100 ->
  let fee := amount / 100 * bytesToU64 feeBytes in
  V22.calculateMarketplaceFee amount ctx h = Done fee h /\
  0 <= fee <= amount /\
  (amount < 100 -> fee = 0) /\
  V22.calculateMarketplaceFee (amount / 100 * 100) ctx h = Done fee h.
Proof.
  intros Hfee Ha HF fee.
  destruct (fee_split amount (bytesToU64 feeBytes)) as (E1 & E2 & _);
    [done|pose proof (bytesToU64_range feeBytes); lia|].
  cbv zeta in E1, E2. rewrite E1 in E2. split_and!.
  - unfold V22.calculateMarketplaceFee. fwd_bids. rewrite Hfee. fwd_bids.
    by rewrite E1.
  - subst fee. lia.
  - subst fee. lia.
  - intros Hlt. subst fee. rewrite Z.div_small by lia. lia.
  - unfold V22.calculateMarketplaceFee. fwd_bids. rewrite Hfee. fwd_bids.
    rewrite Z.div_mul by lia. by rewrite E1.
Qed.

Lemma calculateMarketplaceFee_whole_hundreds_witness :
  V22.calculateMarketplaceFee 199
    (Scenario.ctx Scenario.carol Scenario.t_live 0 Scenario.seller false)
    (mkHost Scenario.st_listed [])
  = Done 5 (mkHost Scenario.st_listed []).
Proof.
  destruct (calculateMarketplaceFee_whole_hundreds
              (Scenario.ctx Scenario.carol Scenario.t_live 0
                 Scenario.seller false)
              (mkHost Scenario.st_listed []) 199 (u64ToBytes 5))
    as (H & _).
  - vm_compute. reflexivity.
  - lia.
  - vm_compute. discriminate.
  - exact H.
Defined.

(** X29: in the earlier marketplace a live, fully paid offer settles for
    any caller, contract or not.  [buyOffer] does exactly this, in this
    order: it asks the collection for the token's owner, asks it to move
    the token from that owner to the caller, sends the owner the price
    less the fee (rate at most 100), reports the sale and deletes the
    offer key; the fee is sent to nobody. *)
Theorem buyOffer_v1_settles ctx h binaryArgs c t data feeBytes owner r :
  args2 binaryArgs = Some (c, t) ->
  is_Some (storage h !! (V1.COLLECTION_PREFIX +:+ c)) ->
  storage h !! V1._keyGenerator c t = Some data ->
  wrap64 (ctx_timestamp ctx) <= expirationTime (decode_offer data) ->
  price (decode_offer data) <= wrap64 (ctx_transferredCoins ctx) ->
  owner_of ctx c t = Some owner ->
  ctx_call ctx c "transferFrom"
    (serialize (add_u256 t (add_string (ctx_caller ctx)
                              (add_string owner Args_empty))))
    10000000 = Some r ->
  storage h !! V1.MARKETPLACE_FEE_KEY = Some feeBytes ->
  bytesToU64 feeBytes <= 100 ->
  let P := price (decode_offer data) in
  let fee := P / 100 * bytesToU64 feeBytes in
  exists h',
    V1.buyOffer binaryArgs ctx h = Done tt h' /\
    storage h' = delete (V1._keyGenerator c t) (storage h) /\
    trace h'
    = trace h ++
      [Call c "ownerOf" (u256ToBytes t) 0;
       Call c "transferFrom"
         (serialize (add_u256 t (add_string (ctx_caller ctx)
                                   (add_string owner Args_empty))))
         10000000;
       TransferCoins owner (P - fee);
       GenerateEvent (ctx_caller ctx +:+ " bought this " +:+ pretty t
                      +:+ " NFT at this " +:+ pretty P +:+ " price");
       StorageDel (V1._keyGenerator c t)] /\
    0 <= fee <= P /\
    transfers (trace h') = transfers (trace h) ++ [(owner, P - fee)].
Proof.
  intros (a & a' & Ha & Ha')%args2_inv Hc Ho Hexp Hpaid
         (ro & Hro & Hown)%owner_of_inv Htr Hfee HF P fee.
  destruct (fee_split P (bytesToU64 feeBytes)) as (E1 & E2 & E3).
  { apply decode_offer_price_range. }
  { pose proof (bytesToU64_range feeBytes). lia. }
  cbv zeta in E1, E2, E3. fold P in E1, E2, E3. rewrite E1 in E2, E3.
  fold fee in E2, E3.
  assert (Hrun :
    V1.buyOffer binaryArgs ctx h
    = Done tt
        (mkHost (delete (V1._keyGenerator c t) (storage h))
           (trace h ++
            [Call c "ownerOf" (u256ToBytes t) 0;
             Call c "transferFrom"
               (serialize (add_u256 t (add_string (ctx_caller ctx)
                                         (add_string owner Args_empty))))
               10000000;
             TransferCoins owner (P - fee);
             GenerateEvent (ctx_caller ctx +:+ " bought this " +:+ pretty t
                            +:+ " NFT at this " +:+ pretty P +:+ " price");
             StorageDel (V1._keyGenerator c t)]))).
  { unfold V1.buyOffer. fwd_bids. rewrite Ha. fwd_bids. rewrite Ha'.
    fwd_bids. rewrite bool_decide_true by done. fwd_bids.
    rewrite Ho. rewrite bool_decide_true by eauto. fwd_bids.
    rewrite Ho. fwd_bids. rewrite decode_offer_eq. fwd_bids.
    rewrite SellOffer_deserialize_isOk. fwd_bids.
    apply Z.leb_le in Hexp. rewrite Hexp. fwd_bids.
    apply Z.leb_le in Hpaid. rewrite Hpaid. fwd_bids.
    rewrite serialize_u256, Hro. fwd_bids. rewrite Hown, Htr. fwd_bids.
    rewrite Hfee. fwd_bids.
    rewrite Storage_del_run by (cbn [storage]; eauto).
    cbn [storage trace]. fold P. rewrite E1. fold fee. rewrite E3.
    rewrite <- !(@app_assoc HostOp). reflexivity. }
  eexists. split; [exact Hrun|]. cbn [storage trace]. split_and!.
  - reflexivity.
  - reflexivity.
  - lia.
  - lia.
  - rewrite transfers_app. reflexivity.
Qed.

Lemma buyOffer_v1_settles_witness :
  exists h',
    V1.buyOffer (Scenario.encode2 Scenario.collectionX 7)
      (Scenario.ctx Scenario.market Scenario.t_live 1000 Scenario.seller
         false)
      (mkHost Scenario.st_listed_v1 []) = Done tt h' /\
    transfers (trace h') = [(Scenario.seller, 950)].
Proof.
  destruct (Scenario.st_listed_v1 !! V1._keyGenerator Scenario.collectionX 7)
    as [data|] eqn:Hd; [|vm_compute in Hd; discriminate].
  destruct (buyOffer_v1_settles
              (Scenario.ctx Scenario.market Scenario.t_live 1000
                 Scenario.seller false)
              (mkHost Scenario.st_listed_v1 [])
              (Scenario.encode2 Scenario.collectionX 7)
              Scenario.collectionX 7 data (u64ToBytes 5) Scenario.seller [])
    as (h' & E & _ & _ & _ & Htr).
  - vm_compute. reflexivity.
  - vm_compute. eexists. reflexivity.
  - exact Hd.
  - vm_compute in Hd. injection Hd as <-. vm_compute. discriminate.
  - vm_compute in Hd. injection Hd as <-. vm_compute. discriminate.
  - vm_compute. reflexivity.
  - vm_compute. reflexivity.
  - vm_compute. reflexivity.
  - vm_compute. discriminate.
  - exists h'. split; [exact E|]. rewrite Htr.
    vm_compute in Hd. injection Hd as <-. vm_compute. reflexivity.
Defined.
